(** * pychemqt, tools/UI_Tables.py: the thermodynamic tables and plots add-on

    A shallow embedding of the decision logic of [UI_Tables.py]: the choice of
    the calculation method, the validity check of a computed state point, the
    computation of the melting and sublimation lines, the cache of computed
    plot data, the drawing of the phase boundary lines, the status shown by
    the "add point" dialog and the saving and loading of a table; then the
    choice of the axes of a plot, the temperatures of the lines, calcIsoline
    and the isolines of calculatePlot, createTabla and the rows of a table,
    the moves of the dialog of the properties and the position of the label
    of a line.

    Conventions of the embedding.
    - A Python exception is a value of [exn]; a function that may raise
      returns a [result].  The sequencing of Python statements is the bind of
      [result], so that the order in which the source reads its inputs (and the
      short circuit of [and]) is kept.
    - A Python float is a rational number ([Q]): the comparisons and the
      additions the source makes are exact here, rounding and NaN are outside
      the model.
    - A function that can also divide by zero returns an [outcome], whose
      error is a [raised]: an [exn] or ZeroDivisionError.
    - A cell of a [QTableWidget] that has no item, or that is not in the
      table, has the item [None], as [item] and [takeItem] of Qt return it.
    - The objects this file receives from its collaborators ([ConfigParser],
      the fluid classes of [lib.mEoS], [lib.coolProp], [lib.refProp], the
      widgets of [UI.widgets]) are records whose fields are the attributes and
      methods the source uses. *)

From Stdlib Require Import ZArith QArith Qround List Bool Lia.
From stdpp Require Import base option list strings gmap fin_maps.

Local Open Scope string_scope.
Local Open Scope Z_scope.

(** ** Exceptions and results *)

Inductive exn : Set :=
  | NameError        (* also UnboundLocalError, its subclass *)
  | KeyError
  | IndexError
  | ValueError
  | AttributeError
  | TypeError
  | ConfigError      (* NoSectionError, NoOptionError of configparser *)
  | PickleError.

Inductive result (A : Type) : Type :=
  | Ok (a : A)
  | Raise (e : exn).
Arguments Ok {A} a.
Arguments Raise {A} e.

#[global] Instance result_ret : MRet result := fun A a => Ok a.
#[global] Instance result_bind : MBind result :=
  fun A B f m => match m with Ok a => f a | Raise e => Raise e end.

Definition is_Ok {A} (r : result A) : Prop := exists a, r = Ok a.

(** [a and b] of Python on values that are read from the outside: [b] is
    evaluated only when [a] is true. *)
Definition py_and (a b : result bool) : result bool :=
  x ← a; if (x : bool) then b else Ok false.

(** [l[i]] of Python on a list: a negative index counts from the end. *)
Definition py_getitem {A} (l : list A) (i : Z) : result A :=
  let n := Z.of_nat (length l) in
  if (0 <=? i) && (i <? n) then
    match l !! Z.to_nat i with Some a => Ok a | None => Raise IndexError end
  else if (- n <=? i) && (i <? 0) then
    match l !! Z.to_nat (n + i) with
    | Some a => Ok a
    | None => Raise IndexError
    end
  else Raise IndexError.

(** [l.index(x)] of Python: the position of the first element equal to [x]. *)
Fixpoint py_index {A} `{EqDecision A} (l : list A) (x : A) : result nat :=
  match l with
  | [] => Raise ValueError
  | y :: l' => if decide (y = x) then Ok 0%nat
               else n ← py_index l' x; Ok (S n)
  end.

(** ** The collaborators *)

(** [configparser.ConfigParser]: the typed readers the source calls, by
    section and option name. *)
Record ConfigParser := {
  getboolean : string -> string -> result bool;
  getint : string -> string -> result Z;
}.

(** A class of [lib.mEoS.__all__]: the position in that list identifies it. *)
Record MEoSClass := {
  cls_id : Z;            (* the [id] attribute: the index in the database *)
  cls_name : string;
}.

#[global] Instance MEoSClass_eq_dec : EqDecision MEoSClass.
Proof. solve_decision. Defined.

(** The base instance [getClassFluid] returns. *)
Inductive Fluid :=
  | RefProp (ids : list Z)
  | CoolProp (ids : list Z)
  | MEoS (cls : MEoSClass).

(** ** getClassFluid, getMethod (lines 98-136) *)

Section Method.

(** [mEoS.__all__] *)
Variable mEoS_all : list MEoSClass.

(** [pref] is the parsed preference file [pychemqtrc]; [conf] the project
    configuration. *)
Definition getClassFluid (pref conf : ConfigParser) : result Fluid :=
  b ← py_and (getboolean pref "MEOS" "coolprop")
             (getboolean pref "MEOS" "refprop");
  if (b : bool) then
    i ← getint conf "MEoS" "fluid";
    c ← py_getitem mEoS_all i;
    Ok (RefProp [cls_id c])
  else
    b' ← getboolean pref "MEOS" "coolprop";
    if (b' : bool) then
      i ← getint conf "MEoS" "fluid";
      c ← py_getitem mEoS_all i;
      Ok (CoolProp [cls_id c])
    else
      i ← getint conf "MEoS" "fluid";
      c ← py_getitem mEoS_all i;
      Ok (MEoS c).

Definition getMethod (pref : ConfigParser) : result string :=
  b ← py_and (getboolean pref "MEOS" "coolprop")
             (getboolean pref "MEOS" "refprop");
  if (b : bool) then Ok "REFPROP"
  else
    b' ← getboolean pref "MEOS" "coolprop";
    if (b' : bool) then Ok "COOLPROP" else Ok "MEOS".

End Method.

(** ** get_points (lines 5034-5047) *)

Definition get_points (Preferences : ConfigParser) : result Z :=
  definition ← getint Preferences "MEOS" "definition";
  if definition =? 1 then Ok 10
  else if definition =? 2 then Ok 25
  else if definition =? 3 then Ok 50
  else if definition =? 4 then Ok 100
  else Ok 5.

(** ** Python values *)

(** A value as [ConfigParser.get], [eval] or a saved project gives it: the
    source tests it with [isinstance(_, str)], iterates over it, uses its
    items as conditions and as indices, or stores it as it is. *)
#[local] Unset Elimination Schemes.
Inductive PyVal :=
  | PNone
  | PBool (b : bool)
  | PInt (z : Z)
  | PFloat (q : Q)
  | PStr (s : string)
  | PList (l : list PyVal)
  | PDict (d : list (string * PyVal)).
#[local] Set Elimination Schemes.

(** The truth value of an object in a condition. *)
Definition py_truth (v : PyVal) : bool :=
  match v with
  | PNone => false
  | PBool b => b
  | PInt z => negb (z =? 0)
  | PFloat q => negb (Qeq_bool q 0)
  | PStr s => negb (String.eqb s EmptyString)
  | PList l => match l with [] => false | _ => true end
  | PDict d => match d with [] => false | _ => true end
  end.

(** The items of an iterable, as [zip] consumes them. *)
Definition py_iter (v : PyVal) : result (list PyVal) :=
  match v with
  | PList l => Ok l
  | PStr s => Ok (map (fun c => PStr (String c EmptyString))
                      (String.list_ascii_of_string s))
  | _ => Raise TypeError
  end.

(** An object used as a list index: an [int] (a [bool] is one). *)
Definition py_as_index (v : PyVal) : result Z :=
  match v with
  | PInt z => Ok z
  | PBool b => Ok (if b then 1 else 0)
  | _ => Raise TypeError
  end.

(** ** get_propiedades (lines 2641-2664) *)

(** A class of [lib.unidades], identified by its name. *)
Inductive Unit := UnitClass (name : string).

#[global] Instance Unit_eq_dec : EqDecision Unit.
Proof. solve_decision. Defined.

Definition Dimensionless : Unit := UnitClass "Dimensionless".

(** An entry of [ThermoAdvanced.properties()]: name, key and unit. *)
Definition Property : Type := string * string * Unit.

Section Propiedades.

(** [ThermoAdvanced.properties()] *)
Variable properties : list Property.
(** Python's [eval] on the text of an option. *)
Variable eval : string -> result PyVal.
(** [config.get(section, option)] of the main window's configuration. *)
Variable config_get : string -> string -> result PyVal.

Definition eval_if_str (v : PyVal) : result PyVal :=
  match v with PStr s => eval s | _ => Ok v end.

(** The body of the [for indice, bool in zip(order, booleanos)] loop; the
    three lists the source appends to are built together. *)
Fixpoint get_propiedades_loop (pairs : list (PyVal * PyVal))
  : result (list string * list string * list Unit) :=
  match pairs with
  | [] => Ok ([], [], [])
  | (indice, bool) :: rest =>
      if py_truth bool then
        i ← py_as_index indice;
        p ← py_getitem properties i;
        r ← get_propiedades_loop rest;
        let '(name, key, unit) := p in
        let '(propiedades, keys, units) := r in
        Ok (name :: propiedades, key :: keys, unit :: units)
      else get_propiedades_loop rest
  end.

Definition get_propiedades : result (list string * list string * list Unit) :=
  booleanos ← config_get "MEoS" "properties";
  order ← config_get "MEoS" "propertiesOrder";
  booleanos ← eval_if_str booleanos;
  order ← eval_if_str order;
  lo ← py_iter order;
  lb ← py_iter booleanos;
  get_propiedades_loop (zip lo lb).

End Propiedades.

(** The specification's reading of the loop: the indices of [order] whose
    flag, at the same position of [booleanos], is true. *)
Definition selected (order booleanos : list PyVal) : list PyVal :=
  omap (fun '(i, b) => if py_truth b then Some i else None)
       (zip order booleanos).

(** ** calcPoint (lines 5257-5301) *)

(** A keyword argument compared with a number: an [int], a [bool] or a
    [float]; the comparison of anything else with a [float] raises. *)
Definition py_num (v : PyVal) : result Q :=
  match v with
  | PInt z => Ok (inject_Z z)
  | PBool b => Ok (if b then 1 else 0)%Q
  | PFloat q => Ok q
  | _ => Raise TypeError
  end.

Definition Qltb (a b : Q) : bool := negb (Qle_bool b a).
Definition Qleb (a b : Q) : bool := Qle_bool a b.

(** [min(a, b)] of Python: [a] unless [b] is smaller. *)
Definition py_min (a b : Q) : Q := if Qltb b a then b else a.

(** The truth value of a dict: it has an item. *)
Definition dict_truth {A} (d : gmap string A) : bool :=
  negb (Nat.eqb (size d) 0).

(** [d[k]] on a dict. *)
Definition dict_get {A} (d : gmap string A) (k : string) : result A :=
  match d !! k with Some a => Ok a | None => Raise KeyError end.

(** A value of a property of a state: a magnitude, or the list of them that
    the fugacity properties hold. *)
Inductive PropVal :=
  | Scalar (data : Q)
  | Vector (items : list Q).

(** A computed state: the object [fluid._new] or a call of [fluid] with
    keyword arguments returns, with the attributes this file reads. *)
Record State := {
  status : Z;
  msg : string;
  st_T : Q;
  st_P : Q;
  st_rho : Q;
  st_melting : gmap string Q;       (* [_melting]: empty when there is none *)
  st_Melting_Pressure : Q -> Q;
  getattribute : string -> option PropVal;   (* [None] for a [None] property *)
}.

(** The [eq] attribute: a tuple of dicts in [lib.mEoS], one dict in
    [lib.coolProp]. *)
Inductive EqAttr :=
  | EqTuple (l : list (gmap string Q))
  | EqDict (d : gmap string Q).

(** A fluid instance as [calcPoint] and [calculatePlot] use it. *)
Record FluidObj := {
  f_eq : EqAttr;
  f_call : gmap string PyVal -> State;   (* [fluid] called with arguments *)
  f_new : gmap string PyVal -> State;    (* [fluid._new] with arguments *)
  f_melting : gmap string Q;
  f_Melting_Pressure : Q -> Q;
  f_sublimation : gmap string Q;
  f_Sublimation_Pressure : Q -> Q;
}.

(** The [config] argument: a dict or a [ConfigParser]. *)
Inductive Config :=
  | ConfDict (d : gmap string PyVal)
  | ConfParser (c : ConfigParser).

(** [fluid.eq[option["eq"]][key]] in the MEOS branch. *)
Definition meos_eq (fluid : FluidObj) (option : gmap string PyVal)
    (key : string) : result Q :=
  match f_eq fluid with
  | EqTuple l =>
      e ← dict_get option "eq";
      i ← py_as_index e;
      d ← py_getitem l i;
      dict_get d key
  | EqDict d => Raise KeyError
  end.

(** [fluid.eq[key]] in the COOLPROP branch. *)
Definition coolprop_eq (fluid : FluidObj) (key : string) : result Q :=
  match f_eq fluid with
  | EqDict d => dict_get d key
  | EqTuple _ => Raise TypeError
  end.

(** The local variables [Tmin], [Tmax], [Pmin], [Pmax]: bound or not. *)
Record Limits := {
  Tmin : option Q;
  Tmax : option Q;
  Pmin : option Q;
  Pmax : option Q;
}.

Definition unbound : Limits :=
  {| Tmin := None; Tmax := None; Pmin := None; Pmax := None |}.

(** Reading a local variable. *)
Definition local (v : option Q) : result Q :=
  match v with Some q => Ok q | None => Raise NameError end.

(** The [if method == "MEOS": ... elif ...] block: the keyword arguments
    after [kwargs.update(option)] and the limits it binds. *)
Definition calcPoint_limits (method : string) (fluid : FluidObj)
    (config : Config) (kwargs : gmap string PyVal)
  : result (gmap string PyVal * Limits) :=
  if String.eqb method "MEOS" then
    option ← match config with
             | ConfDict d => Ok d
             | ConfParser c =>
                 e ← getint c "MEoS" "eq";
                 v ← getint c "MEoS" "visco";
                 t ← getint c "MEoS" "thermal";
                 Ok (<["thermal" := PInt t]>
                      (<["visco" := PInt v]> (<["eq" := PInt e]> ∅)))
             end;
    let kwargs := option ∪ kwargs in
    tmin ← meos_eq fluid option "Tmin";
    tmax ← meos_eq fluid option "Tmax";
    tmin' ← meos_eq fluid option "Tmin";
    let pmin := st_P (f_call fluid (<["x" := PInt 0]>
                                      (<["T" := PFloat tmin']> ∅))) in
    pmax ← meos_eq fluid option "Pmax";
    Ok (kwargs, {| Tmin := Some tmin; Tmax := Some tmax; Pmin := Some pmin;
                   Pmax := Some (pmax * 1000)%Q |})
  else if String.eqb method "COOLPROP" then
    tmin ← coolprop_eq fluid "Tmin";
    tmax ← coolprop_eq fluid "Tmax";
    pmin ← coolprop_eq fluid "Pmin";
    pmax ← coolprop_eq fluid "Pmax";
    Ok (kwargs, {| Tmin := Some tmin; Tmax := Some tmax; Pmin := Some pmin;
                   Pmax := Some pmax |})
  else Ok (kwargs, unbound).

(** The second [if method == "MEOS":] block: [Pmax] is lowered to the
    melting pressure at the temperature of the state, when the state is in
    the range of the melting correlation. *)
Definition calcPoint_melting (method : string) (fluido : State)
    (lim : Limits) : result Limits :=
  if String.eqb method "MEOS" then
    if dict_truth (st_melting fluido) then
      mTmin ← dict_get (st_melting fluido) "Tmin";
      if Qleb mTmin (st_T fluido) then
        mTmax ← dict_get (st_melting fluido) "Tmax";
        if Qleb (st_T fluido) mTmax then
          let Pmel := st_Melting_Pressure fluido (st_T fluido) in
          pmax ← local (Pmax lim);
          Ok {| Tmin := Tmin lim; Tmax := Tmax lim; Pmin := Pmin lim;
                Pmax := Some (py_min pmax Pmel) |}
        else Ok lim
      else Ok lim
    else Ok lim
  else Ok lim.

(** [pref] is the parsed preference file that [getMethod] reads. *)
Definition calcPoint (pref : ConfigParser) (fluid : FluidObj) (config : Config)
    (kwargs : gmap string PyVal) : result (option State) :=
  method ← getMethod pref;
  '(kwargs, lim) ← calcPoint_limits method fluid config kwargs;
  inT ← match kwargs !! "T" with
        | Some t =>
            tmin ← local (Tmin lim);
            t ← py_num t;
            if Qltb t tmin then Ok false
            else tmax ← local (Tmax lim); Ok (negb (Qltb tmax t))
        | None => Ok true
        end;
  if negb inT then Ok None else
  inP ← match kwargs !! "P" with
        | Some p =>
            pmin ← local (Pmin lim);
            p ← py_num p;
            if Qltb p (pmin - 1)%Q then Ok false
            else pmax ← local (Pmax lim);
                 Ok (negb (Qltb (pmax + 1)%Q p))
        | None => Ok true
        end;
  if negb inP then Ok None else
  let fluido := f_new fluid kwargs in
  if negb ((status fluido =? 1) || (status fluido =? 3)) then Ok None else
  lim ← calcPoint_melting method fluido lim;
  pmin ← local (Pmin lim);
  if Qltb (st_P fluido) (pmin - 1)%Q then Ok None else
  pmax ← local (Pmax lim);
  if Qltb (pmax + 1)%Q (st_P fluido) then Ok None else
  tmin ← local (Tmin lim);
  if Qltb (st_T fluido) tmin then Ok None else
  tmax ← local (Tmax lim);
  if Qltb tmax (st_T fluido) then Ok None else
  Ok (Some fluido).

(** The specification's reading of [calcPoint]: a value is outside of a
    range. *)
Definition outside (v lo hi : Q) : bool := Qltb v lo || Qltb hi v.

(** The upper pressure limit of the last test: the melting pressure at the
    temperature of the state when the method is MEOS, the state has a melting
    correlation and is in its range, and that pressure is lower. *)
Definition capped_Pmax (method : string) (fluido : State) (pmax : Q) : Q :=
  if String.eqb method "MEOS" && dict_truth (st_melting fluido) then
    match st_melting fluido !! "Tmin", st_melting fluido !! "Tmax" with
    | Some mTmin, Some mTmax =>
        if Qleb mTmin (st_T fluido) && Qleb (st_T fluido) mTmax
        then py_min pmax (st_Melting_Pressure fluido (st_T fluido))
        else pmax
    | _, _ => pmax
    end
  else pmax.

(** The number given for the keyword [k], if any. *)
Definition num_arg (kwargs : gmap string PyVal) (k : string)
  : result (option Q) :=
  match kwargs !! k with
  | Some v => q ← py_num v; Ok (Some q)
  | None => Ok None
  end.

(** The conditions under which the specification has [calcPoint] return
    [None], for the temperature [T] and the pressure [P] given, if any. *)
Definition rejected (method : string) (T P : option Q)
    (fluido : State) (tmin tmax pmin pmax : Q) : bool :=
  match T with Some t => outside t tmin tmax | None => false end
  || match P with
     | Some p => outside p (pmin - 1)%Q (pmax + 1)%Q | None => false end
  || negb ((status fluido =? 1) || (status fluido =? 3))
  || outside (st_P fluido) (pmin - 1)%Q (capped_Pmax method fluido pmax + 1)%Q
  || outside (st_T fluido) tmin tmax.

(** ** plugin.calculatePlot: the melting and sublimation lines
       (lines 613-675) *)

(** [numpy.linspace(start, stop, num)]: [num] samples, evenly spaced, from
    [start] to [stop] included. *)
Definition linspace (start stop : Q) (num : Z) : list Q :=
  match Z.to_nat num with
  | O => []
  | S O => [start]
  | n => let step := ((stop - start) / inject_Z (num - 1))%Q in
         map (fun i => (start + inject_Z (Z.of_nat i) * step)%Q) (seq 0 n)
  end.

(** The data of a line: for each property key, the values along the line. *)
Abbreviation LineData := (gmap string (list (option Q))).

(** The value kept for the property [x] of a state: the magnitude of the
    property, of its first item for the fugacity properties. *)
Definition prop_data (x : string) (fluido : State) : result (option Q) :=
  match getattribute fluido x with
  | Some num =>
      if String.eqb x "fi" || String.eqb x "f" then
        match num with
        | Vector l => q ← py_getitem l 0; Ok (Some q)
        | Scalar _ => Raise TypeError
        end
      else
        match num with
        | Scalar q => Ok (Some q)
        | Vector _ => Raise AttributeError
        end
  | None => Ok None
  end.

Section CalculatePlot.

(** [ThermoAdvanced.propertiesKey()] *)
Variable propertiesKey : list string.
(** The preference file read by [getMethod], [config.Preferences] and
    the project configuration [self.config]. *)
Variables (pref Preferences : ConfigParser) (self_config : Config).

(** [for Ti in T: ...] with the list [fluidos] the loop appends to; a state
    object is true in a condition, [None] is not. *)
Fixpoint line_loop (fluid : FluidObj) (pressure : Q -> Q) (T : list Q)
    (fluidos : list State) : result (list State) :=
  match T with
  | [] => Ok fluidos
  | Ti :: T' =>
      let P := pressure Ti in
      fluido ← calcPoint pref fluid self_config
                 (<["P" := PFloat P]> (<["T" := PFloat Ti]> ∅));
      line_loop fluid pressure T'
        (match fluido with
         | Some f => (fluidos ++ [f])%list
         | None => fluidos
         end)
  end.

(** [for x in ThermoAdvanced.propertiesKey(): ...] filling the dict of a
    line. *)
Fixpoint line_data (keys : list string) (fluidos : list State)
    (d : LineData) : result LineData :=
  match keys with
  | [] => Ok d
  | x :: keys' =>
      dat_propiedad ← mapM (prop_data x) fluidos;
      line_data keys' fluidos (<[x := dat_propiedad]> d)
  end.

(** One of the two lines: [name] is "melting" or "sublimation". *)
Definition phase_line (fluid : FluidObj) (name : string)
    (corr : gmap string Q) (pressure : Q -> Q) (points : Z)
    (data : gmap string LineData) : result (gmap string LineData) :=
  if dict_truth corr then
    tmin ← dict_get corr "Tmin";
    tmax ← dict_get corr "Tmax";
    let T := linspace tmin tmax points in
    fluidos ← line_loop fluid pressure T [];
    match fluidos with
    | [] => Ok data
    | _ => d ← line_data propertiesKey fluidos ∅; Ok (<[name := d]> data)
    end
  else Ok data.

(** Lines 617-675: the block [if method == "MEOS": ...] of the melting and
    sublimation lines, from the empty [data]; the result is [data] when the
    block ends. *)
Definition melting_sublimation_lines (fluid : FluidObj) (method : string)
    (points : Z) : result (gmap string LineData) :=
  let data := ∅ in
  if String.eqb method "MEOS" then
    data ← phase_line fluid "melting" (f_melting fluid)
             (f_Melting_Pressure fluid) points data;
    phase_line fluid "sublimation" (f_sublimation fluid)
      (f_Sublimation_Pressure fluid) points data
  else Ok data.

(** Lines 613-675, the start of [calculatePlot]: [data] when the block of
    the melting and sublimation lines ends.  The function does not return
    there: it goes on with the saturation lines and the isolines, which add
    their own keys to [data]. *)
Definition calculatePlot_start (fluid : FluidObj)
  : result (gmap string LineData) :=
  points ← get_points Preferences;
  method ← getMethod pref;
  melting_sublimation_lines fluid method points.

End CalculatePlot.

(** ** The cache of plot data: plugin.plot (lines 525-527),
       PlotMEoS._getData and _saveData (lines 3788-3808) *)

(** The name [plugin.plot] gives to the plot: ["%s-%s.pkl" % (method,
    fluid.name)]. *)
Definition plot_filename (method name : string) : string :=
  method +:+ "-" +:+ name +:+ ".pkl".

Section Cache.

(** The data dictionary and its pickled form. *)
Variable Data : Type.
Variable pickle_dump : Data -> list Byte.byte.
Variable pickle_load : list Byte.byte -> result Data.
(** The content of a gzip file. *)
Variable gunzip : list Byte.byte -> result (list Byte.byte).
(** [config.conf_dir], [os.environ["pychemqt"]] and [os.sep]. *)
Variables (conf_dir pychemqt sep : string).

(** The regular files, by path. *)
Abbreviation Files := (gmap string (list Byte.byte)).

Definition filenameSoft (filename : string) : string :=
  conf_dir +:+ filename.

Definition filenameHard (filename : string) : string :=
  pychemqt +:+ "dat" +:+ sep +:+ "mEoS" +:+ sep +:+ filename +:+ ".gz".

Definition _saveData (filename : string) (data : Data) (fs : Files) : Files :=
  <[conf_dir +:+ filename := pickle_dump data]> fs.

(** The result is [None] when the function ends without a [return]. *)
Definition _getData (filename : string) (fs : Files)
  : result (option Data * Files) :=
  match fs !! filenameSoft filename with
  | Some archivo =>
      data ← pickle_load archivo;
      Ok (Some data, fs)
  | None =>
      match fs !! filenameHard filename with
      | Some gz =>
          archivo ← gunzip gz;
          data ← pickle_load archivo;
          Ok (Some data, _saveData filename data fs)
      | None => Ok (None, fs)
      end
  end.

End Cache.

(** ** plot2D3D: the saturation, melting and sublimation lines
       (lines 5143-5197) *)

(** A call of [grafico.plot.ax.plot]: the coordinates, the label and the
    group of preferences of the line format. *)
Record PlotCall := {
  pc_x : list Q;
  pc_y : list Q;
  pc_z : option (list Q);
  pc_label : string;
  pc_format : string;
}.

Section Plot2D3D.

(** [_getunitTransform]: the function that maps a stored value of the
    property of an axis to the configured unit. *)
Variable _getunitTransform : string -> option Q -> Q.

Definition coords (data : gmap string LineData) (line eje : string)
  : result (list Q) :=
  d ← dict_get data line;
  v ← dict_get d eje;
  Ok (map (_getunitTransform eje) v).

(** [for fase, label in enumerate(satLines)] *)
Fixpoint saturation_lines (data : gmap string LineData) (x y : string)
    (z : option string) (fase : nat) (satLines : list string)
  : result (list PlotCall) :=
  match satLines with
  | [] => Ok []
  | label :: rest =>
      let line := "saturation_" +:+ (if fase is O then "0" else "1") in
      xsat ← coords data line x;
      ysat ← coords data line y;
      call ← match z with
             | Some z =>
                 zsat ← coords data line z;
                 Ok {| pc_x := xsat; pc_y := ysat; pc_z := Some zsat;
                       pc_label := label; pc_format := "saturation" |}
             | None =>
                 Ok {| pc_x := xsat; pc_y := ysat; pc_z := None;
                       pc_label := label; pc_format := "saturation" |}
             end;
      calls ← saturation_lines data x y z (S fase) rest;
      Ok (call :: calls)
  end.

(** The calls of [ax.plot] up to the sublimation line, in order.  [z] is
    [None] for a 2D plot.  The local variables [xmel], [ymel] are bound by
    the melting branch only. *)
Definition plot2D3D (data : gmap string LineData) (x y : string)
    (z : option string) : result (list PlotCall) :=
  let satLines :=
    if String.eqb x "P" && String.eqb y "T" then ["Saturation Line"]
    else ["Liquid Saturation Line"; "Vapor Saturation Line"] in
  sat ← saturation_lines data x y z 0 satLines;
  '(mel, xmel, ymel) ←
    match data !! "melting" with
    | Some _ =>
        let label := "Melting Line" in
        xmel ← coords data "melting" x;
        ymel ← coords data "melting" y;
        match z with
        | Some z =>
            zmel ← coords data "melting" z;
            Ok ([ {| pc_x := xmel; pc_y := ymel; pc_z := Some zmel;
                     pc_label := label; pc_format := "saturation" |} ],
                Some xmel, Some ymel)
        | None =>
            Ok ([ {| pc_x := xmel; pc_y := ymel; pc_z := None;
                     pc_label := label; pc_format := "saturation" |} ],
                Some xmel, Some ymel)
        end
    | None => Ok ([], None, None)
    end;
  sub ←
    match data !! "sublimation" with
    | Some _ =>
        xsub ← coords data "sublimation" x;
        ysub ← coords data "sublimation" y;
        let label := "Sublimation Line" in
        match z with
        | Some z =>
            zmel ← coords data "melting" z;
            match xmel, ymel with
            | Some xmel, Some ymel =>
                Ok [ {| pc_x := xmel; pc_y := ymel; pc_z := Some zmel;
                        pc_label := label; pc_format := "saturation" |} ]
            | _, _ => Raise NameError
            end
        | None =>
            Ok [ {| pc_x := xsub; pc_y := ysub; pc_z := None;
                    pc_label := label; pc_format := "saturation" |} ]
        end
    | None => Ok []
    end;
  Ok ((sat ++ mel ++ sub)%list).

End Plot2D3D.

(** ** AddPoint: update, fill and reset (lines 3619-3655) *)

(** What the dialog does to its widgets, in order. *)
Inductive Effect :=
  | SetState (state : Z) (msg : option string)  (* [self.status.setState] *)
  | ProcessEvents
  | SetValue (input : nat) (value : option PropVal)
  | SetResaltado (input : nat) (b : bool)
  | Clear (widget : string).

Section AddPoint.

(** The fluid instance of the dialog, with the attributes the dialog reads:
    whether it is a [meos.MEoS], its melting correlation, its status and
    message, its properties and which of its inputs are set. *)
Variable F : Type.
Variable isMEoS : F -> bool.
Variable _melting : F -> gmap string Q.
Variable _Melting_Pressure : F -> Q -> Q.
Variable f_status : F -> Z.
Variable f_msg : F -> string.
Variable f_getattribute : F -> string -> option PropVal.
Variable f_kwargs : F -> string -> bool.
(** Calling the instance with keyword arguments computes it again; the
    class called without arguments gives a new instance. *)
Variable call : F -> gmap string PyVal -> F.
Variable new_instance : F -> F.

Record AddPoint := {
  ap_fluid : F;
  ap_Inputs : nat;                    (* the number of input widgets *)
  ap_checkMelting : option bool;      (* the radio button, when there is one *)
  ap_log : list Effect;               (* the effects so far, oldest first *)
}.

(** [AddPoint.keys] *)
Definition AddPoint_keys : list string :=
  ["T"; "P"; "x"; "rho"; "v"; "h"; "s"; "u"].

(** [for key, input in zip(self.keys, self.Inputs)] *)
Definition fill (self : AddPoint) (fluid : F) : list Effect :=
  flat_map (fun '(key, input) =>
              [SetValue input (f_getattribute fluid key);
               SetResaltado input (f_kwargs fluid key)])
           (zip AddPoint_keys (seq 0 (ap_Inputs self))).

Definition update (key : string) (value : Q) (self : AddPoint)
  : result AddPoint :=
  let log := [SetState 4 None; ProcessEvents] in
  melt ← (if isMEoS (ap_fluid self) && dict_truth (_melting (ap_fluid self))
          then match ap_checkMelting self with
               | Some checked => Ok (checked && String.eqb key "T")
               | None => Raise AttributeError
               end
          else Ok false);
  let fluid :=
    if (melt : bool) then
      let P := _Melting_Pressure (ap_fluid self) value in
      call (ap_fluid self)
           (<["P" := PFloat P]> (<[key := PFloat value]> ∅))
    else call (ap_fluid self) (<[key := PFloat value]> ∅) in
  let log :=
    if (f_status fluid =? 1) || (f_status fluid =? 3)
    then (log ++ fill self fluid)%list else log in
  let log := (log ++ [SetState (f_status fluid) (Some (f_msg fluid))])%list in
  Ok {| ap_fluid := fluid; ap_Inputs := ap_Inputs self;
        ap_checkMelting := ap_checkMelting self;
        ap_log := (ap_log self ++ log)%list |}.

Definition reset (self : AddPoint) : AddPoint :=
  let fluid := new_instance (ap_fluid self) in
  let log :=
    ([SetState (f_status fluid) (Some (f_msg fluid));
      Clear "rhoo"; Clear "To"]
     ++ flat_map (fun input => [Clear "input"; SetResaltado input false])
                 (seq 0 (ap_Inputs self)))%list in
  {| ap_fluid := fluid; ap_Inputs := ap_Inputs self;
     ap_checkMelting := ap_checkMelting self;
     ap_log := (ap_log self ++ log)%list |}.

(** What the status widget shows: the arguments of the last [setState]. *)
Fixpoint shown (log : list Effect) (cur : option (Z * option string))
  : option (Z * option string) :=
  match log with
  | [] => cur
  | SetState s m :: log' => shown log' (Some (s, m))
  | _ :: log' => shown log' cur
  end.

(** The status codes given to the status widget. *)
Definition states (log : list Effect) : list Z :=
  omap (fun e => match e with SetState s _ => Some s | _ => None end) log.

Definition is_input_effect (e : Effect) : bool :=
  match e with SetValue _ _ | SetResaltado _ _ => true | _ => false end.

End AddPoint.

Arguments ap_fluid {F} _.
Arguments ap_Inputs {F} _.
Arguments ap_checkMelting {F} _.
Arguments ap_log {F} _.
Arguments fill {F}.
Arguments update {F}.
Arguments reset {F}.

(** ** TablaMEoS: the constructor, setData, writeToJSON and readFromJSON
       (lines 2730-2775, 3084-3126, 3184-3266) *)

(** [v == s] for a string [s] *)
Definition py_eq_str (v : PyVal) (s : string) : bool :=
  match v with PStr s' => String.eqb s' s | _ => false end.

(** [len(v)] *)
Definition py_len (v : PyVal) : result Z :=
  match v with
  | PList l => Ok (Z.of_nat (length l))
  | PStr s => Ok (Z.of_nat (String.length s))
  | PDict d => Ok (Z.of_nat (length d))
  | _ => Raise TypeError
  end.

(** [v[i]] for an integer [i] *)
Definition py_subscript (v : PyVal) (i : Z) : result PyVal :=
  match v with
  | PList l => py_getitem l i
  | PStr s => l ← py_iter v; py_getitem l i
  | PDict _ => Raise KeyError
  | _ => Raise TypeError
  end.

(** [l.insert(i, x)] for an index [i] that is not negative. *)
Definition py_insert (v : PyVal) (i : nat) (x : PyVal) : result PyVal :=
  match v with
  | PList l => Ok (PList (take i l ++ x :: drop i l)%list)
  | _ => Raise AttributeError
  end.

(** The keyword arguments of the constructor: those [TablaMEoS] takes for
    itself and those it passes on to [Tabla]. *)
Record Kwargs := {
  kw_parent : option ConfigParser;       (* [parent.currentConfig] *)
  kw_keys : option PyVal;
  kw_units : option (list Unit);
  kw_orderUnit : option PyVal;
  kw_format : option PyVal;
  kw_horizontalHeader : option PyVal;
  kw_stretch : option bool;
  kw_readOnly : option bool;
  kw_filas : option Z;
  kw_columnReadOnly : option PyVal;
}.

(** The base class [UI.widgets.Tabla], a [QTableWidget]: the operations of
    it that the methods below call.  [W] is the state of the widget. *)
Class TablaBase (W : Type) := {
  (** [Tabla.__init__(columnas, ...)] with the keyword arguments left *)
  Tabla_init : Z -> Kwargs -> W;
  columnCount : W -> Z;
  rowCount : W -> Z;
  windowTitle : W -> string;
  setWindowTitle : string -> W -> W;
  (** the text of [horizontalHeaderItem(column)], when there is an item *)
  horizontalHeaderItem : W -> Z -> option string;
  readOnly : W -> bool;
  columnReadOnly : W -> PyVal;
  addRow : W -> W;
  setValue : Z -> Z -> string -> W -> W;
  (** [item(row, i).setFlags(flags)] and [setBackground] *)
  setItemReadOnly : Z -> Z -> W -> W;
}.

(** A [TablaMEoS]: the widget and the attributes the class adds.  An
    attribute that was never assigned is [None]. *)
Record TablaMEoS (W : Type) := {
  tm_widget : W;
  tm_keys : option PyVal;
  tm_units : list Unit;
  tm_orderUnit : PyVal;
  tm_format : PyVal;
  tm_data : PyVal;
  tm_Point : option Fluid;
}.
Arguments tm_widget {W} _.
Arguments tm_keys {W} _.
Arguments tm_units {W} _.
Arguments tm_orderUnit {W} _.
Arguments tm_format {W} _.
Arguments tm_data {W} _.
Arguments tm_Point {W} _.

Definition with_widget {W} (t : TablaMEoS W) (w : W) : TablaMEoS W :=
  {| tm_widget := w; tm_keys := tm_keys t; tm_units := tm_units t;
     tm_orderUnit := tm_orderUnit t; tm_format := tm_format t;
     tm_data := tm_data t; tm_Point := tm_Point t |}.

Definition with_data {W} (t : TablaMEoS W) (d : PyVal) : TablaMEoS W :=
  {| tm_widget := tm_widget t; tm_keys := tm_keys t; tm_units := tm_units t;
     tm_orderUnit := tm_orderUnit t; tm_format := tm_format t;
     tm_data := d; tm_Point := tm_Point t |}.

Definition with_Point {W} (t : TablaMEoS W) (f : Fluid) : TablaMEoS W :=
  {| tm_widget := tm_widget t; tm_keys := tm_keys t; tm_units := tm_units t;
     tm_orderUnit := tm_orderUnit t; tm_format := tm_format t;
     tm_data := tm_data t; tm_Point := Some f |}.

Definition unit_name (u : Unit) : string :=
  match u with UnitClass name => name end.

Section Tabla.

Context {W : Type} `{TablaBase W}.
(** [mEoS.__all__] *)
Variable mEoS_all : list MEoSClass.
(** [lib.utilities.representacion] with the keyword arguments of a format *)
Variable representacion : PyVal -> list (string * PyVal) -> string.

(** [TablaMEoS.__init__(columnas, ...)] *)
Definition TablaMEoS_init (columnas : Z) (kwargs : Kwargs)
  : result (TablaMEoS W) :=
  units ← match kw_units kwargs with
          | Some u => Ok u | None => Raise KeyError end;
  orderUnit ←
    match kw_orderUnit kwargs with
    | Some o => Ok o
    | None =>
        l ← mapM (fun unit =>
                    if decide (unit = Dimensionless) then Ok (PInt 0)
                    else match kw_parent kwargs with
                         | Some conf =>
                             i ← getint conf "Units" (unit_name unit);
                             Ok (PInt i)
                         | None => Raise AttributeError
                         end) units;
        Ok (PList l)
    end;
  let format :=
    match kw_format kwargs with
    | Some f => f
    | None =>
        PList (replicate (Z.to_nat columnas)
                 (PDict [("format", PInt 1); ("decimales", PInt 6);
                         ("signo", PBool false)]))
    end in
  Ok {| tm_widget := Tabla_init columnas kwargs;
        tm_keys := kw_keys kwargs;
        tm_units := units;
        tm_orderUnit := orderUnit;
        tm_format := format;
        tm_data := PList [];
        tm_Point := None |}.

(** The text of a cell. *)
Definition cell_text (format : PyVal) (columna : Z) (data : PyVal)
  : result string :=
  match data with
  | PStr txt => Ok txt
  | _ =>
      f ← py_subscript format columna;
      match f with
      | PDict kw => Ok (representacion data kw)
      | _ => Raise TypeError
      end
  end.

(** [for columna, data in enumerate(array)] of [setStr] and [setRow] *)
Fixpoint set_cells (format : PyVal) (fila : Z) (columna : Z)
    (array : list PyVal) (w : W) : result W :=
  match array with
  | [] => Ok w
  | data :: rest =>
      txt ← cell_text format columna data;
      set_cells format fila (columna + 1) rest (setValue fila columna txt w)
  end.

(** [for fila, array in enumerate(self.data)] of [setStr] *)
Fixpoint setStr_loop (format : PyVal) (fila : Z) (rows : list PyVal)
    (w : W) : result W :=
  match rows with
  | [] => Ok w
  | array :: rest =>
      let w := if rowCount w <=? fila then addRow w else w in
      cells ← py_iter array;
      w ← set_cells format fila 0 cells w;
      setStr_loop format (fila + 1) rest w
  end.

Definition setStr (self : TablaMEoS W) : result (TablaMEoS W) :=
  rows ← py_iter (tm_data self);
  w ← setStr_loop (tm_format self) 0 rows (tm_widget self);
  Ok (with_widget self w).

(** [for i, bool in enumerate(self.columnReadOnly)] of [setRow] *)
Fixpoint protect_cells (row : Z) (i : Z) (flags : list PyVal) (w : W) : W :=
  match flags with
  | [] => w
  | bool :: rest =>
      protect_cells row (i + 1) rest
        (if py_truth bool then w else setItemReadOnly row i w)
  end.

Definition setRow (row : nat) (data : PyVal) (self : TablaMEoS W)
  : result (TablaMEoS W) :=
  d ← py_insert (tm_data self) row data;
  cells ← py_iter data;
  w ← set_cells (tm_format self) (Z.of_nat row) 0 cells (tm_widget self);
  w ← (if readOnly w then Ok w
       else flags ← py_iter (columnReadOnly w);
            Ok (protect_cells (Z.of_nat row) 0 flags w));
  Ok (with_widget (with_data self d) w).

(** [for i, row in enumerate(data)] of [setData] *)
Fixpoint setData_loop (i : nat) (rows : list PyVal) (self : TablaMEoS W)
  : result (TablaMEoS W) :=
  match rows with
  | [] => Ok self
  | row :: rest => self ← setRow i row self; setData_loop (S i) rest self
  end.

Definition setData (data : PyVal) (self : TablaMEoS W)
  : result (TablaMEoS W) :=
  if readOnly (tm_widget self) then setStr (with_data self data)
  else rows ← py_iter data; setData_loop 0 rows self.

(** The [if isinstance(self.Point, meos.MEoS): ... elif ... else ...] block
    of [writeToJSON]: the method and the fluid of the table. *)
Definition writeToJSON_fluid (Point : option Fluid)
    (data : gmap string PyVal) : result (gmap string PyVal) :=
  match Point with
  | None => Raise AttributeError
  | Some (MEoS cls) =>
      i ← py_index mEoS_all cls;
      Ok (<["external_dependences" := PStr EmptyString]>
           (<["fluid" := PInt (Z.of_nat i)]>
             (<["method" := PStr "meos"]> data)))
  | Some (CoolProp ids) =>
      i ← py_getitem ids 0;
      Ok (<["external_dependences" := PStr "CoolProp"]>
           (<["fluid" := PInt i]>
             (<["method" := PStr "coolprop"]> data)))
  | Some (RefProp ids) =>
      i ← py_getitem ids 0;
      Ok (<["external_dependences" := PStr "refprop"]>
           (<["fluid" := PInt i]>
             (<["method" := PStr "refprop"]> data)))
  end.

(** The [if data["method"] == "meos": ... elif ...] block of
    [readFromJSON]: without a branch taken, [fluid] is not bound. *)
Definition readFromJSON_fluid (data : gmap string PyVal) : result Fluid :=
  m ← dict_get data "method";
  if py_eq_str m "meos" then
    f ← dict_get data "fluid";
    i ← py_as_index f;
    cls ← py_getitem mEoS_all i;
    Ok (MEoS cls)
  else
    m ← dict_get data "method";
    if py_eq_str m "coolprop" then
      f ← dict_get data "fluid";
      match f with
      | PInt i => Ok (CoolProp [i])
      | _ => Raise TypeError
      end
    else
      m ← dict_get data "method";
      if py_eq_str m "refprop" then
        f ← dict_get data "fluid";
        match f with
        | PInt i => Ok (RefProp [i])
        | _ => Raise TypeError
        end
      else Raise NameError.

(** [for column in range(data["column"])] of [writeToJSON] *)
Fixpoint htitle (w : W) (column : Z) (n : nat) : result (list PyVal) :=
  match n with
  | O => Ok []
  | S n' =>
      match horizontalHeaderItem w column with
      | Some text => l ← htitle w (column + 1) n'; Ok (PStr text :: l)
      | None => Raise AttributeError
      end
  end.

(** [writeToJSON(self, data)]: the dict [data] is filled; [all] is the
    list [unidades._all], which the method makes longer. *)
Definition writeToJSON (self : TablaMEoS W) (data : gmap string PyVal)
    (all : list Unit) : result (gmap string PyVal * list Unit) :=
  let w := tm_widget self in
  let data := <["column" := PInt (columnCount w)]> data in
  let data := <["title" := PStr (windowTitle w)]> data in
  titles ← htitle w 0 (Z.to_nat (columnCount w));
  let data := <["htitle" := PList titles]> data in
  let all := (all ++ [Dimensionless])%list in
  idx ← mapM (fun unit => i ← py_index all unit; Ok (PInt (Z.of_nat i)))
             (tm_units self);
  let data := <["unit" := PList idx]> data in
  let data := <["readOnly" := PBool (readOnly w)]> data in
  data ←
    (if negb (readOnly w) then
       data ← writeToJSON_fluid (tm_Point self) data;
       keys ← match tm_keys self with
              | Some k => Ok k | None => Raise AttributeError end;
       Ok (<["columnReadOnly" := columnReadOnly w]>
            (<["keys" := keys]> data))
     else Ok data);
  let data := <["orderUnit" := tm_orderUnit self]> data in
  let data := <["format" := tm_format self]> data in
  let data := <["data" := tm_data self]> data in
  Ok (data, all).

(** [readFromJSON(cls, data, parent)] *)
Definition readFromJSON (data : gmap string PyVal)
    (parent : option ConfigParser) (all : list Unit)
  : result (TablaMEoS W * list Unit) :=
  let all := (all ++ [Dimensionless])%list in
  u ← dict_get data "unit";
  ul ← py_iter u;
  units ← mapM (fun i => i ← py_as_index i; py_getitem all i) ul;
  htitle ← dict_get data "htitle";
  format ← dict_get data "format";
  orderUnit ← dict_get data "orderUnit";
  ro ← dict_get data "readOnly";
  kwargs ←
    (if py_truth ro then
       Ok {| kw_parent := parent; kw_keys := None; kw_units := Some units;
             kw_orderUnit := Some orderUnit; kw_format := Some format;
             kw_horizontalHeader := Some htitle; kw_stretch := Some false;
             kw_readOnly := Some true; kw_filas := None;
             kw_columnReadOnly := None |}
     else
       d ← dict_get data "data";
       n ← py_len d;
       keys ← dict_get data "keys";
       cro ← dict_get data "columnReadOnly";
       Ok {| kw_parent := parent; kw_keys := Some keys;
             kw_units := Some units;
             kw_orderUnit := Some orderUnit; kw_format := Some format;
             kw_horizontalHeader := Some htitle; kw_stretch := Some false;
             kw_readOnly := None; kw_filas := Some (n + 1);
             kw_columnReadOnly := Some cro |});
  column ← dict_get data "column";
  column ← match column with
           | PInt c => Ok c | PBool b => Ok (if b then 1 else 0)
           | _ => Raise TypeError end;
  tabla ← TablaMEoS_init column kwargs;
  title ← dict_get data "title";
  title ← match title with PStr s => Ok s | _ => Raise TypeError end;
  let tabla := with_widget tabla (setWindowTitle title (tm_widget tabla)) in
  d ← dict_get data "data";
  tabla ← setData d tabla;
  ro ← dict_get data "readOnly";
  tabla ←
    (if negb (py_truth ro) then
       fluid ← readFromJSON_fluid data;
       Ok (with_Point tabla fluid)
     else Ok tabla);
  Ok (tabla, all).

End Tabla.

(** What [Tabla] is taken to do, for a widget state [W]: the constructor
    gives the table the columns, the header labels, the read-only flag and
    the read-only columns it is called with (the flag is false when it is not
    given), [setWindowTitle] sets the title, and neither it nor the
    operations on rows and cells change anything else of what is observed
    here. *)
Definition same_table {W} `{TablaBase W} (w w' : W) : Prop :=
  columnCount w' = columnCount w /\
  readOnly w' = readOnly w /\
  columnReadOnly w' = columnReadOnly w /\
  (forall c, horizontalHeaderItem w' c = horizontalHeaderItem w c).

Class TablaBaseLaws (W : Type) `{TablaBase W} : Prop := {
  init_columnCount : forall n kw, 0 <= n -> columnCount (Tabla_init n kw) = n;
  init_readOnly : forall n kw,
    readOnly (Tabla_init n kw) = default false (kw_readOnly kw);
  init_columnReadOnly : forall n kw v,
    kw_columnReadOnly kw = Some v -> columnReadOnly (Tabla_init n kw) = v;
  init_header : forall n kw titles c text,
    kw_horizontalHeader kw = Some (PList titles) ->
    titles !! c = Some (PStr text) -> Z.of_nat c < n ->
    horizontalHeaderItem (Tabla_init n kw) (Z.of_nat c) = Some text;
  title_set : forall s w, windowTitle (setWindowTitle s w) = s;
  title_same : forall s w, same_table w (setWindowTitle s w);
  addRow_same : forall w,
    same_table w (addRow w) /\ windowTitle (addRow w) = windowTitle w;
  setValue_same : forall r c s w,
    same_table w (setValue r c s w) /\
    windowTitle (setValue r c s w) = windowTitle w;
  setItemReadOnly_same : forall r c w,
    same_table w (setItemReadOnly r c w) /\
    windowTitle (setItemReadOnly r c w) = windowTitle w;
}.

(** The instance [readFromJSON] makes for the fluid of a table: of the same
    class, for the compound of the first identifier. *)
Definition fresh_instance (f : Fluid) : Fluid :=
  match f with
  | MEoS cls => MEoS cls
  | CoolProp ids => CoolProp (take 1 ids)
  | RefProp ids => RefProp (take 1 ids)
  end.

(** The fluid of a table can be saved: its class is one of [mEoS.__all__],
    or it has an identifier. *)
Definition saved_fluid (mEoS_all : list MEoSClass) (p : option Fluid) : Prop :=
  match p with
  | Some (MEoS cls) => cls ∈ mEoS_all
  | Some (CoolProp ids) | Some (RefProp ids) => ids <> []
  | None => False
  end.

(** A row of the table can be written to its cells: it is a list, and its
    items that are not strings have a format. *)
Definition row_ok (representacion : PyVal -> list (string * PyVal) -> string)
    (format : PyVal) (row : PyVal) : Prop :=
  exists cells, row = PList cells /\
    forall c cell, cells !! c = Some cell ->
      is_Ok (cell_text representacion format (Z.of_nat c) cell).

(** The attributes [TablaMEoS] adds, but the data. *)
Definition same_attrs {W} (t t' : TablaMEoS W) : Prop :=
  tm_keys t' = tm_keys t /\ tm_units t' = tm_units t /\
  tm_orderUnit t' = tm_orderUnit t /\ tm_format t' = tm_format t /\
  tm_Point t' = tm_Point t.

(** ** The choice of the axes: Plot2D, Plot3D, Ui_Isoproperty and the
       methods plot2D, plot3D, showIsoproperty of plugin
       (lines 401-417, 477-516, 3458-3535, 4155-4256) *)

(** [del l[i]] of Python on a list. *)
Definition py_del {A} (l : list A) (i : Z) : result (list A) :=
  let n := Z.of_nat (length l) in
  if (0 <=? i) && (i <? n) then Ok (delete (Z.to_nat i) l)
  else if (- n <=? i) && (i <? 0) then Ok (delete (Z.to_nat (n + i)) l)
  else Raise IndexError.

(** [if j >= i: j += 1] *)
Definition skip_index (i j : Z) : Z := if i <=? j then j + 1 else j.

(** The items [ejeXChanged] puts in the combo of the Y axis, for the
    names [ThermoAdvanced.propertiesName()] and the index of the X axis. *)
Definition ejeXChanged (propertiesName : list string) (index : Z)
  : result (list string) :=
  py_del propertiesName index.

(** The items [Plot3D.ejeYChanged] puts in the combo of the Z axis, for the
    current index [indX] of the X axis and the index [indY] of the Y axis. *)
Definition ejeYChanged (propertiesName : list string) (indX indY : Z)
  : result (list string) :=
  prop2 ← py_del propertiesName indX;
  py_del prop2 indY.

(** The positions in [ThermoAdvanced.propertiesKey()] that [plot2D] takes
    for the current indices [i], [j] of the two combos. *)
Definition plot2D_index (i j : Z) : Z * Z := (i, skip_index i j).

(** The keys [plot2D] plots: [x = prop[i]], [y = prop[j]]. *)
Definition plot2D (prop : list string) (i j : Z) : result (string * string) :=
  let '(i, j) := plot2D_index i j in
  x ← py_getitem prop i;
  y ← py_getitem prop j;
  Ok (x, y).

(** The positions [plot3D] takes for the current indices [i], [j], [k] of
    the three combos: [k] is moved past [i], then past [j] as the combo
    gives it, and [j] is moved past [i] last. *)
Definition plot3D_index (i j k : Z) : Z * Z * Z :=
  let k := skip_index i k in
  let k := skip_index j k in
  let j := skip_index i j in
  (i, j, k).

Definition plot3D (prop : list string) (i j k : Z)
  : result (string * string * string) :=
  let '(i, j, k) := plot3D_index i j k in
  x ← py_getitem prop i;
  y ← py_getitem prop j;
  z ← py_getitem prop k;
  Ok (x, y, z).

(** [Ui_Isoproperty.propiedades] and [Ui_Isoproperty.keys] *)
Definition Ui_Isoproperty_propiedades : list string :=
  ["Temperature"; "Pressure"; "Density"; "Volume"; "Enthalpy"; "Entropy";
   "Internal Energy"].

Definition Ui_Isoproperty_keys : list string :=
  ["T"; "P"; "rho"; "v"; "h"; "s"; "u"; "x"].

(** The items [actualizarUI] puts in the combo of the property to vary, for
    the index of the property held constant. *)
Definition actualizarUI (indice : Z) : result (list string) :=
  let propiedades := Ui_Isoproperty_propiedades in
  let propiedades :=
    if indice <=? 1 then (propiedades ++ ["Quality"])%list
    else propiedades in
  py_del propiedades indice.

(** The keys [X] (held constant) and [Y] (varied) of [showIsoproperty], for
    the current indices [i], [j] of the two combos of the dialog. *)
Definition showIsoproperty_keys (i j : Z) : result (string * string) :=
  let j := skip_index i j in
  X ← py_getitem Ui_Isoproperty_keys i;
  Y ← py_getitem Ui_Isoproperty_keys j;
  Ok (X, Y).

(** ** The temperatures and pressures of the lines: the joints of the
       segments (lines 678-682, 751-767, 4551-4570, 4643) *)

(** [for i in range(n, 0, -1): del T[points*i]] *)
Fixpoint del_joints {A} (points : Z) (n : nat) (T : list A)
  : result (list A) :=
  match n with
  | O => Ok T
  | S n' => T ← py_del T (points * Z.of_nat n); del_joints points n' T
  end.

(** The temperatures of the saturation line in [calculatePlot]: three
    segments from the triple point [Tt] to the critical point [Tc], with
    the factors 0.9 and 0.99 as the fractions they stand for. *)
Definition saturation_T (Tt Tc : Q) (points : Z) : result (list Q) :=
  let T := (linspace Tt ((9 # 10) * Tc) points
            ++ linspace ((9 # 10) * Tc) ((99 # 100) * Tc) points
            ++ linspace ((99 # 100) * Tc) Tc points)%list in
  del_joints points 2 T.

(** [T[:n]] of Python on a list. *)
Definition py_slice_to {A} (l : list A) (n : Z) : list A :=
  if 0 <=? n then take (Z.to_nat n) l
  else take (length l - Z.to_nat (- n)) l.

(** The six segments of the temperatures of an isoline, from [Tmin] to
    [Tmax] through the critical temperature. *)
Definition isoline_T_segments (Tmin Tmax Tc : Q) (points : Z)
  : list (list Q) :=
  [linspace Tmin ((9 # 10) * Tc) points;
   linspace ((9 # 10) * Tc) ((99 # 100) * Tc) points;
   linspace ((99 # 100) * Tc) Tc points;
   linspace Tc ((101 # 100) * Tc) points;
   linspace ((101 # 100) * Tc) ((11 # 10) * Tc) points;
   linspace ((11 # 10) * Tc) Tmax points].

(** The list [T] of [calculatePlot] and of [EditPlot.add]. *)
Definition isoline_T (Tmin Tmax Tc : Q) (points : Z) : result (list Q) :=
  del_joints points 5 (concat (isoline_T_segments Tmin Tmax Tc points)).

(** The temperatures [EditPlot.add] uses for a line of constant quality:
    [T = T[:3*points-2]]. *)
Definition isoquality_T (Tmin Tmax Tc : Q) (points : Z) : result (list Q) :=
  T ← isoline_T Tmin Tmax Tc points;
  Ok (py_slice_to T (3 * points - 2)).

(** [skip_index] on positions. *)
Definition skip_pos (i j : nat) : nat := if (i <=? j)%nat then S j else j.

(** ** calcIsoline (lines 4986-5031) *)

(** What [calcIsoline] may raise: what [calcPoint] raises, and the division
    by zero of the value of the progress bar. *)
Inductive raised :=
  | Raised (e : exn)
  | ZeroDivisionError.

Inductive outcome (A : Type) : Type :=
  | Returns (a : A)
  | Raises (e : raised).
Arguments Returns {A} a.
Arguments Raises {A} e.

(** What [calcIsoline] does to the progress bar and to the event loop. *)
Inductive BarEvent :=
  | BarSetValue (value : Q)
  | BarProcessEvents.

(** [ini+end*step/total+end/total*len(fluidos)/len(vvar)], on integers
    [ini], [end], [step], [total]: [None] when a divisor is zero. *)
Definition bar_value (ini step end_ total : Z) (fluidos vvar : nat)
  : option Q :=
  if total =? 0 then None
  else if Nat.eqb vvar 0 then None
  else Some (inject_Z ini + inject_Z (end_ * step) / inject_Z total
             + inject_Z end_ / inject_Z total
               * inject_Z (Z.of_nat fluidos) / inject_Z (Z.of_nat vvar))%Q.

(** [q != v] for a number [q] and the value of a keyword argument. *)
Definition py_ne (q : Q) (v : PyVal) : bool :=
  match py_num v with
  | Ok q' => negb (Qeq_bool q q')
  | Raise _ => true
  end.

(** [k not in ("T", "P")] *)
Definition not_T_P (k : string) : bool :=
  negb (String.eqb k "T" || String.eqb k "P").

(** The keyword arguments of a point of the line:
    [{var: Ti, fix: vfix, "rho0": rhoo, "T0": To}]. *)
Definition isoline_point (var fix_ : string) (Ti vfix : Q) (rhoo To : PyVal)
  : gmap string PyVal :=
  <["T0" := To]> (<["rho0" := rhoo]>
    (<[fix_ := PFloat vfix]> (<[var := PFloat Ti]> ∅))).

Section CalcIsoline.

(** The preference file read by [getMethod]. *)
Variable pref : ConfigParser.
Variables (f : FluidObj) (config : Config) (var fix_ : string) (vfix : Q).
Variables (ini step end_ total : Z).

(** [for Ti in vvar: ...]: [n] is [len(vvar)]; the state of the loop is the
    list [fluidos], the initial values [rhoo] and [To], and the events so
    far. *)
Fixpoint calcIsoline_loop (n : nat) (vvar : list Q) (fluidos : list State)
    (rhoo To : PyVal) (log : list BarEvent)
  : outcome (list State * list BarEvent) :=
  match vvar with
  | [] => Returns (fluidos, log)
  | Ti :: vvar' =>
      match calcPoint pref f config (isoline_point var fix_ Ti vfix rhoo To)
      with
      | Raise e => Raises (Raised e)
      | Ok fluido =>
          let '(fluidos, rhoo, To) :=
            match fluido with
            | Some fl =>
                if negb (status fl =? 0)
                   && (py_ne (st_rho fl) rhoo || py_ne (st_T fl) To)
                then
                  if not_T_P var || not_T_P fix_
                  then ((fluidos ++ [fl])%list,
                        PFloat (st_rho fl), PFloat (st_T fl))
                  else ((fluidos ++ [fl])%list, rhoo, To)
                else (fluidos, rhoo, To)
            | None => (fluidos, rhoo, To)
            end in
          match bar_value ini step end_ total (length fluidos) n with
          | None => Raises ZeroDivisionError
          | Some v =>
              calcIsoline_loop n vvar' fluidos rhoo To
                (log ++ [BarSetValue v; BarProcessEvents])%list
          end
      end
  end.

Definition calcIsoline (vvar : list Q)
  : outcome (list State * list BarEvent) :=
  calcIsoline_loop (length vvar) vvar [] (PInt 0) (PInt 0) [].

End CalcIsoline.

(** The states of a line that are kept when the initial values stay 0. *)
Definition kept_from_zero (r : option State) : option State :=
  match r with
  | Some fl =>
      if negb (status fl =? 0)
         && (negb (Qeq_bool (st_rho fl) 0) || negb (Qeq_bool (st_T fl) 0))
      then Some fl else None
  | None => None
  end.

(** The number of calls of [processEvents] in a list of events. *)
Fixpoint processed (log : list BarEvent) : nat :=
  match log with
  | [] => O
  | BarProcessEvents :: log' => S (processed log')
  | BarSetValue _ :: log' => processed log'
  end.

(** Two states that follow each other in a line differ in density or in
    temperature. *)
Fixpoint no_repeat (l : list State) : Prop :=
  match l with
  | a :: (b :: _) as l' =>
      (Qeq_bool (st_rho b) (st_rho a) && Qeq_bool (st_T b) (st_T a) = false)
      /\ no_repeat l'
  | _ => True
  end.

(** ** createTabla and the function _getData of the module
       (lines 2568-2638, 2667-2722) *)

(** An attribute of a fluid, as the function [_getData] looks at it: the
    text when it is a [str], whether it is a [unidades.unidad], what
    [p.config()] and [p.__getattribute__(name)] give, and the value. *)
Record AttrVal := {
  av_str : option string;
  av_unidad : bool;
  av_config : result PyVal;
  av_getattribute : string -> result PyVal;
  av_value : PyVal;
}.

(** A fluid and its two phases: [fluid.__getattribute__(key)],
    [fluid.Liquido.__getattribute__(key)], [fluid.Gas.__getattribute__(key)]. *)
Record PhaseFluid := {
  pf_getattribute : string -> result AttrVal;
  pf_Liquido : string -> result AttrVal;
  pf_Gas : string -> result AttrVal;
}.

(** [p.__getattribute__(unit[i])] if [unit and unit[i]], else [p.config()] *)
Definition in_unit (unit : option (list string)) (i : Z) (p : AttrVal)
  : result PyVal :=
  match unit with
  | None | Some [] => av_config p
  | Some u =>
      ui ← py_getitem u i;
      if String.eqb ui EmptyString then av_config p
      else av_getattribute p ui
  end.

(** The value of the fluid for a column. *)
Definition bulk_txt (unit : option (list string)) (i : Z) (p : AttrVal)
  : result PyVal :=
  match av_str p with
  | Some txt => Ok (PStr txt)
  | None => in_unit unit i p
  end.

(** The value of a phase for a column. *)
Definition phase_txt (unit : option (list string)) (i : Z) (p : AttrVal)
  : result PyVal :=
  match av_str p with
  | Some txt => Ok (PStr txt)
  | None => if av_unidad p then in_unit unit i p else Ok (av_value p)
  end.

(** The keys of the properties a user gives in a table of specified
    points. *)
Definition input_keys : list string := ["P"; "T"; "x"; "rho"; "v"; "h"; "s"].

Section Tables.

(** [ThermoAdvanced.propertiesPhase()] *)
Variable propertiesPhase : list string.

(** [for i, key in enumerate(keys)] of the function [_getData] *)
Fixpoint _getData_loop (fluid : PhaseFluid) (phase : bool)
    (unit : option (list string)) (i : Z) (keys : list string)
  : result (list PyVal) :=
  match keys with
  | [] => Ok []
  | key :: rest =>
      if String.eqb key EmptyString
      then _getData_loop fluid phase unit (i + 1) rest
      else
        p ← pf_getattribute fluid key;
        txt ← bulk_txt unit i p;
        phases ←
          (if phase && bool_decide (key ∈ propertiesPhase) then
             p ← pf_Liquido fluid key;
             liquid ← phase_txt unit i p;
             p ← pf_Gas fluid key;
             gas ← phase_txt unit i p;
             Ok [liquid; gas]
           else Ok []);
        fila ← _getData_loop fluid phase unit (i + 1) rest;
        Ok (txt :: phases ++ fila)%list
  end.

(** The function [_getData(fluid, keys, phase, unit)] of the module; the
    method of the same name of [PlotMEoS] is [_getData] above. *)
Definition _getData_fila (fluid : PhaseFluid) (keys : list string)
    (phase : bool) (unit : option (list string)) : result (list PyVal) :=
  _getData_loop fluid phase unit 0 keys.

Context {W : Type} `{TablaBase W}.
(** [ThermoAdvanced.properties()], [eval] and [config.get] as in
    [get_propiedades] *)
Variable properties : list Property.
Variable eval : string -> result PyVal.
Variable config_get : string -> string -> result PyVal.
(** [config.getboolean] *)
Variable config : ConfigParser.
(** [unit.text()] of a class of [lib.unidades] *)
Variable unit_text : Unit -> string.
(** [os.linesep] and [QApplication.translate("pychemqt", text)] *)
Variable linesep : string.
Variable translate : string -> string.
Variable representacion : PyVal -> list (string * PyVal) -> string.

(** The title of a column: the name of the property and its unit. *)
Definition with_suffix (propiedad : string) (unit : Unit) : string :=
  let sufx := unit_text unit in
  let sufx := if String.eqb sufx EmptyString then "[-]" else sufx in
  propiedad ++ linesep ++ sufx.

(** [for i, unit in enumerate(units): propiedades[i] = ...] *)
Fixpoint add_suffix (i : nat) (units : list Unit) (propiedades : list string)
  : result (list string) :=
  match units with
  | [] => Ok propiedades
  | unit :: rest =>
      match propiedades !! i with
      | Some p =>
          add_suffix (S i) rest (<[i := with_suffix p unit]> propiedades)
      | None => Raise IndexError
      end
  end.

(** [for i in range(len(propiedades)-1, -1, -1)] with the two slice
    assignments; [n] is the number of indices left. *)
Fixpoint phase_columns (n : nat) (keys : list string)
    (propiedades : list string) (units : list Unit)
  : result (list string * list Unit) :=
  match n with
  | O => Ok (propiedades, units)
  | S i =>
      key ← py_getitem keys (Z.of_nat i);
      if bool_decide (key ∈ propertiesPhase) then
        p ← py_getitem propiedades (Z.of_nat i);
        let txt := [p; translate "Liquid" ++ linesep ++ p;
                    translate "Vapour" ++ linesep ++ p] in
        let propiedades :=
          (take i propiedades ++ txt ++ drop (S i) propiedades)%list in
        u ← py_getitem units (Z.of_nat i);
        let units := (take i units ++ [u; u; u] ++ drop (S i) units)%list in
        phase_columns i keys propiedades units
      else phase_columns i keys propiedades units
  end.

(** [for key in keys] that fills [columnInput] *)
Fixpoint column_input (keys : list string) : result (list bool) :=
  match keys with
  | [] => Ok []
  | key :: rest =>
      let first := negb (bool_decide (key ∈ input_keys)) in
      phase ← getboolean config "MEoS" "phase";
      columnInput ← column_input rest;
      Ok (first :: (if phase && bool_decide (key ∈ propertiesPhase)
                    then [true; true] else []) ++ columnInput)%list
  end.

(** [for i in range(len(keys)-1, -1, -1)] with the slice assignment of the
    key and two empty keys *)
Fixpoint expand_keys (n : nat) (keys : list string) : result (list string) :=
  match n with
  | O => Ok keys
  | S i =>
      key ← py_getitem keys (Z.of_nat i);
      if bool_decide (key ∈ propertiesPhase) then
        expand_keys i
          (take i keys ++ [key; EmptyString; EmptyString]
           ++ drop (S i) keys)%list
      else expand_keys i keys
  end.

(** The titles and the units of the columns: the first two blocks of
    [createTabla]. *)
Definition createTabla_columns (propiedades : list string)
    (keys : list string) (units : list Unit)
  : result (list string * list Unit) :=
  propiedades ← add_suffix 0 units propiedades;
  phase ← getboolean config "MEoS" "phase";
  if phase : bool
  then phase_columns (length propiedades) keys propiedades units
  else Ok (propiedades, units).

(** [createTabla(config, title, fluidos, parent)]; [parent] is the
    configuration [parent.currentConfig] of the main window, when there is
    one.  [resizeColumnsToContents] changes the layout only. *)
Definition createTabla (title : string) (fluidos : option (list PhaseFluid))
    (parent : option ConfigParser) : result (TablaMEoS W) :=
  r ← get_propiedades properties eval config_get;
  let '(propiedades, keys, units) := r in
  r ← createTabla_columns propiedades keys units;
  let '(propiedades, units) := r in
  let columnas := Z.of_nat (length propiedades) in
  tabla ←
    match fluidos with
    | Some ((_ :: _) as fluidos) =>
        tabla ← TablaMEoS_init columnas
          {| kw_parent := parent; kw_keys := None; kw_units := Some units;
             kw_orderUnit := None; kw_format := None;
             kw_horizontalHeader := Some (PList (map PStr propiedades));
             kw_stretch := Some false; kw_readOnly := Some true;
             kw_filas := None; kw_columnReadOnly := None |};
        data ← mapM (fun fluido =>
                       phase ← getboolean config "MEoS" "phase";
                       fila ← _getData_fila fluido keys phase None;
                       Ok (PList fila)) fluidos;
        setData representacion (PList data) tabla
    | _ =>
        columnInput ← column_input keys;
        phase ← getboolean config "MEoS" "phase";
        keys ← (if phase : bool then expand_keys (length keys) keys
                else Ok keys);
        TablaMEoS_init columnas
          {| kw_parent := parent; kw_keys := Some (PList (map PStr keys));
             kw_units := Some units;
             kw_orderUnit := None; kw_format := None;
             kw_horizontalHeader := Some (PList (map PStr propiedades));
             kw_stretch := Some false; kw_readOnly := None;
             kw_filas := Some 1;
             kw_columnReadOnly := Some (PList (map PBool columnInput)) |}
    end;
  Ok (with_widget tabla
        (setWindowTitle (translate "Table" ++ ": " ++ title)
           (tm_widget tabla))).

(** What the loops of [createTabla] make of a column with the key [key]:
    one column, or three when the two phases are shown and the property has
    a value for each phase. *)
Definition columns_of {A} (phase : bool) (key : string) (x y z : A)
  : list A :=
  if phase && bool_decide (key ∈ propertiesPhase) then [x; y; z] else [x].

Definition column_titles (phase : bool) (keys : list string)
    (propiedades : list string) (units : list Unit) : list string :=
  mjoin (zip_with (fun key p =>
           columns_of phase key p (translate "Liquid" ++ linesep ++ p)
             (translate "Vapour" ++ linesep ++ p))
         keys (zip_with with_suffix propiedades units)).

Definition column_units (phase : bool) (keys : list string)
    (units : list Unit) : list Unit :=
  mjoin (zip_with (fun key u => columns_of phase key u u u) keys units).

Definition column_keys (phase : bool) (keys : list string) : list string :=
  mjoin (map (fun key => columns_of phase key key EmptyString EmptyString)
           keys).

End Tables.

(** ** Ui_Properties: Down, Up and comprobarBotones (lines 2505-2527,
       2561-2564) *)

(** The dialog: the rows of the table [prop], each with the text of the
    item of the mark (column 0) and of the name (column 1), [None] for a
    cell without item; the current row of the table, -1 when there is none;
    the list [order]. *)
Record Ui_Properties := {
  up_prop : list (option string * option string);
  up_currentRow : Z;
  up_order : list PyVal;
}.

(** [prop.item(row, column)]: the text of the item, [None] when the cell
    has no item or is not in the table. *)
Definition prop_item (rows : list (option string * option string))
    (row column : Z) : option string :=
  if 0 <=? row then
    match rows !! Z.to_nat row with
    | Some r => if column =? 0 then r.1 else if column =? 1 then r.2 else None
    | None => None
    end
  else None.

(** [prop.setItem(row, column, item)], and [item(row, column).setText(txt)]
    for a cell with an item: nothing changes for a cell that is not in the
    table. *)
Definition prop_setItem (rows : list (option string * option string))
    (row column : Z) (item : option string)
  : list (option string * option string) :=
  if 0 <=? row then
    alter (fun r => if column =? 0 then (item, r.2)
                    else if column =? 1 then (r.1, item) else r)
          (Z.to_nat row) rows
  else rows.

(** [l[i] = x] of Python *)
Definition py_setitem {A} (l : list A) (i : Z) (x : A) : result (list A) :=
  let n := Z.of_nat (length l) in
  if (0 <=? i) && (i <? n) then Ok (<[Z.to_nat i := x]> l)
  else if (- n <=? i) && (i <? 0) then Ok (<[Z.to_nat (n + i) := x]> l)
  else Raise IndexError.

(** The body shared by [Down] and [Up]: the current row [i] changes places
    with the row [j].  The result is the dialog as the method leaves it and
    the exception it raises, if any. *)
Definition exchange_rows (self : Ui_Properties) (i j : Z)
  : Ui_Properties * option exn :=
  let rows := up_prop self in
  match prop_item rows i 0 with
  | None => (self, Some AttributeError)
  | Some txt =>
      match prop_item rows j 0 with
      | None => (self, Some AttributeError)
      | Some txt_j =>
          let rows := prop_setItem rows i 0 (Some txt_j) in
          match prop_item rows j 0 with
          | None =>
              ({| up_prop := rows; up_currentRow := i;
                  up_order := up_order self |}, Some AttributeError)
          | Some _ =>
              let rows := prop_setItem rows j 0 (Some txt) in
              (* item = takeItem(i, 1) *)
              let item := prop_item rows i 1 in
              let rows := prop_setItem rows i 1 None in
              (* setItem(i, 1, takeItem(j, 1)) *)
              let item_j := prop_item rows j 1 in
              let rows := prop_setItem rows j 1 None in
              let rows := prop_setItem rows i 1 item_j in
              let rows := prop_setItem rows j 1 item in
              (* setCurrentCell(j, 0) *)
              let self' order :=
                {| up_prop := rows; up_currentRow := j; up_order := order |} in
              let order := up_order self in
              match py_getitem order j with
              | Raise e => (self' order, Some e)
              | Ok order_j =>
                  match py_getitem order i with
                  | Raise e => (self' order, Some e)
                  | Ok order_i =>
                      match py_setitem order i order_j with
                      | Raise e => (self' order, Some e)
                      | Ok order' =>
                          match py_setitem order' j order_i with
                          | Raise e => (self' order', Some e)
                          | Ok order'' => (self' order'', None)
                          end
                      end
                  end
              end
          end
      end
  end.

(** [Down(self)] *)
Definition Down (self : Ui_Properties) : Ui_Properties * option exn :=
  let i := up_currentRow self in exchange_rows self i (i + 1).

(** [Up(self)] *)
Definition Up (self : Ui_Properties) : Ui_Properties * option exn :=
  let i := up_currentRow self in exchange_rows self i (i - 1).

(** [comprobarBotones(self, fila)]: whether [ButtonArriba] and
    [ButtonAbajo] are enabled. *)
Definition comprobarBotones (self : Ui_Properties) (fila : Z) : bool * bool :=
  (1 <=? fila, fila <? Z.of_nat (length (up_prop self)) - 1).

(** ** plugin.calculatePlot: the isolines (lines 707-879) *)

#[global] Instance outcome_ret : MRet outcome := fun A a => Returns a.
#[global] Instance outcome_bind : MBind outcome :=
  fun A B f m => match m with Returns a => f a | Raises e => Raises e end.

Definition raised_of {A} (r : result A) : outcome A :=
  match r with Ok a => Returns a | Raise e => Raises (Raised e) end.

(** The arrays of a line of the plot: for each property key, the values
    along the line; and a dict of lines, in the order of their insertion,
    with the value of the line for key. *)
Abbreviation IsolineData := (gmap string (list (option PropVal))).
Abbreviation Isolines := (list (Q * IsolineData)).

(** The data of the isolines, by the key of the property held constant. *)
Abbreviation PlotLines := (gmap string Isolines).

(** [lines[value] = d] *)
Fixpoint dict_set (lines : Isolines) (value : Q) (d : IsolineData)
  : Isolines :=
  match lines with
  | [] => [(value, d)]
  | (v, d') :: rest =>
      if Qeq_bool v value then (v, d) :: rest
      else (v, d') :: dict_set rest value d
  end.

(** [lines[value]] *)
Fixpoint dict_item (lines : Isolines) (value : Q) : option IsolineData :=
  match lines with
  | [] => None
  | (v, d) :: rest =>
      if Qeq_bool v value then Some d else dict_item rest value
  end.

(** [p = fluido.__getattribute__(key)], and [p = p[0]] for the fugacity
    properties. *)
Definition isoline_value (key : string) (fluido : State)
  : result (option PropVal) :=
  let p := getattribute fluido key in
  if String.eqb key "fi" || String.eqb key "f" then
    match p with
    | Some (Vector l) => q ← py_getitem l 0; Ok (Some (Scalar q))
    | Some (Scalar _) | None => Raise TypeError
    end
  else Ok p.

(** [for fluido in fluidos: ...]: the array [dat_propiedad] when the
    property read is [key]. *)
Definition isoline_column (key : string) (fluidos : list State)
  : result (list (option PropVal)) :=
  mapM (fun fluido =>
          if negb (status fluido =? 0) then isoline_value key fluido
          else Ok None) fluidos.

(** [for x in ThermoAdvanced.propertiesKey(): ...] filling the dict of a
    line: the array stored for [x] holds the property [read x]. *)
Fixpoint isoline_data (read : string -> string) (keys : list string)
    (fluidos : list State) (d : IsolineData) : result IsolineData :=
  match keys with
  | [] => Ok d
  | x :: keys' =>
      dat_propiedad ← isoline_column (read x) fluidos;
      isoline_data read keys' fluidos (<[x := dat_propiedad]> d)
  end.

Section Isolines.

Variable propertiesKey : list string.
Variables (pref : ConfigParser) (fluid : FluidObj) (self_config : Config).

(** [for i, value in enumerate(values): ...] of a family of lines, with
    the dict of the family and the events of the progress bar so far. *)
Fixpoint isoline_family (read : string -> string) (var fix_ : string)
    (vvar : list Q) (ini end_ total : Z) (i : Z) (values : list Q)
    (lines : Isolines) (log : list BarEvent)
  : outcome (Isolines * list BarEvent) :=
  match values with
  | [] => Returns (lines, log)
  | value :: values' =>
      r ← calcIsoline pref fluid self_config var fix_ value ini i end_ total
            vvar;
      let '(fluidos, events) := r in
      d ← raised_of (isoline_data read propertiesKey fluidos ∅);
      isoline_family read var fix_ vvar ini end_ total (i + 1) values'
        (dict_set lines value d) (log ++ events)
  end.

(** The six lists of [LineList], in the order of the calls. *)
Record LineLists := {
  Isoquality : list Q;
  Isotherm : list Q;
  Isobar : list Q;
  Isochor : list Q;
  Isoenthalpic : list Q;
  Isoentropic : list Q;
}.

(** The variable [key] after the loops over the keys for the saturation
    lines: the isoquality block, which loops with [x], reads it.  It is
    read only inside a loop over the same keys. *)
Definition key_left (x : string) : string := default x (last propertiesKey).

(** The isoquality, isotherm, isobar and isochor lines; [Tsat] is the
    list [T] of the saturation line, [T] and [P] are the lists of the
    isolines. *)
Definition isolines_x_T_P_v (Tsat T P : list Q) (l : LineLists)
  : outcome (PlotLines * list BarEvent) :=
  let data : PlotLines := ∅ in
  let values := Isoquality l in
  r ← isoline_family key_left "T" "x" Tsat 20 20
        (Z.of_nat (length values)) 0 values [] [];
  let data := <["x" := r.1]> data in
  let values := Isotherm l in
  r ← isoline_family (fun key => key) "P" "T" P 40 10
        (Z.of_nat (length values)) 0 values [] r.2;
  let data := <["T" := r.1]> data in
  let values := Isobar l in
  r ← isoline_family (fun key => key) "T" "P" T 50 10
        (Z.of_nat (length values)) 0 values [] r.2;
  let data := <["P" := r.1]> data in
  let values := Isochor l in
  r ← isoline_family (fun key => key) "T" "v" T 60 10
        (Z.of_nat (length values)) 0 values [] r.2;
  Returns (<["v" := r.1]> data, r.2).

(** The isolines of [calculatePlot]: the isoenthalpic lines are the ones
    of the list [vals], with the length of [values], the list of the
    isochor lines, for total. *)
Definition calculatePlot_isolines (Tsat T P : list Q) (l : LineLists)
  : outcome (PlotLines * list BarEvent) :=
  r ← isolines_x_T_P_v Tsat T P l;
  let '(data, log) := r in
  let values := Isochor l in
  let vals := Isoenthalpic l in
  r ← isoline_family (fun key => key) "P" "h" P 70 10
        (Z.of_nat (length values)) 0 vals [] log;
  let data := <["h" := r.1]> data in
  let values := Isoentropic l in
  r ← isoline_family (fun key => key) "P" "s" P 80 20
        (Z.of_nat (length values)) 0 values [] r.2;
  Returns (<["s" := r.1]> data, r.2).

End Isolines.

(** ** plotIsoline and EditPlot.changeValue: the position of the label
       (lines 5111-5137, 4515-4522) *)

(** [i = int(len(xi)*pos/100); if i >= len(xi): i = len(yi)-1], for an
    integer [pos] *)
Definition label_index (xi yi : list Q) (pos : Z) : Z :=
  let i := Z.quot (Z.of_nat (length xi) * pos) 100 in
  if Z.of_nat (length xi) <=? i then Z.of_nat (length yi) - 1 else i.

(** [j = i-10 if pos > 50 else i+10] *)
Definition slope_index (i pos : Z) : Z :=
  if 50 <? pos then i - 10 else i + 10.

(** The points of a line that [plotIsoline] reads for its label: [xi[i]],
    [xi[j]], [yi[i]] and [yi[j]] for the rotation, then [xi[i]] and [yi[i]]
    for the position.  The result is the point of the label and the second
    point of the slope; the arithmetic on them is left out. *)
Definition plotIsoline_label (xi yi : list Q) (pos : Z)
  : result (Q * Q * (Q * Q)) :=
  let i := label_index xi yi pos in
  let j := slope_index i pos in
  xi_i ← py_getitem xi i;
  xi_j ← py_getitem xi j;
  yi_i ← py_getitem yi i;
  yi_j ← py_getitem yi j;
  x ← py_getitem xi i;
  y ← py_getitem yi i;
  Ok (x, y, (xi_j, yi_j)).

(** The case [key == "textPos"] of [changeValue]: [value = xi[i], yi[i]] *)
Definition changeValue_textPos (xi yi : list Q) (value : Z)
  : result (Q * Q) :=
  let i := label_index xi yi value in
  x ← py_getitem xi i;
  y ← py_getitem yi i;
  Ok (x, y).

(** ** plugin.plot: the data of the plot, cached or computed
       (lines 561-582) *)

Section PlotData.

(** The data of a plot: a dict with the lines and, under "config", the
    configuration they were computed for. *)
Variable pickle_dump : gmap string PyVal -> list Byte.byte.
Variable pickle_load : list Byte.byte -> result (gmap string PyVal).
Variable gunzip : list Byte.byte -> result (list Byte.byte).
Variables (conf_dir pychemqt sep : string).

(** The dict [conf] that is saved with the data. *)
Definition plot_conf (self_config : ConfigParser) (method : string)
  : result PyVal :=
  fluid ← getint self_config "MEoS" "fluid";
  eq ← getint self_config "MEoS" "eq";
  visco ← getint self_config "MEoS" "visco";
  thermal ← getint self_config "MEoS" "thermal";
  Ok (PDict [("method", PStr method); ("fluid", PInt fluid);
             ("eq", PInt eq); ("visco", PInt visco);
             ("thermal", PInt thermal)]).

(** From [data = grafico._getData()] to [grafico.config = data["config"]]:
    [calculatePlot] is what [self.calculatePlot(fluid)] returns, were it
    called.  The result is the data that are plotted, the configuration
    kept in [grafico.config] and the files. *)
Definition plot_data (self_config : ConfigParser) (method : string)
    (filename : string) (calculatePlot : result (gmap string PyVal))
    (fs : gmap string (list Byte.byte))
  : result (gmap string PyVal * PyVal * gmap string (list Byte.byte)) :=
  r ← _getData (gmap string PyVal) pickle_dump pickle_load gunzip conf_dir
        pychemqt sep filename fs;
  let '(cached, fs) := r in
  (* the body of [if not data:] *)
  let computed :=
    data ← calculatePlot;
    conf ← plot_conf self_config method;
    let data := <["config" := conf]> data in
    Ok (data, _saveData (gmap string PyVal) pickle_dump conf_dir filename
                data fs) in
  r ← match cached with
      | Some data => if dict_truth data then Ok (data, fs) else computed
      | None => computed
      end;
  let '(data, fs) := r in
  config ← dict_get data "config";
  Ok (data, config, fs).

End PlotData.

(** ** Concrete collaborators, for the examples *)

(** A [ConfigParser] that holds the given options; reading any other
    option raises. *)
Definition config_of (bools : list (string * string * bool))
    (ints : list (string * string * Z)) : ConfigParser :=
  let find {A} (l : list (string * string * A)) (s o : string) : result A :=
    match List.find (fun '(s', o', _) => String.eqb s s' && String.eqb o o')
                    l with
    | Some (_, _, a) => Ok a
    | None => Raise ConfigError
    end in
  {| getboolean := find bools; getint := find ints |}.

Definition water : MEoSClass := {| cls_id := 62; cls_name := "H2O" |}.
Definition argon : MEoSClass := {| cls_id := 98; cls_name := "Ar" |}.

(** The entry of [ThermoAdvanced.properties()] at an index of the order
    list. *)
Definition property_at (properties : list Property) (indice : PyVal)
  : result Property :=
  i ← py_as_index indice; py_getitem properties i.

Definition sample_properties : list Property :=
  [("Temperature", "T", UnitClass "Temperature");
   ("Pressure", "P", UnitClass "Pressure");
   ("Quality", "x", Dimensionless)].

Definition sample_config_get (s o : string) : result PyVal :=
  if String.eqb o "properties" then Ok (PList [PInt 1; PInt 0; PBool true])
  else if String.eqb o "propertiesOrder" then Ok (PStr "[2, 1, 0]")
  else Raise ConfigError.

Definition sample_eval (s : string) : result PyVal :=
  if String.eqb s "[2, 1, 0]" then Ok (PList [PInt 2; PInt 1; PInt 0])
  else Raise ValueError.

(** A fluid of [lib.mEoS] with one equation, valid from 280 K to 500 K and up
    to 1000 kPa, and a melting correlation from 250 K to 400 K. *)
Definition sample_melting : gmap string Q :=
  <["Tmax" := 400%Q]> (<["Tmin" := 250%Q]> ∅).

Definition sample_state (kwargs : gmap string PyVal) : State :=
  let num k d := match num_arg kwargs k with Ok (Some q) => q | _ => d end in
  let T := num "T" 300%Q in
  let P := num "P" 100%Q in
  {| status := 1; msg := EmptyString;
     st_T := T; st_P := P; st_rho := 1000%Q;
     st_melting := sample_melting;
     st_Melting_Pressure := fun T => (1000 * T)%Q;
     getattribute := fun x =>
       if String.eqb x "T" then Some (Scalar T)
       else if String.eqb x "P" then Some (Scalar P)
       else if String.eqb x "fi" then Some (Vector [1%Q])
       else None |}.

Definition sample_fluid : FluidObj :=
  {| f_eq := EqTuple [ <["Pmax" := 1000%Q]>
                         (<["Tmax" := 500%Q]> (<["Tmin" := 280%Q]> ∅)) ];
     f_call := sample_state;
     f_new := sample_state;
     f_melting := sample_melting;
     f_Melting_Pressure := fun T => (1000 * T)%Q;
     f_sublimation := ∅;
     f_Sublimation_Pressure := fun T => T |}.

Definition sample_conf : Config :=
  ConfParser (config_of [] [("MEoS", "eq", 0); ("MEoS", "visco", 0);
                            ("MEoS", "thermal", 0)]).

Definition pref_meos : ConfigParser :=
  config_of [("MEOS", "coolprop", false); ("MEOS", "refprop", false)]
            [("MEOS", "definition", 0)].

Definition pref_refprop : ConfigParser :=
  config_of [("MEOS", "coolprop", true); ("MEOS", "refprop", true)]
            [("MEOS", "definition", 0)].

(** The keyword arguments of the call of [calcPoint] in the loops of
    [calculatePlot]: [T=Ti, P=P]. *)
Definition line_point (pressure : Q -> Q) (Ti : Q) : gmap string PyVal :=
  <["P" := PFloat (pressure Ti)]> (<["T" := PFloat Ti]> ∅).

Definition sample_keys : list string := ["T"; "P"; "fi"; "rho"].

Definition sample_T : list Q := linspace 250 400 5.

(** What [calcPoint] returns along the melting line of the sample fluid. *)
Definition sample_rs : list (option State) :=
  map (fun Ti =>
         match calcPoint pref_meos sample_fluid sample_conf
                 (line_point (f_Melting_Pressure sample_fluid) Ti) with
         | Ok r => r
         | Raise _ => None
         end) sample_T.

(** The data of a plot with the two saturation lines, a melting line and a
    sublimation line of two points each, for the properties T, P and rho. *)
Definition sample_line (T P rho : list Q) : LineData :=
  <["rho" := map Some rho]> (<["P" := map Some P]> (<["T" := map Some T]> ∅)).

Definition sample_data : gmap string LineData :=
  <["sublimation" := sample_line [200; 210]%Q [1; 2]%Q [1500; 1490]%Q]>
  (<["melting" := sample_line [300; 310]%Q [5000; 6000]%Q [1100; 1090]%Q]>
  (<["saturation_1" := sample_line [280; 290]%Q [10; 20]%Q [1; 2]%Q]>
  (<["saturation_0" := sample_line [280; 290]%Q [10; 20]%Q [1000; 990]%Q]>
     ∅))).

(** The values are kept in the unit they are stored in. *)
Definition sample_transform (eje : string) (val : option Q) : Q :=
  match val with Some q => q | None => 0%Q end.

(** A fluid for the dialog, reduced to its status and message: it is
    computed once a temperature and a pressure are given. *)
Definition sample_call (f : Z * string) (kwargs : gmap string PyVal)
  : Z * string :=
  match kwargs !! "T", kwargs !! "P" with
  | Some _, Some _ => (1, EmptyString)
  | _, _ => (0, "Unknown variables")
  end.

Definition sample_dialog : AddPoint (Z * string) :=
  {| ap_fluid := (0, "Unknown variables"); ap_Inputs := 8;
     ap_checkMelting := Some true; ap_log := [] |}.

Definition sample_update (key : string) (value : Q)
    (self : AddPoint (Z * string)) : result (AddPoint (Z * string)) :=
  update (fun _ => true) (fun _ => sample_melting)
    (fun _ T => (1000 * T)%Q) fst snd (fun _ _ => None) (fun _ _ => false)
    sample_call key value self.

(** A table widget that keeps what it is given, for the examples. *)
Record QTable := {
  qt_columns : Z;
  qt_rows : Z;
  qt_title : string;
  qt_header : list PyVal;
  qt_readOnly : bool;
  qt_columnReadOnly : PyVal;
  qt_cells : list (Z * Z * string);
  qt_protected : list (Z * Z);
}.

Definition QTable_init (columnas : Z) (kw : Kwargs) : QTable :=
  let ro := default false (kw_readOnly kw) in
  {| qt_columns := Z.max 0 columnas;
     qt_rows := Z.max 0 (default 0 (kw_filas kw));
     qt_title := EmptyString;
     qt_header := match kw_horizontalHeader kw with
                  | Some (PList l) => l
                  | _ => []
                  end;
     qt_readOnly := ro;
     qt_columnReadOnly :=
       match kw_columnReadOnly kw with
       | Some v => v
       | None => PList (replicate (Z.to_nat columnas) (PBool ro))
       end;
     qt_cells := [];
     qt_protected := [] |}.

Definition QTable_header (w : QTable) (c : Z) : option string :=
  if (0 <=? c) && (c <? qt_columns w) then
    match qt_header w !! Z.to_nat c with
    | Some (PStr s) => Some s
    | _ => None
    end
  else None.

#[global] Instance QTable_base : TablaBase QTable := {|
  Tabla_init := QTable_init;
  columnCount := qt_columns;
  rowCount := qt_rows;
  windowTitle := qt_title;
  setWindowTitle := fun s w =>
    {| qt_columns := qt_columns w; qt_rows := qt_rows w; qt_title := s;
       qt_header := qt_header w; qt_readOnly := qt_readOnly w;
       qt_columnReadOnly := qt_columnReadOnly w; qt_cells := qt_cells w;
       qt_protected := qt_protected w |};
  horizontalHeaderItem := QTable_header;
  readOnly := qt_readOnly;
  columnReadOnly := qt_columnReadOnly;
  addRow := fun w =>
    {| qt_columns := qt_columns w; qt_rows := qt_rows w + 1;
       qt_title := qt_title w;
       qt_header := qt_header w; qt_readOnly := qt_readOnly w;
       qt_columnReadOnly := qt_columnReadOnly w; qt_cells := qt_cells w;
       qt_protected := qt_protected w |};
  setValue := fun r c s w =>
    {| qt_columns := qt_columns w; qt_rows := qt_rows w;
       qt_title := qt_title w;
       qt_header := qt_header w; qt_readOnly := qt_readOnly w;
       qt_columnReadOnly := qt_columnReadOnly w;
       qt_cells := (r, c, s) :: qt_cells w;
       qt_protected := qt_protected w |};
  setItemReadOnly := fun r c w =>
    {| qt_columns := qt_columns w; qt_rows := qt_rows w;
       qt_title := qt_title w;
       qt_header := qt_header w; qt_readOnly := qt_readOnly w;
       qt_columnReadOnly := qt_columnReadOnly w; qt_cells := qt_cells w;
       qt_protected := (r, c) :: qt_protected w |};
|}.

Definition sample_format : PyVal :=
  PDict [("format", PInt 1); ("decimales", PInt 6); ("signo", PBool false)].

(** An editable table of water with the columns T and P and one row. *)
Definition sample_table : TablaMEoS QTable :=
  {| tm_widget :=
       setWindowTitle "Table: H2O"
         (QTable_init 2
            {| kw_parent := None; kw_keys := None; kw_units := None;
               kw_orderUnit := None; kw_format := None;
               kw_horizontalHeader := Some (PList [PStr "T, K"; PStr "P, Pa"]);
               kw_stretch := Some false; kw_readOnly := None;
               kw_filas := Some 1;
               kw_columnReadOnly := Some (PList [PBool false; PBool false]) |});
     tm_keys := Some (PList [PStr "T"; PStr "P"]);
     tm_units := [UnitClass "Temperature"; UnitClass "Pressure"];
     tm_orderUnit := PList [PInt 0; PInt 0];
     tm_format := PList [sample_format; sample_format];
     tm_data := PList [PList [PFloat 300; PStr "101325"]];
     tm_Point := Some (MEoS water) |}.

Definition sample_all : list Unit :=
  [UnitClass "Temperature"; UnitClass "Pressure"; UnitClass "Density"].

Definition sample_representacion (v : PyVal) (kw : list (string * PyVal))
  : string :=
  match v with PFloat _ => "300.000000" | _ => EmptyString end.

(** A magnitude of [lib.unidades] with the value [q] in the configured
    unit and no other unit. *)
Definition sample_unidad (q : Q) : AttrVal :=
  {| av_str := None; av_unidad := true; av_config := Ok (PFloat q);
     av_getattribute := fun _ => Raise AttributeError;
     av_value := PFloat q |}.

(** A fluid in two phases, with a quality and the temperatures of the fluid
    and of each phase. *)
Definition sample_phase_fluid : PhaseFluid :=
  {| pf_getattribute := fun key =>
       if String.eqb key "x" then Ok (sample_unidad 1)
       else if String.eqb key "T" then Ok (sample_unidad 300)
       else Raise AttributeError;
     pf_Liquido := fun key =>
       if String.eqb key "T" then Ok (sample_unidad 290)
       else Raise AttributeError;
     pf_Gas := fun key =>
       if String.eqb key "T" then Ok (sample_unidad 310)
       else Raise AttributeError |}.

(** A configuration where the phases are shown and the temperature has its
    first unit. *)
Definition sample_phase_config : ConfigParser :=
  config_of [("MEoS", "phase", true)] [("Units", "Temperature", 0)].

Definition sample_unit_text (unit : Unit) : string :=
  if decide (unit = Dimensionless) then EmptyString else unit_name unit.

Definition sample_linesep : string :=
  String (Ascii.ascii_of_nat 10) EmptyString.

(** The dialog of three properties, the first and the last marked, with the
    first row current, and the same dialog after [Down]. *)
Definition sample_properties_dialog : Ui_Properties :=
  {| up_prop := [(Some "1", Some "Temperature");
                 (Some EmptyString, Some "Pressure");
                 (Some "1", Some "Quality")];
     up_currentRow := 0;
     up_order := [PInt 0; PInt 1; PInt 2] |}.

Definition sample_properties_moved : Ui_Properties :=
  {| up_prop := [(Some EmptyString, Some "Pressure");
                 (Some "1", Some "Temperature");
                 (Some "1", Some "Quality")];
     up_currentRow := 1;
     up_order := [PInt 1; PInt 0; PInt 2] |}.

(** A quality and a temperature for the lines, and an enthalpy alone. *)
Definition sample_lists : LineLists :=
  {| Isoquality := [(1 # 2)%Q]; Isotherm := [300%Q]; Isobar := [];
     Isochor := []; Isoenthalpic := []; Isoentropic := [] |}.

Definition sample_lists_h : LineLists :=
  {| Isoquality := []; Isotherm := []; Isobar := [];
     Isochor := []; Isoenthalpic := [1%Q]; Isoentropic := [] |}.

(** The 21 points 0, 1, ..., 20 of a line. *)
Definition sample_xi : list Q :=
  map (fun i => inject_Z (Z.of_nat i)) (seq 0 21).

(** The data of a plot with one line, the configuration it is computed
    for, and a pickle that keeps these data. *)
Definition sample_plot_lines : gmap string PyVal :=
  <["saturation_0" := PDict [("T", PList [PFloat 300])]]> ∅.

Definition sample_plot_config : ConfigParser :=
  config_of [] [("MEoS", "fluid", 0); ("MEoS", "eq", 0);
                ("MEoS", "visco", 0); ("MEoS", "thermal", 0)].

Definition sample_plot_conf : PyVal :=
  PDict [("method", PStr "MEOS"); ("fluid", PInt 0); ("eq", PInt 0);
         ("visco", PInt 0); ("thermal", PInt 0)].

Definition sample_plot_data : gmap string PyVal :=
  <["config" := sample_plot_conf]> sample_plot_lines.

Definition sample_pickle_dump (data : gmap string PyVal) : list Byte.byte :=
  [Byte.x80; Byte.x03].

Definition sample_pickle_load (archivo : list Byte.byte)
  : result (gmap string PyVal) :=
  match archivo with
  | [Byte.x80; Byte.x03] => Ok sample_plot_data
  | _ => Raise PickleError
  end.

(** * Properties *)

(** ** The result monad *)

Lemma bind_Ok {A B} (f : A -> result B) (m : result A) (a : A) :
  m = Ok a -> (m ≫= f) = f a.
Proof. intros ->. reflexivity. Qed.

Lemma bind_Ok_inv {A B} (f : A -> result B) (m : result A) (b : B) :
  (m ≫= f) = Ok b -> exists a, m = Ok a /\ f a = Ok b.
Proof. destruct m as [a|e]; [eauto | discriminate]. Qed.

Lemma py_getitem_nat {A} (l : list A) (i : nat) (a : A) :
  l !! i = Some a -> py_getitem l (Z.of_nat i) = Ok a.
Proof.
  intros Hl. pose proof (lookup_lt_Some _ _ _ Hl) as Hlt.
  unfold py_getitem.
  replace (0 <=? Z.of_nat i) with true by (symmetry; apply Z.leb_le; lia).
  replace (Z.of_nat i <? Z.of_nat (length l)) with true
    by (symmetry; apply Z.ltb_lt; lia).
  cbn [andb]. rewrite Nat2Z.id, Hl. reflexivity.
Qed.

Lemma mapM_Ok_Forall2 {A B} (f : A -> result B) (l : list A) (k : list B) :
  mapM f l = Ok k -> Forall2 (fun x y => f x = Ok y) l k.
Proof.
  revert k. induction l as [|x l IH]; intros k Hrun.
  - injection Hrun as <-. constructor.
  - cbn in Hrun. apply bind_Ok_inv in Hrun as (y & Hy & Hrun).
    apply bind_Ok_inv in Hrun as (k' & Hk' & Hrun).
    injection Hrun as <-. constructor; [exact Hy | apply IH, Hk'].
Qed.

Lemma mapM_is_Ok {A B} (f : A -> result B) (l : list A) :
  Forall (fun x => is_Ok (f x)) l ->
  exists k, mapM f l = Ok k /\ length k = length l.
Proof.
  induction 1 as [|x l [y Hy] _ (k & Hk & Hlen)].
  - exists []. split; reflexivity.
  - exists (y :: k). split; [|cbn; congruence].
    cbn. rewrite Hy. cbn. rewrite Hk. reflexivity.
Qed.

(** ** getMethod and getClassFluid *)

Section MethodFacts.

Variable mEoS_all : list MEoSClass.
Variables pref conf : ConfigParser.

Lemma getMethod_values (m : string) :
  getMethod pref = Ok m -> m = "REFPROP" \/ m = "COOLPROP" \/ m = "MEOS".
Proof.
  unfold getMethod, py_and.
  destruct (getboolean pref "MEOS" "coolprop") as [[|]|]; cbn;
    [destruct (getboolean pref "MEOS" "refprop") as [[|]|]; cbn | | ];
    intros [= <-] || discriminate; auto.
Qed.

(** C9: with the two flags of the preference file read as [c] (coolprop)
    and [r] (refprop), getMethod gives "REFPROP" exactly when both are set,
    "COOLPROP" exactly when coolprop alone is set and "MEOS" exactly when
    coolprop is not set, whatever refprop is; getClassFluid gives an
    instance of the matching class for the fluid of the configuration. *)
Theorem getMethod_getClassFluid (c r : bool) (i : Z) (cls : MEoSClass) :
  getboolean pref "MEOS" "coolprop" = Ok c ->
  getboolean pref "MEOS" "refprop" = Ok r ->
  getint conf "MEoS" "fluid" = Ok i ->
  py_getitem mEoS_all i = Ok cls ->
  (getMethod pref = Ok "REFPROP" <-> c = true /\ r = true) /\
  (getMethod pref = Ok "COOLPROP" <-> c = true /\ r = false) /\
  (getMethod pref = Ok "MEOS" <-> c = false) /\
  (c = false -> r = true -> getMethod pref = Ok "MEOS") /\
  (getMethod pref = Ok "REFPROP" ->
   getClassFluid mEoS_all pref conf = Ok (RefProp [cls_id cls])) /\
  (getMethod pref = Ok "COOLPROP" ->
   getClassFluid mEoS_all pref conf = Ok (CoolProp [cls_id cls])) /\
  (getMethod pref = Ok "MEOS" ->
   getClassFluid mEoS_all pref conf = Ok (MEoS cls)).
Proof.
  intros Hc Hr Hi Hcls.
  unfold getMethod, getClassFluid, py_and.
  rewrite Hc, Hi. cbn. destruct c; cbn.
  - rewrite Hr. cbn. destruct r; cbn; rewrite ?Hcls; cbn;
      repeat split; try discriminate; try tauto; intros [? ?]; discriminate.
  - rewrite Hcls. cbn.
    repeat split; try discriminate; try tauto; intros [? ?]; discriminate.
Qed.

End MethodFacts.

Lemma getMethod_getClassFluid_witness :
  let pref :=
    config_of [("MEOS", "coolprop", false); ("MEOS", "refprop", true)] [] in
  let conf := config_of [] [("MEoS", "fluid", 1)] in
  getMethod pref = Ok "MEOS" /\
  getClassFluid [water; argon] pref conf = Ok (MEoS argon).
Proof.
  intros pref conf.
  pose proof (getMethod_getClassFluid [water; argon] pref conf false true 1
                argon eq_refl eq_refl eq_refl eq_refl) as H.
  destruct H as (_ & _ & _ & Hm & _ & _ & Hf).
  split; [apply Hm; reflexivity | apply Hf, Hm; reflexivity].
Defined.

(** ** get_points *)

(** C10: get_points gives 10, 25, 50 or 100 when the "definition" option is
    1, 2, 3 or 4, and 5 for every other integer; the result is always one of
    5, 10, 25, 50, 100. *)
Theorem get_points_spec (Preferences : ConfigParser) (d : Z) :
  getint Preferences "MEOS" "definition" = Ok d ->
  (d = 1 -> get_points Preferences = Ok 10) /\
  (d = 2 -> get_points Preferences = Ok 25) /\
  (d = 3 -> get_points Preferences = Ok 50) /\
  (d = 4 -> get_points Preferences = Ok 100) /\
  (d <> 1 -> d <> 2 -> d <> 3 -> d <> 4 -> get_points Preferences = Ok 5) /\
  (exists n, get_points Preferences = Ok n /\ n ∈ [5; 10; 25; 50; 100]).
Proof.
  intros Hd. unfold get_points. rewrite Hd. cbn.
  repeat split.
  - intros ->. reflexivity.
  - intros ->. reflexivity.
  - intros ->. reflexivity.
  - intros ->. reflexivity.
  - intros H1 H2 H3 H4.
    destruct (Z.eqb_spec d 1); [lia|]. destruct (Z.eqb_spec d 2); [lia|].
    destruct (Z.eqb_spec d 3); [lia|]. destruct (Z.eqb_spec d 4); [lia|].
    reflexivity.
  - destruct (d =? 1); [eexists; split; [reflexivity | set_solver] |].
    destruct (d =? 2); [eexists; split; [reflexivity | set_solver] |].
    destruct (d =? 3); [eexists; split; [reflexivity | set_solver] |].
    destruct (d =? 4); eexists; (split; [reflexivity | set_solver]).
Qed.

Lemma get_points_spec_witness :
  get_points (config_of [] [("MEOS", "definition", 3)]) = Ok 50.
Proof.
  apply (get_points_spec (config_of [] [("MEOS", "definition", 3)]) 3 eq_refl).
  reflexivity.
Defined.

(** ** get_propiedades *)

Section PropiedadesFacts.

Variable properties : list Property.

Lemma get_propiedades_loop_spec (pairs : list (PyVal * PyVal))
    (ps ks : list string) (us : list Unit) :
  get_propiedades_loop properties pairs = Ok (ps, ks, us) <->
  exists ts : list Property,
    Forall2 (fun i t => property_at properties i = Ok t)
            (omap (fun '(i, b) => if py_truth b then Some i else None) pairs)
            ts /\
    ps = map (fun t => t.1.1) ts /\
    ks = map (fun t => t.1.2) ts /\
    us = map (fun t => t.2) ts.
Proof.
  revert ps ks us. induction pairs as [|[i b] pairs IH]; intros ps ks us; cbn.
  - split.
    + intros [= <- <- <-]. exists []. repeat split. constructor.
    + intros (ts & Hts & -> & -> & ->). inversion Hts. reflexivity.
  - destruct (py_truth b); [|apply IH].
    split.
    + intros Hrun.
      apply bind_Ok_inv in Hrun as (z & Hz & Hrun).
      apply bind_Ok_inv in Hrun as ([[name key] unit] & Hp & Hrun).
      apply bind_Ok_inv in Hrun as ([[ps' ks'] us'] & Hrest & Hrun).
      injection Hrun as <- <- <-.
      apply IH in Hrest as (ts & Hts & -> & -> & ->).
      exists ((name, key, unit) :: ts). repeat split.
      constructor; [|exact Hts].
      unfold property_at. rewrite Hz. exact Hp.
    + intros (ts & Hts & -> & -> & ->).
      inversion Hts as [|? [[name key] unit] ? ts' Hhead Htail]; subst.
      unfold property_at in Hhead.
      apply bind_Ok_inv in Hhead as (z & Hz & Hp).
      rewrite Hz. cbn. rewrite Hp. cbn.
      assert (get_propiedades_loop properties pairs =
              Ok (map (fun t => t.1.1) ts', map (fun t => t.1.2) ts',
                  map (fun t => t.2) ts')) as ->.
      { apply IH. exists ts'. auto. }
      reflexivity.
Qed.

(** C7: when the "properties" and "propertiesOrder" options hold (as they
    are, or as text that evaluates to) the lists [flags] and [order],
    get_propiedades returns three lists exactly when they are the names,
    the keys and the units of the entries of ThermoAdvanced.properties() at
    the indices of [order] whose flag at the same position of [flags] is
    true, in the order of [order]; the three lists have the same length. *)
Theorem get_propiedades_spec (eval : string -> result PyVal)
    (config_get : string -> string -> result PyVal)
    (vb vo : PyVal) (flags order : list PyVal)
    (ps ks : list string) (us : list Unit) :
  config_get "MEoS" "properties" = Ok vb ->
  config_get "MEoS" "propertiesOrder" = Ok vo ->
  eval_if_str eval vb = Ok (PList flags) ->
  eval_if_str eval vo = Ok (PList order) ->
  (get_propiedades properties eval config_get = Ok (ps, ks, us) <->
   exists ts : list Property,
     Forall2 (fun i t => property_at properties i = Ok t)
             (selected order flags) ts /\
     ps = map (fun t => t.1.1) ts /\
     ks = map (fun t => t.1.2) ts /\
     us = map (fun t => t.2) ts) /\
  (get_propiedades properties eval config_get = Ok (ps, ks, us) ->
   length ps = length ks /\ length ks = length us /\
   length ps = length (selected order flags)).
Proof.
  intros Hb Ho Heb Heo.
  assert (get_propiedades properties eval config_get =
          get_propiedades_loop properties (zip order flags)) as ->.
  { unfold get_propiedades. rewrite Hb. cbn. rewrite Ho. cbn.
    rewrite Heb. cbn. rewrite Heo. reflexivity. }
  split; [apply get_propiedades_loop_spec|].
  intros Hrun. apply get_propiedades_loop_spec in Hrun
    as (ts & Hts & -> & -> & ->).
  rewrite !length_map. apply Forall2_length in Hts.
  unfold selected. auto.
Qed.

End PropiedadesFacts.

Lemma get_propiedades_spec_witness :
  get_propiedades sample_properties sample_eval sample_config_get =
  Ok (["Quality"; "Temperature"], ["x"; "T"],
      [Dimensionless; UnitClass "Temperature"]).
Proof.
  apply (get_propiedades_spec sample_properties sample_eval sample_config_get
           (PList [PInt 1; PInt 0; PBool true]) (PStr "[2, 1, 0]")
           [PInt 1; PInt 0; PBool true] [PInt 2; PInt 1; PInt 0]
           _ _ _ eq_refl eq_refl eq_refl eq_refl).
  exists [("Quality", "x", Dimensionless);
          ("Temperature", "T", UnitClass "Temperature")].
  repeat split. repeat constructor.
Defined.

(** ** calcPoint *)

Lemma calcPoint_melting_capped (method : string) (fluido : State)
    (tmin tmax pmin pmax : Q) :
  (dict_truth (st_melting fluido) = true ->
   is_Some (st_melting fluido !! "Tmin") /\
   is_Some (st_melting fluido !! "Tmax")) ->
  calcPoint_melting method fluido
    {| Tmin := Some tmin; Tmax := Some tmax; Pmin := Some pmin;
       Pmax := Some pmax |} =
  Ok {| Tmin := Some tmin; Tmax := Some tmax; Pmin := Some pmin;
        Pmax := Some (capped_Pmax method fluido pmax) |}.
Proof.
  intros Hm. unfold calcPoint_melting, capped_Pmax.
  destruct (String.eqb method "MEOS"); cbn; [|reflexivity].
  destruct (dict_truth (st_melting fluido)); cbn; [|reflexivity].
  destruct Hm as [[a Ha] [b Hb]]; [reflexivity|].
  unfold dict_get. rewrite Ha, Hb. cbn.
  destruct (Qleb a (st_T fluido)); cbn; [|reflexivity].
  destruct (Qleb (st_T fluido) b); reflexivity.
Qed.

(** When the limits are bound (the methods MEOS and COOLPROP) and the
    temperature and the pressure given, if any, are numbers, [calcPoint]
    returns [None] under the conditions of [rejected] and the state that
    [fluid._new] built otherwise. *)
Lemma calcPoint_bound (pref : ConfigParser) (fluid : FluidObj)
    (config : Config) (kwargs kwargs' : gmap string PyVal) (method : string)
    (T P : option Q) (tmin tmax pmin pmax : Q) :
  getMethod pref = Ok method ->
  calcPoint_limits method fluid config kwargs =
    Ok (kwargs', {| Tmin := Some tmin; Tmax := Some tmax; Pmin := Some pmin;
                    Pmax := Some pmax |}) ->
  num_arg kwargs' "T" = Ok T ->
  num_arg kwargs' "P" = Ok P ->
  (dict_truth (st_melting (f_new fluid kwargs')) = true ->
   is_Some (st_melting (f_new fluid kwargs') !! "Tmin") /\
   is_Some (st_melting (f_new fluid kwargs') !! "Tmax")) ->
  calcPoint pref fluid config kwargs =
  Ok (if rejected method T P (f_new fluid kwargs') tmin tmax pmin pmax
      then None else Some (f_new fluid kwargs')).
Proof.
  intros Hmethod Hlim HT HP Hmel.
  unfold calcPoint. rewrite Hmethod. cbn. rewrite Hlim. cbn.
  unfold rejected, outside. unfold num_arg in HT, HP.
  assert (forall pmax' : Q,
            (pmin' ← local (Some pmin);
             if Qltb (st_P (f_new fluid kwargs')) (pmin' - 1)%Q then Ok None
             else
               pmax'' ← local (Some pmax');
               if Qltb (pmax'' + 1)%Q (st_P (f_new fluid kwargs'))
               then Ok None
               else
                 tmin' ← local (Some tmin);
                 if Qltb (st_T (f_new fluid kwargs')) tmin' then Ok None
                 else
                   tmax' ← local (Some tmax);
                   if Qltb tmax' (st_T (f_new fluid kwargs')) then Ok None
                   else Ok (Some (f_new fluid kwargs')))
            = Ok (if Qltb (st_P (f_new fluid kwargs')) (pmin - 1)
                     || Qltb (pmax' + 1) (st_P (f_new fluid kwargs'))
                     || (Qltb (st_T (f_new fluid kwargs')) tmin
                         || Qltb tmax (st_T (f_new fluid kwargs')))
                  then None else Some (f_new fluid kwargs'))) as Hlast.
  { intros pmax'. cbn.
    repeat (match goal with
            | |- context [Qltb ?a ?b] => destruct (Qltb a b); cbn
            end; try reflexivity). }
  assert ((if negb ((status (f_new fluid kwargs') =? 1)
                    || (status (f_new fluid kwargs') =? 3))
           then Ok None
           else
             lim ← calcPoint_melting method (f_new fluid kwargs')
                     {| Tmin := Some tmin; Tmax := Some tmax;
                        Pmin := Some pmin; Pmax := Some pmax |};
             pmin' ← local (Pmin lim);
             if Qltb (st_P (f_new fluid kwargs')) (pmin' - 1)%Q then Ok None
             else
               pmax'' ← local (Pmax lim);
               if Qltb (pmax'' + 1)%Q (st_P (f_new fluid kwargs'))
               then Ok None
               else
                 tmin' ← local (Tmin lim);
                 if Qltb (st_T (f_new fluid kwargs')) tmin' then Ok None
                 else
                   tmax' ← local (Tmax lim);
                   if Qltb tmax' (st_T (f_new fluid kwargs')) then Ok None
                   else Ok (Some (f_new fluid kwargs')))
          = Ok (if negb ((status (f_new fluid kwargs') =? 1)
                         || (status (f_new fluid kwargs') =? 3))
                   || (Qltb (st_P (f_new fluid kwargs')) (pmin - 1)
                       || Qltb (capped_Pmax method (f_new fluid kwargs') pmax
                                + 1) (st_P (f_new fluid kwargs')))
                   || (Qltb (st_T (f_new fluid kwargs')) tmin
                       || Qltb tmax (st_T (f_new fluid kwargs')))
                then None else Some (f_new fluid kwargs'))) as Hstate.
  { destruct ((status (f_new fluid kwargs') =? 1)
              || (status (f_new fluid kwargs') =? 3)); cbn [negb orb];
      [|reflexivity].
    rewrite (calcPoint_melting_capped _ _ _ _ _ _ Hmel).
    cbn [mbind result_bind Tmin Tmax Pmin Pmax].
    rewrite (Hlast (capped_Pmax method (f_new fluid kwargs') pmax)).
    destruct (Qltb (st_P (f_new fluid kwargs')) (pmin - 1)); cbn [orb];
      reflexivity. }
  destruct (kwargs' !! "T") as [t|]; cbn.
  - apply bind_Ok_inv in HT as (qt & -> & [= <-]). cbn.
    destruct (Qltb qt tmin); cbn; [reflexivity|].
    destruct (Qltb tmax qt); cbn; [reflexivity|].
    destruct (kwargs' !! "P") as [p|]; cbn.
    + apply bind_Ok_inv in HP as (qp & -> & [= <-]). cbn.
      destruct (Qltb qp (pmin - 1)); cbn; [reflexivity|].
      destruct (Qltb (pmax + 1) qp); cbn; [reflexivity|].
      exact Hstate.
    + injection HP as <-. exact Hstate.
  - injection HT as <-.
    destruct (kwargs' !! "P") as [p|]; cbn.
    + apply bind_Ok_inv in HP as (qp & -> & [= <-]). cbn.
      destruct (Qltb qp (pmin - 1)); cbn; [reflexivity|].
      destruct (Qltb (pmax + 1) qp); cbn; [reflexivity|].
      exact Hstate.
    + injection HP as <-. exact Hstate.
Qed.

(** With the method REFPROP the limits are never bound: [calcPoint] raises,
    unless neither T nor P is given and the state is not computed. *)
Lemma calcPoint_refprop (pref : ConfigParser) (fluid : FluidObj)
    (config : Config) (kwargs : gmap string PyVal) :
  getMethod pref = Ok "REFPROP" ->
  calcPoint pref fluid config kwargs = Raise NameError \/
  (calcPoint pref fluid config kwargs = Ok None /\
   kwargs !! "T" = None /\ kwargs !! "P" = None /\
   status (f_new fluid kwargs) <> 1 /\ status (f_new fluid kwargs) <> 3).
Proof.
  intros Hmethod. unfold calcPoint. rewrite Hmethod. cbn.
  destruct (kwargs !! "T"); cbn; [left; reflexivity|].
  destruct (kwargs !! "P"); cbn; [left; reflexivity|].
  destruct (Z.eqb_spec (status (f_new fluid kwargs)) 1) as [|H1]; cbn;
    [left; reflexivity|].
  destruct (Z.eqb_spec (status (f_new fluid kwargs)) 3) as [|H3]; cbn;
    [left; reflexivity|].
  right. auto.
Qed.

Example calcPoint_meos_accepts :
  calcPoint pref_meos sample_fluid sample_conf
    (<["P" := PFloat 300000]> (<["T" := PInt 300]> ∅)) =
  Ok (Some (sample_state
              (<["thermal" := PInt 0]> (<["visco" := PInt 0]>
                 (<["eq" := PInt 0]> ∅))
               ∪ <["P" := PFloat 300000]> (<["T" := PInt 300]> ∅)))).
Proof. reflexivity. Qed.

Example calcPoint_meos_above_melting :
  calcPoint pref_meos sample_fluid sample_conf
    (<["P" := PFloat 300002]> (<["T" := PInt 300]> ∅)) = Ok None.
Proof. reflexivity. Qed.

Example calcPoint_meos_cold :
  calcPoint pref_meos sample_fluid sample_conf
    (<["T" := PInt 250]> ∅) = Ok None.
Proof. reflexivity. Qed.

(** C1: with both flags of the preference file set the method is REFPROP,
    for which calcPoint binds no limit: called with a temperature of 300 K
    and a pressure of 101325 Pa it raises, and so it does without T and P
    when the state is computed (status 1), where the specification has it
    return None or the state. *)
Theorem calcPoint_refprop_raises :
  getMethod pref_refprop = Ok "REFPROP" /\
  calcPoint pref_refprop sample_fluid sample_conf
    (<["P" := PFloat 101325]> (<["T" := PFloat 300]> ∅))
  = Raise NameError /\
  calcPoint pref_refprop sample_fluid sample_conf ∅ = Raise NameError /\
  status (f_new sample_fluid ∅) = 1.
Proof. repeat split. Qed.

(** ** calculatePlot: the melting and sublimation lines *)

Lemma get_points_values (Preferences : ConfigParser) (n : Z) :
  get_points Preferences = Ok n -> n ∈ [5; 10; 25; 50; 100].
Proof.
  unfold get_points.
  destruct (getint Preferences "MEOS" "definition") as [d|]; cbn;
    [|discriminate].
  repeat (match goal with
          | |- context [?a =? ?b] => destruct (a =? b)
          end; [intros [= <-]; set_solver|]).
  intros [= <-]; set_solver.
Qed.

Lemma linspace_length (start stop : Q) (num : Z) :
  length (linspace start stop num) = Z.to_nat num.
Proof.
  unfold linspace. destruct (Z.to_nat num) as [|[|n]]; [reflexivity..|].
  rewrite length_map, length_seq. reflexivity.
Qed.

Lemma linspace_lookup (start stop : Q) (num : Z) (i : nat) :
  2 <= num -> (i < Z.to_nat num)%nat ->
  linspace start stop num !! i =
  Some (start + inject_Z (Z.of_nat i)
                * ((stop - start) / inject_Z (num - 1)))%Q.
Proof.
  intros Hnum Hi. unfold linspace.
  destruct (Z.to_nat num) as [|[|n]] eqn:Hn; [lia..|].
  rewrite list_lookup_fmap, lookup_seq_lt by exact Hi. reflexivity.
Qed.

Lemma linspace_first (start stop : Q) (num : Z) (q : Q) :
  2 <= num -> linspace start stop num !! 0%nat = Some q -> (q == start)%Q.
Proof.
  intros Hnum. rewrite linspace_lookup by lia. intros [= <-].
  cbn [Z.of_nat]. ring.
Qed.

Lemma linspace_last (start stop : Q) (num : Z) (q : Q) :
  2 <= num ->
  linspace start stop num !! (Z.to_nat num - 1)%nat = Some q -> (q == stop)%Q.
Proof.
  intros Hnum. rewrite linspace_lookup by lia. intros [= <-].
  replace (Z.of_nat (Z.to_nat num - 1)) with (num - 1) by lia.
  field. intros H0.
  assert (inject_Z (num - 1) == inject_Z 0)%Q as H1 by exact H0.
  rewrite inject_Z_injective in H1. lia.
Qed.

Section CalculatePlotFacts.

Variable propertiesKey : list string.
Variables (pref Preferences : ConfigParser) (self_config : Config).
Variable fluid : FluidObj.

Lemma line_loop_spec (pressure : Q -> Q) (T : list Q)
    (rs : list (option State)) (fluidos : list State) :
  Forall2 (fun Ti r =>
             calcPoint pref fluid self_config (line_point pressure Ti) = Ok r)
          T rs ->
  line_loop pref self_config fluid pressure T fluidos =
  Ok (fluidos ++ omap id rs)%list.
Proof.
  intros HT. revert fluidos.
  induction HT as [|Ti r T rs Hr _ IH]; intros fluidos; cbn.
  - rewrite app_nil_r. reflexivity.
  - unfold line_point in Hr. rewrite Hr. cbn. rewrite IH.
    destruct r; cbn; [rewrite <- app_assoc|]; reflexivity.
Qed.

Lemma phase_line_other (name key : string) (corr : gmap string Q)
    (pressure : Q -> Q) (points : Z) (data data' : gmap string LineData) :
  phase_line propertiesKey pref self_config fluid name corr pressure points
    data = Ok data' ->
  name <> key -> data' !! key = data !! key.
Proof.
  unfold phase_line. intros Hrun Hne.
  destruct (dict_truth corr); [|injection Hrun as <-; reflexivity].
  apply bind_Ok_inv in Hrun as (tmin & _ & Hrun).
  apply bind_Ok_inv in Hrun as (tmax & _ & Hrun).
  apply bind_Ok_inv in Hrun as (fluidos & _ & Hrun).
  destruct fluidos; [injection Hrun as <-; reflexivity|].
  apply bind_Ok_inv in Hrun as (d & _ & Hrun).
  injection Hrun as <-. apply lookup_insert_ne. exact Hne.
Qed.

(** What [prop_data] keeps of a state for the key [x]. *)
Lemma prop_data_inv (x : string) (fluido : State) (v : option Q) :
  prop_data x fluido = Ok v ->
  match getattribute fluido x with
  | None => v = None
  | Some (Scalar q) => x <> "fi" /\ x <> "f" /\ v = Some q
  | Some (Vector l) =>
      (x = "fi" \/ x = "f") /\ exists q, l !! 0%nat = Some q /\ v = Some q
  end.
Proof.
  unfold prop_data. destruct (getattribute fluido x) as [[q|l]|].
  - destruct (String.eqb_spec x "fi") as [->|Hfi]; [discriminate|].
    destruct (String.eqb_spec x "f") as [->|Hf]; [discriminate|].
    cbn. intros [= <-]. auto.
  - destruct (String.eqb_spec x "fi") as [->|Hfi];
      [|destruct (String.eqb_spec x "f") as [->|Hf]; [|discriminate]].
    all: cbn; intros Hrun; apply bind_Ok_inv in Hrun as (q & Hq & Hrun);
      injection Hrun as <-; split; [auto|]; exists q; split; [|reflexivity];
      destruct l as [|q' l]; [discriminate|]; injection Hq as ->; reflexivity.
  - intros [= <-]. reflexivity.
Qed.

(** The dict of a line has, for each key, the array of the values of the
    states, and nothing else is added to it. *)
Lemma line_data_lookup (keys : list string) (fluidos : list State)
    (d0 d : LineData) :
  line_data keys fluidos d0 = Ok d ->
  (forall x, x ∈ keys ->
     exists col, mapM (prop_data x) fluidos = Ok col /\ d !! x = Some col) /\
  (forall x, x ∉ keys -> d !! x = d0 !! x).
Proof.
  revert d0. induction keys as [|k keys IH]; intros d0 Hrun.
  - injection Hrun as <-. split; [|reflexivity].
    intros x Hx. apply elem_of_nil in Hx. contradiction.
  - cbn [line_data] in Hrun.
    apply bind_Ok_inv in Hrun as (col & Hcol & Hrun).
    apply IH in Hrun as [Hin Hout]. split.
    + intros x Hx. destruct (decide (x ∈ keys)) as [Hk|Hk];
        [apply Hin, Hk|].
      apply elem_of_cons in Hx as [->|Hx]; [|contradiction].
      exists col. split; [exact Hcol|].
      rewrite (Hout _ Hk). apply lookup_insert_eq.
    + intros x Hx. apply not_elem_of_cons in Hx as [Hne Hx].
      rewrite (Hout _ Hx). apply lookup_insert_ne. congruence.
Qed.

Lemma line_data_is_Ok (keys : list string) (fluidos : list State)
    (d0 : LineData) :
  (forall x fluido, x ∈ keys -> fluido ∈ fluidos ->
     is_Ok (prop_data x fluido)) ->
  is_Ok (line_data keys fluidos d0).
Proof.
  revert d0. induction keys as [|k keys IH]; intros d0 Hok.
  - eexists. reflexivity.
  - cbn [line_data].
    destruct (mapM_is_Ok (prop_data k) fluidos) as (col & Hcol & _).
    { apply Forall_forall. intros fluido Hin. apply Hok; [left | exact Hin]. }
    rewrite Hcol. cbn. apply IH.
    intros x fluido Hx Hin. apply Hok; [right; exact Hx | exact Hin].
Qed.

(** C6: with the method MEOS and a melting correlation from [tmin] to
    [tmax], calculatePlot samples [points] temperatures, the i-th being
    tmin + i (tmax - tmin) / (points - 1), from tmin to tmax; it calls
    calcPoint at each with the melting pressure at that temperature, and
    the melting line is made of the states calcPoint returned, in order.
    When the block of the melting and sublimation lines ends, [data] has no
    melting entry if no state was kept; otherwise its melting entry has,
    for each property key, one value for each state kept, in order: the
    magnitude of the property of that state (of its first item for fi and
    f), None for a property that is None; and it has no other key.  The
    arrays are built whenever the properties can be read.  With any other
    method [data] is empty when the block ends: no melting and no
    sublimation line is computed. *)
Theorem calculatePlot_melting (points : Z) (tmin tmax : Q)
    (rs : list (option State)) :
  get_points Preferences = Ok points ->
  (getMethod pref = Ok "MEOS" ->
   dict_truth (f_melting fluid) = true ->
   f_melting fluid !! "Tmin" = Some tmin ->
   f_melting fluid !! "Tmax" = Some tmax ->
   Forall2 (fun Ti r =>
              calcPoint pref fluid self_config
                (line_point (f_Melting_Pressure fluid) Ti) = Ok r)
           (linspace tmin tmax points) rs ->
   let T := linspace tmin tmax points in
   let fluidos := omap id rs in
   let melting :=
     phase_line propertiesKey pref self_config fluid "melting"
       (f_melting fluid) (f_Melting_Pressure fluid) points ∅ in
   length T = Z.to_nat points /\
   (forall i, (i < Z.to_nat points)%nat ->
      T !! i = Some (tmin + inject_Z (Z.of_nat i)
                            * ((tmax - tmin) / inject_Z (points - 1)))%Q) /\
   (forall q, T !! 0%nat = Some q -> (q == tmin)%Q) /\
   (forall q, T !! (Z.to_nat points - 1)%nat = Some q -> (q == tmax)%Q) /\
   line_loop pref self_config fluid (f_Melting_Pressure fluid) T [] =
     Ok fluidos /\
   melting =
     match fluidos with
     | [] => Ok ∅
     | _ => d ← line_data propertiesKey fluidos ∅;
            Ok (<["melting" := d]> ∅)
     end /\
   ((forall x fluido, x ∈ propertiesKey -> fluido ∈ fluidos ->
       is_Ok (prop_data x fluido)) ->
    is_Ok melting) /\
   (forall data,
      calculatePlot_start propertiesKey pref Preferences self_config fluid
      = Ok data ->
      (fluidos = [] -> data !! "melting" = None) /\
      (fluidos <> [] ->
       exists d,
         data !! "melting" = Some d /\
         (forall x, x ∈ propertiesKey ->
            exists col,
              d !! x = Some col /\
              Forall2
                (fun fluido v =>
                   match getattribute fluido x with
                   | None => v = None
                   | Some (Scalar q) =>
                       x <> "fi" /\ x <> "f" /\ v = Some q
                   | Some (Vector l) =>
                       (x = "fi" \/ x = "f") /\
                       exists q, l !! 0%nat = Some q /\ v = Some q
                   end) fluidos col) /\
         (forall x, x ∉ propertiesKey -> d !! x = None)))) /\
  (forall method, getMethod pref = Ok method -> method <> "MEOS" ->
   calculatePlot_start propertiesKey pref Preferences self_config fluid
   = Ok ∅).
Proof.
  intros Hpoints.
  assert (2 <= points) as Hge.
  { apply get_points_values in Hpoints.
    repeat (apply elem_of_cons in Hpoints as [->|Hpoints]; [lia|]).
    inversion Hpoints. }
  split.
  - intros Hmethod Hmel Htmin Htmax Hrs T fluidos melting.
    assert (line_loop pref self_config fluid (f_Melting_Pressure fluid) T []
            = Ok fluidos) as Hloop.
    { apply (line_loop_spec _ _ rs []). exact Hrs. }
    assert (melting =
            match fluidos with
            | [] => Ok ∅
            | _ => d ← line_data propertiesKey fluidos ∅;
                   Ok (<["melting" := d]> ∅)
            end) as Hline.
    { unfold melting, phase_line, dict_get.
      rewrite Hmel, Htmin, Htmax. cbn. fold T. rewrite Hloop. reflexivity. }
    split; [apply linspace_length|].
    split; [intros i Hi; apply linspace_lookup; assumption|].
    split; [intros q; apply linspace_first; exact Hge|].
    split; [intros q; apply linspace_last; exact Hge|].
    split; [exact Hloop|]. split; [exact Hline|]. split.
    + intros Hok. rewrite Hline. destruct fluidos as [|fl fls] eqn:Hfl;
        [eexists; reflexivity|].
      destruct (line_data_is_Ok propertiesKey (fl :: fls) ∅ Hok) as [d Hd].
      rewrite Hd. eexists. reflexivity.
    + intros data. unfold calculatePlot_start, melting_sublimation_lines.
      rewrite Hpoints, Hmethod. cbn. fold melting. intros Hrun.
      apply bind_Ok_inv in Hrun as (data1 & Hdata1 & Hsub).
      assert (data !! "melting" = data1 !! "melting") as ->
        by (apply (phase_line_other _ _ _ _ _ _ _ Hsub); discriminate).
      rewrite Hline in Hdata1.
      destruct fluidos as [|fl fls] eqn:Hfl.
      * split; [|intros Hne; contradiction].
        intros _. injection Hdata1 as <-. reflexivity.
      * split; [discriminate|]. intros _.
        apply bind_Ok_inv in Hdata1 as (d & Hd & Hdata1).
        injection Hdata1 as <-. exists d.
        split; [apply lookup_insert_eq|].
        destruct (line_data_lookup _ _ _ _ Hd) as [Hin Hout]. split.
        -- intros x Hx. destruct (Hin x Hx) as (col & Hcol & Hlook).
           exists col. split; [exact Hlook|].
           apply mapM_Ok_Forall2 in Hcol.
           eapply Forall2_impl; [exact Hcol|].
           intros fluido v. apply prop_data_inv.
        -- intros x Hx. rewrite (Hout x Hx). reflexivity.
  - intros method Hmethod Hne.
    unfold calculatePlot_start, melting_sublimation_lines.
    rewrite Hpoints, Hmethod. cbn.
    destruct (String.eqb_spec method "MEOS"); [contradiction|reflexivity].
Qed.

End CalculatePlotFacts.

Lemma calculatePlot_melting_witness :
  let run := calculatePlot_start sample_keys pref_meos pref_meos sample_conf
               sample_fluid in
  let data := match run with Ok data => data | Raise _ => ∅ end in
  (length sample_T = 5%nat /\
   line_loop pref_meos sample_conf sample_fluid
     (f_Melting_Pressure sample_fluid) sample_T [] = Ok (omap id sample_rs) /\
   length (omap id sample_rs) = 4%nat /\
   run = Ok data /\
   exists d col,
     data !! "melting" = Some d /\ d !! "T" = Some col /\
     length col = 4%nat /\ d !! "u" = None) /\
  calculatePlot_start sample_keys pref_refprop pref_refprop sample_conf
    sample_fluid = Ok ∅.
Proof.
  intros run data. split.
  - destruct (calculatePlot_melting sample_keys pref_meos pref_meos sample_conf
                sample_fluid 5 250 400 sample_rs eq_refl) as [H _].
    destruct (H eq_refl eq_refl eq_refl eq_refl)
      as (Hlen & _ & _ & _ & Hloop & _ & _ & Hdata).
    { repeat constructor. }
    split; [exact Hlen|]. split; [exact Hloop|]. split; [reflexivity|].
    assert (run = Ok data) as Hrun by (vm_compute; reflexivity).
    split; [exact Hrun|].
    destruct (Hdata data Hrun) as [_ Hkept].
    destruct Hkept as (d & Hd & Hcols & Hnone).
    { intros Hnil. apply (f_equal length) in Hnil. vm_compute in Hnil.
      discriminate. }
    destruct (Hcols "T") as (col & Hcol & Hvals); [left|].
    exists d, col. split; [exact Hd|]. split; [exact Hcol|].
    split; [|apply Hnone].
    + apply Forall2_length in Hvals. rewrite <- Hvals. reflexivity.
    + intros Hin.
      repeat (apply elem_of_cons in Hin as [Hin|Hin]; [discriminate|]).
      inversion Hin.
  - destruct (calculatePlot_melting sample_keys pref_refprop pref_refprop
                sample_conf sample_fluid 5 0 0 [] eq_refl) as [_ H].
    apply (H "REFPROP"); [reflexivity | discriminate].
Defined.

(** ** The cache of plot data *)

Lemma string_length_append (s1 s2 : string) :
  String.length (s1 +:+ s2) = (String.length s1 + String.length s2)%nat.
Proof.
  induction s1 as [|c s1 IH]; [reflexivity|].
  change (S (String.length (s1 +:+ s2))
          = S (String.length s1 + String.length s2)).
  rewrite IH. reflexivity.
Qed.

Lemma string_append_inv_tail (s1 s2 t : string) :
  s1 +:+ t = s2 +:+ t -> s1 = s2.
Proof.
  revert s2. induction s1 as [|c s1 IH]; intros [|c' s2] Heq.
  - reflexivity.
  - apply (f_equal String.length) in Heq.
    change (String.length t = S (String.length (s2 +:+ t))) in Heq.
    rewrite string_length_append in Heq. lia.
  - apply (f_equal String.length) in Heq.
    change (S (String.length (s1 +:+ t)) = String.length t) in Heq.
    rewrite string_length_append in Heq. lia.
  - change (String c (s1 +:+ t) = String c' (s2 +:+ t)) in Heq.
    injection Heq as -> Heq. f_equal. apply IH. exact Heq.
Qed.

(** The methods [getMethod] returns have no dash: the file name tells the
    method and the fluid. *)
Lemma plot_filename_inj (m1 m2 n1 n2 : string) :
  m1 ∈ ["REFPROP"; "COOLPROP"; "MEOS"] ->
  m2 ∈ ["REFPROP"; "COOLPROP"; "MEOS"] ->
  plot_filename m1 n1 = plot_filename m2 n2 -> m1 = m2 /\ n1 = n2.
Proof.
  intros H1 H2 Heq. unfold plot_filename in Heq.
  repeat (apply elem_of_cons in H1 as [->|H1]);
    repeat (apply elem_of_cons in H2 as [->|H2]);
    try (inversion H1; fail); try (inversion H2; fail);
    cbn in Heq; try discriminate;
    (split; [reflexivity|]);
    injection Heq as Heq; apply (string_append_inv_tail _ _ ".pkl"), Heq.
Qed.

Section CacheFacts.

Variable Data : Type.
Variable pickle_dump : Data -> list Byte.byte.
Variable pickle_load : list Byte.byte -> result Data.
Variable gunzip : list Byte.byte -> result (list Byte.byte).
Variables (conf_dir pychemqt sep : string).

(** [pickle.load] reads back what [pickle.dump] wrote. *)
Hypothesis pickle_load_dump : forall d, pickle_load (pickle_dump d) = Ok d.

(** C2: plugin.plot names the cache "<method>-<fluidname>.pkl", a name that
    tells the method and the fluid; _saveData writes the pickled data to
    that name under the configuration directory and nothing else; _getData
    after _saveData returns the data saved; _getData reads the copy of the
    configuration directory when there is one, whatever the bundled gzip
    copy; it reads the bundled copy when there is no other, and saves what
    it read to the configuration directory; without either it returns
    None. *)
Theorem plot_cache_roundtrip (filename : string) (data : Data)
    (fs : gmap string (list Byte.byte)) :
  (forall method name,
     plot_filename method name = method +:+ "-" +:+ name +:+ ".pkl") /\
  (forall m1 m2 n1 n2,
     m1 ∈ ["REFPROP"; "COOLPROP"; "MEOS"] ->
     m2 ∈ ["REFPROP"; "COOLPROP"; "MEOS"] ->
     plot_filename m1 n1 = plot_filename m2 n2 -> m1 = m2 /\ n1 = n2) /\
  _saveData Data pickle_dump conf_dir filename data fs
    !! (conf_dir +:+ filename) = Some (pickle_dump data) /\
  (forall path, path <> conf_dir +:+ filename ->
     _saveData Data pickle_dump conf_dir filename data fs !! path
     = fs !! path) /\
  _getData Data pickle_dump pickle_load gunzip conf_dir pychemqt sep
    filename (_saveData Data pickle_dump conf_dir filename data fs)
    = Ok (Some data, _saveData Data pickle_dump conf_dir filename data fs) /\
  (forall soft, fs !! (conf_dir +:+ filename) = Some soft ->
     _getData Data pickle_dump pickle_load gunzip conf_dir pychemqt sep
    filename fs = (d ← pickle_load soft; Ok (Some d, fs))) /\
  (forall gz archivo d,
     fs !! (conf_dir +:+ filename) = None ->
     fs !! filenameHard pychemqt sep filename = Some gz ->
     gunzip gz = Ok archivo -> pickle_load archivo = Ok d ->
     _getData Data pickle_dump pickle_load gunzip conf_dir pychemqt sep
    filename fs
     = Ok (Some d, _saveData Data pickle_dump conf_dir filename d fs)) /\
  (fs !! (conf_dir +:+ filename) = None ->
   fs !! filenameHard pychemqt sep filename = None ->
   _getData Data pickle_dump pickle_load gunzip conf_dir pychemqt sep
    filename fs = Ok (None, fs)).
Proof.
  repeat apply conj.
  - intros method name. reflexivity.
  - apply plot_filename_inj.
  - unfold _saveData. apply lookup_insert_eq.
  - intros path Hne. unfold _saveData. apply lookup_insert_ne. congruence.
  - unfold _getData, filenameSoft, _saveData.
    rewrite lookup_insert_eq. cbn. rewrite pickle_load_dump. reflexivity.
  - intros soft Hsoft. unfold _getData, filenameSoft. rewrite Hsoft.
    reflexivity.
  - intros gz archivo d Hsoft Hhard Hgz Hload.
    unfold _getData, filenameSoft. rewrite Hsoft, Hhard, Hgz. cbn.
    rewrite Hload. reflexivity.
  - intros Hsoft Hhard. unfold _getData, filenameSoft.
    rewrite Hsoft, Hhard. reflexivity.
Qed.

End CacheFacts.

Lemma plot_cache_roundtrip_witness :
  _getData (list Byte.byte) id Ok Ok "/home/user/.pychemqt/"
    "/opt/pychemqt/" "/"
    (plot_filename "MEOS" "H2O")
    (_saveData (list Byte.byte) id "/home/user/.pychemqt/"
       (plot_filename "MEOS" "H2O") [Byte.x80; Byte.x03] ∅)
  = Ok (Some [Byte.x80; Byte.x03],
        _saveData (list Byte.byte) id "/home/user/.pychemqt/"
          (plot_filename "MEOS" "H2O") [Byte.x80; Byte.x03] ∅).
Proof.
  pose proof (plot_cache_roundtrip (list Byte.byte) id Ok Ok
                "/home/user/.pychemqt/" "/opt/pychemqt/" "/"
                (fun d => eq_refl) (plot_filename "MEOS" "H2O")
                [Byte.x80; Byte.x03] ∅) as (_ & _ & _ & _ & H & _).
  exact H.
Defined.

(** ** plot2D3D: the sublimation line *)

Section Plot2D3DFacts.

Variable transform : string -> option Q -> Q.

Lemma coords_lookup (data : gmap string LineData) (line eje : string)
    (d : LineData) (v : list (option Q)) :
  data !! line = Some d -> d !! eje = Some v ->
  coords transform data line eje = Ok (map (transform eje) v).
Proof.
  intros Hd Hv. unfold coords, dict_get. rewrite Hd. cbn. rewrite Hv.
  reflexivity.
Qed.

(** In a 2D plot the sublimation line is drawn from the x and y values of
    the "sublimation" entry, with the label "Sublimation Line"; it is the
    last of the calls modelled. *)
Lemma plot2D3D_sublimation_2D (data : gmap string LineData) (x y : string)
    (d : LineData) (vx vy : list (option Q)) (calls : list PlotCall) :
  data !! "sublimation" = Some d -> d !! x = Some vx -> d !! y = Some vy ->
  plot2D3D transform data x y None = Ok calls ->
  last calls = Some {| pc_x := map (transform x) vx;
                       pc_y := map (transform y) vy;
                       pc_z := None;
                       pc_label := "Sublimation Line";
                       pc_format := "saturation" |}.
Proof.
  intros Hd Hx Hy Hrun. unfold plot2D3D in Hrun.
  apply bind_Ok_inv in Hrun as (sat & _ & Hrun).
  apply bind_Ok_inv in Hrun as ([[mel xmel] ymel] & _ & Hrun).
  rewrite Hd in Hrun.
  rewrite (coords_lookup _ _ _ _ _ Hd Hx) in Hrun.
  rewrite (coords_lookup _ _ _ _ _ Hd Hy) in Hrun.
  cbn in Hrun. injection Hrun as <-.
  rewrite !app_assoc. apply last_snoc.
Qed.

End Plot2D3DFacts.

Example plot2D3D_2D :
  plot2D3D sample_transform sample_data "T" "P" None =
  Ok [ {| pc_x := [280; 290]; pc_y := [10; 20]; pc_z := None;
          pc_label := "Liquid Saturation Line"; pc_format := "saturation" |};
       {| pc_x := [280; 290]; pc_y := [10; 20]; pc_z := None;
          pc_label := "Vapor Saturation Line"; pc_format := "saturation" |};
       {| pc_x := [300; 310]; pc_y := [5000; 6000]; pc_z := None;
          pc_label := "Melting Line"; pc_format := "saturation" |};
       {| pc_x := [200; 210]; pc_y := [1; 2]; pc_z := None;
          pc_label := "Sublimation Line"; pc_format := "saturation" |} ]%Q.
Proof. reflexivity. Qed.

(** C4: in a 3D plot of data with a melting and a sublimation line, the line
    labelled "Sublimation Line" is drawn from the coordinates of the melting
    line, not from those of the sublimation data; without a melting line in
    the data, the sublimation line of a 3D plot is not drawn: reading the
    "melting" entry raises KeyError. *)
Theorem plot2D3D_sublimation_3D :
  (exists calls,
     plot2D3D sample_transform sample_data "T" "P" (Some "rho") = Ok calls /\
     last calls = Some {| pc_x := [300; 310]; pc_y := [5000; 6000];
                          pc_z := Some [1100; 1090];
                          pc_label := "Sublimation Line";
                          pc_format := "saturation" |}%Q /\
     coords sample_transform sample_data "sublimation" "T" = Ok [200; 210]%Q /\
     coords sample_transform sample_data "sublimation" "P" = Ok [1; 2]%Q /\
     coords sample_transform sample_data "sublimation" "rho"
       = Ok [1500; 1490]%Q) /\
  plot2D3D sample_transform (delete "melting" sample_data) "T" "P" (Some "rho")
  = Raise KeyError.
Proof.
  split; [eexists; split; [reflexivity|]|]; repeat split.
Qed.

(** ** AddPoint: the status shown *)

Lemma shown_snoc (log : list Effect) (cur : option (Z * option string))
    (s : Z) (m : option string) :
  shown (log ++ [SetState s m]) cur = Some (s, m).
Proof.
  revert cur. induction log as [|e log IH]; intros cur; [reflexivity|].
  destruct e; cbn; apply IH.
Qed.

Lemma shown_app (l1 l2 : list Effect) (cur : option (Z * option string)) :
  shown (l1 ++ l2) cur = shown l2 (shown l1 cur).
Proof.
  revert cur. induction l1 as [|e l1 IH]; intros cur; [reflexivity|].
  destruct e; cbn; apply IH.
Qed.

Lemma shown_silent (log : list Effect) (cur : option (Z * option string)) :
  forallb (fun e => match e with SetState _ _ => false | _ => true end) log
  = true ->
  shown log cur = cur.
Proof.
  revert cur. induction log as [|e log IH]; intros cur; [reflexivity|].
  cbn [forallb]. intros [He Hlog]%andb_prop.
  destruct e; try discriminate; cbn; apply IH, Hlog.
Qed.

Lemma states_app (l1 l2 : list Effect) :
  states (l1 ++ l2) = (states l1 ++ states l2)%list.
Proof. apply omap_app. Qed.

Lemma states_inputs (log : list Effect) :
  forallb is_input_effect log = true -> states log = [].
Proof.
  induction log as [|e log IH]; [reflexivity|].
  cbn [forallb]. intros [He Hlog]%andb_prop.
  destruct e; try discriminate; cbn; apply IH, Hlog.
Qed.

Section AddPointFacts.

Variable F : Type.
Variable isMEoS : F -> bool.
Variable _melting : F -> gmap string Q.
Variable _Melting_Pressure : F -> Q -> Q.
Variable f_status : F -> Z.
Variable f_msg : F -> string.
Variable f_getattribute : F -> string -> option PropVal.
Variable f_kwargs : F -> string -> bool.
Variable call : F -> gmap string PyVal -> F.
Variable new_instance : F -> F.

Lemma fill_inputs (self : AddPoint F) (fluid : F) :
  forallb is_input_effect (fill f_getattribute f_kwargs self fluid) = true.
Proof.
  unfold fill.
  induction (zip AddPoint_keys (seq 0 (ap_Inputs self))) as [|[key i] l IH];
    [reflexivity | exact IH].
Qed.

(** C5: an update of an input of the dialog sets the status widget to the
    state 4, lets the events be processed, computes the fluid again with the
    new value (and the melting pressure, for a temperature on the melting
    line), fills the inputs exactly when the status of the fluid is 1 or 3,
    and ends by setting the status widget to the status and message of the
    fluid: that is what the widget shows afterwards, and no other status code
    than 4 and the one of the fluid is given to it.  After a reset the
    widget shows the status and message of the new fluid instance. *)
Theorem AddPoint_update_status (key : string) (value : Q)
    (self : AddPoint F) (cur : option (Z * option string)) :
  (isMEoS (ap_fluid self) && dict_truth (_melting (ap_fluid self)) = true ->
   is_Some (ap_checkMelting self)) ->
  (exists self' kw fills,
     update isMEoS _melting _Melting_Pressure f_status f_msg f_getattribute
       f_kwargs call key value self = Ok self' /\
     ap_fluid self' = call (ap_fluid self) kw /\
     kw !! key = Some (PFloat value) /\
     fills = (if (f_status (ap_fluid self') =? 1)
                 || (f_status (ap_fluid self') =? 3)
              then fill f_getattribute f_kwargs self (ap_fluid self')
              else []) /\
     ap_log self' =
       (ap_log self
        ++ [SetState 4 None; ProcessEvents] ++ fills
        ++ [SetState (f_status (ap_fluid self'))
                     (Some (f_msg (ap_fluid self')))])%list /\
     shown (ap_log self') cur =
       Some (f_status (ap_fluid self'), Some (f_msg (ap_fluid self'))) /\
     states (ap_log self') =
       (states (ap_log self) ++ [4; f_status (ap_fluid self')])%list) /\
  ap_fluid (reset f_status f_msg new_instance self)
  = new_instance (ap_fluid self) /\
  shown (take (S (length (ap_log self)))
              (ap_log (reset f_status f_msg new_instance self))) cur =
    Some (f_status (new_instance (ap_fluid self)),
          Some (f_msg (new_instance (ap_fluid self)))) /\
  shown (ap_log (reset f_status f_msg new_instance self)) cur =
    Some (f_status (new_instance (ap_fluid self)),
          Some (f_msg (new_instance (ap_fluid self)))).
Proof.
  intros Hcheck. repeat apply conj.
  - unfold update.
    assert (exists b,
              (if isMEoS (ap_fluid self)
                  && dict_truth (_melting (ap_fluid self))
               then match ap_checkMelting self with
                    | Some checked => Ok (checked && String.eqb key "T")
                    | None => Raise AttributeError
                    end
               else Ok false) = Ok b /\ (b = true -> key = "T"))
      as (b & -> & Hb).
    { destruct (isMEoS (ap_fluid self)
                && dict_truth (_melting (ap_fluid self))).
      - destruct Hcheck as [checked ->]; [reflexivity|].
        eexists; split; [reflexivity|].
        intros [_ Hk]%andb_prop. apply String.eqb_eq, Hk.
      - eexists; split; [reflexivity | discriminate]. }
    cbn -[fill].
    pose (kw := if b
                then <["P" := PFloat (_Melting_Pressure (ap_fluid self) value)]>
                       (<[key := PFloat value]> (∅ : gmap string PyVal))
                else <[key := PFloat value]> (∅ : gmap string PyVal)).
    assert ((if b
             then call (ap_fluid self)
                    (<["P" := PFloat (_Melting_Pressure (ap_fluid self) value)]>
                       (<[key := PFloat value]> ∅))
             else call (ap_fluid self) (<[key := PFloat value]> ∅))
            = call (ap_fluid self) kw) as -> by (destruct b; reflexivity).
    set (fluid := call (ap_fluid self) kw).
    eexists _, kw, _. split; [reflexivity|]. cbn -[fill states].
    split; [reflexivity|]. split.
    { unfold kw. destruct b.
      - rewrite (Hb eq_refl). rewrite lookup_insert_ne by discriminate.
        apply lookup_insert_eq.
      - apply lookup_insert_eq. }
    split; [reflexivity|].
    destruct ((f_status fluid =? 1) || (f_status fluid =? 3)).
    + split; [reflexivity|]. split.
      * rewrite app_assoc. apply shown_snoc.
      * change (SetState 4 None :: ProcessEvents
                :: fill f_getattribute f_kwargs self fluid)
          with ([SetState 4 None; ProcessEvents]
                ++ fill f_getattribute f_kwargs self fluid)%list.
        rewrite !states_app.
        rewrite (states_inputs _ (fill_inputs self fluid)). reflexivity.
    + split; [reflexivity|]. split.
      * rewrite app_assoc. apply (shown_snoc _ cur).
      * rewrite !states_app. reflexivity.
  - reflexivity.
  - unfold reset. cbn [ap_log].
    rewrite take_app_ge by lia.
    replace (S (length (ap_log self)) - length (ap_log self))%nat
      with 1%nat by lia.
    cbn [app take]. apply shown_snoc.
  - unfold reset. cbn [ap_log].
    rewrite shown_app. cbn [app shown].
    apply shown_silent.
    induction (seq 0 (ap_Inputs self)); [reflexivity | assumption].
Qed.

End AddPointFacts.

Example AddPoint_update_melting :
  (self ← sample_update "T" 300 sample_dialog; Ok (ap_log self)) =
  Ok ([SetState 4 None; ProcessEvents]
      ++ flat_map (fun i => [SetValue i None; SetResaltado i false]) (seq 0 8)
      ++ [SetState 1 (Some EmptyString)])%list.
Proof. reflexivity. Qed.

Example AddPoint_update_pressure :
  (self ← sample_update "P" 101325 sample_dialog; Ok (ap_log self)) =
  Ok [SetState 4 None; ProcessEvents; SetState 0 (Some "Unknown variables")].
Proof. reflexivity. Qed.

Lemma AddPoint_update_status_witness :
  is_Some (ap_checkMelting sample_dialog) /\
  exists self',
    sample_update "T" 300 sample_dialog = Ok self' /\
    shown (ap_log self') None = Some (1, Some EmptyString).
Proof.
  split; [eexists; reflexivity|].
  destruct (AddPoint_update_status (Z * string) (fun _ => true)
              (fun _ => sample_melting) (fun _ T => (1000 * T)%Q) fst snd
              (fun _ _ => None) (fun _ _ => false) sample_call
              (fun _ => (0, "Unknown variables"))
              "T" 300%Q sample_dialog None
              (fun _ => ex_intro _ true eq_refl))
    as [(self' & kw & fills & Hup & _ & _ & _ & _ & Hshown & _) _].
  exists self'. split; [exact Hup|].
  rewrite Hshown.
  assert (Ok self' = sample_update "T" 300 sample_dialog) as Heq
    by (symmetry; exact Hup).
  vm_compute in Heq. injection Heq as ->. reflexivity.
Defined.

(** ** TablaMEoS: saving and loading *)

Lemma py_index_lookup {A} `{EqDecision A} (l : list A) (x : A) (i : nat) :
  py_index l x = Ok i -> l !! i = Some x.
Proof.
  revert i. induction l as [|y l IH]; intros i; cbn; [discriminate|].
  destruct (decide (y = x)) as [->|Hne].
  - intros [= <-]. reflexivity.
  - intros Hrun. apply bind_Ok_inv in Hrun as (n & Hn & [= <-]).
    cbn. apply IH, Hn.
Qed.

Lemma py_index_elem {A} `{EqDecision A} (l : list A) (x : A) :
  x ∈ l -> exists i, py_index l x = Ok i.
Proof.
  induction l as [|y l IH]; intros Hin; [inversion Hin|].
  cbn. destruct (decide (y = x)) as [->|Hne]; [eauto|].
  apply elem_of_cons in Hin as [->|Hin]; [contradiction|].
  destruct (IH Hin) as [i ->]. cbn. eauto.
Qed.

Lemma mapM_Ok_cons {A B} (f : A -> result B) (x : A) (l : list A)
    (y : B) (k : list B) :
  f x = Ok y -> mapM f l = Ok k -> mapM f (x :: l) = Ok (y :: k).
Proof. intros Hx Hl. cbn. rewrite Hx. cbn. rewrite Hl. reflexivity. Qed.

(** The units of a table are found again from their positions in
    [unidades._all], which only grows. *)
Lemma units_roundtrip (all extra : list Unit) (units : list Unit) :
  Forall (fun u => u ∈ all) units ->
  exists idx,
    mapM (fun unit => i ← py_index all unit; Ok (PInt (Z.of_nat i))) units
      = Ok idx /\
    mapM (fun i => i ← py_as_index i; py_getitem (all ++ extra) i) idx
      = Ok units.
Proof.
  induction 1 as [|u units Hu _ (idx & Hidx & Hback)].
  - exists []. split; reflexivity.
  - destruct (py_index_elem all u Hu) as [i Hi].
    exists (PInt (Z.of_nat i) :: idx). split.
    + apply mapM_Ok_cons; [rewrite Hi; reflexivity | exact Hidx].
    + apply mapM_Ok_cons; [|exact Hback].
      cbn. apply py_getitem_nat, lookup_app_l_Some, py_index_lookup, Hi.
Qed.

Section TablaFacts.

Context {W : Type} `{TablaBaseLaws W}.
Variable mEoS_all : list MEoSClass.
Variable representacion : PyVal -> list (string * PyVal) -> string.

Lemma same_table_refl (w : W) : same_table w w.
Proof. repeat split. Qed.

Lemma same_table_trans (w1 w2 w3 : W) :
  same_table w1 w2 -> same_table w2 w3 -> same_table w1 w3.
Proof.
  intros (Hc & Hr & Hcr & Hh) (Hc' & Hr' & Hcr' & Hh').
  split; [congruence|]. split; [congruence|]. split; [congruence|].
  intros c. rewrite Hh'. apply Hh.
Qed.

Lemma htitle_ok (w : W) (start : Z) (n : nat) :
  (forall c, start <= c < start + Z.of_nat n ->
     is_Some (horizontalHeaderItem w c)) ->
  exists texts,
    htitle w start n = Ok (map PStr texts) /\
    length texts = n /\
    forall i text, texts !! i = Some text ->
      horizontalHeaderItem w (start + Z.of_nat i) = Some text.
Proof.
  revert start. induction n as [|n IH]; intros start Hitems.
  - exists []. repeat split. intros i text Hi. inversion Hi.
  - destruct (Hitems start) as [text Htext]; [lia|].
    destruct (IH (start + 1)) as (texts & Hrun & Hlen & Hlook).
    { intros c Hc. apply Hitems. lia. }
    exists (text :: texts). cbn. rewrite Htext, Hrun. cbn.
    split; [reflexivity|]. split; [congruence|].
    intros [|i] t Hi; cbn in Hi.
    + injection Hi as <-. rewrite Z.add_0_r. exact Htext.
    + rewrite <- (Hlook i t Hi). f_equal. lia.
Qed.

Lemma set_cells_same (format : PyVal) (fila columna : Z)
    (cells : list PyVal) (w : W) :
  (forall c cell, cells !! c = Some cell ->
     is_Ok (cell_text representacion format (columna + Z.of_nat c) cell)) ->
  exists w', set_cells representacion format fila columna cells w = Ok w' /\
             same_table w w' /\ windowTitle w' = windowTitle w.
Proof.
  revert columna w. induction cells as [|cell cells IH]; intros columna w Hok.
  - exists w. repeat split.
  - destruct (Hok 0%nat cell eq_refl) as [txt Htxt].
    rewrite Z.add_0_r in Htxt. cbn. rewrite Htxt. cbn.
    destruct (IH (columna + 1) (setValue fila columna txt w))
      as (w' & Hrun & Hsame & Htitle).
    { intros c cell' Hc.
      replace (columna + 1 + Z.of_nat c) with (columna + Z.of_nat (S c)) by lia.
      apply Hok. exact Hc. }
    exists w'. split; [exact Hrun|].
    destruct (setValue_same fila columna txt w) as [Hs Ht].
    split; [eapply same_table_trans; eassumption | congruence].
Qed.

Lemma row_cells (format : PyVal) (fila : Z) (row : PyVal) (w : W) :
  row_ok representacion format row ->
  exists cells w',
    py_iter row = Ok cells /\
    set_cells representacion format fila 0 cells w = Ok w' /\
    same_table w w' /\ windowTitle w' = windowTitle w.
Proof.
  intros (cells & -> & Hok).
  destruct (set_cells_same format fila 0 cells w) as (w' & Hrun & Hs & Ht).
  { intros c cell Hc. rewrite Z.add_0_l. apply Hok, Hc. }
  exists cells, w'. auto.
Qed.

Lemma setStr_loop_same (format : PyVal) (fila : Z) (rows : list PyVal)
    (w : W) :
  Forall (row_ok representacion format) rows ->
  exists w', setStr_loop representacion format fila rows w = Ok w' /\
             same_table w w' /\ windowTitle w' = windowTitle w.
Proof.
  intros Hrows. revert fila w.
  induction Hrows as [|row rows Hrow _ IH]; intros fila w.
  - exists w. repeat split.
  - cbn.
    set (w1 := if rowCount w <=? fila then addRow w else w).
    assert (same_table w w1 /\ windowTitle w1 = windowTitle w) as [Hs1 Ht1].
    { unfold w1. destruct (rowCount w <=? fila);
        [apply addRow_same | split; [apply same_table_refl | reflexivity]]. }
    clearbody w1.
    destruct (row_cells format fila row w1 Hrow)
      as (cells & w2 & Hcells & Hset & Hs2 & Ht2).
    rewrite Hcells. cbn. rewrite Hset. cbn.
    destruct (IH (fila + 1) w2) as (w3 & Hrun & Hs3 & Ht3).
    exists w3. split; [exact Hrun|]. split; [|congruence].
    eapply same_table_trans; [|exact Hs3].
    eapply same_table_trans; eassumption.
Qed.

Lemma protect_cells_same (row i : Z) (flags : list PyVal) (w : W) :
  same_table w (protect_cells row i flags w) /\
  windowTitle (protect_cells row i flags w) = windowTitle w.
Proof.
  revert i w. induction flags as [|b flags IH]; intros i w; cbn.
  - split; [apply same_table_refl | reflexivity].
  - destruct (py_truth b); [apply IH|].
    destruct (IH (i + 1) (setItemReadOnly row i w)) as [Hs Ht].
    destruct (setItemReadOnly_same row i w) as [Hs' Ht'].
    split; [eapply same_table_trans; eassumption | congruence].
Qed.

Lemma setRow_ok (self : TablaMEoS W) (acc : list PyVal) (row : PyVal) :
  tm_data self = PList acc ->
  row_ok representacion (tm_format self) row ->
  (readOnly (tm_widget self) = false ->
   is_Ok (py_iter (columnReadOnly (tm_widget self)))) ->
  exists self',
    setRow representacion (length acc) row self = Ok self' /\
    tm_data self' = PList (acc ++ [row]) /\
    same_table (tm_widget self) (tm_widget self') /\
    windowTitle (tm_widget self') = windowTitle (tm_widget self) /\
    same_attrs self self'.
Proof.
  intros Hdata Hrow Hflags. unfold setRow. rewrite Hdata. cbn [py_insert].
  rewrite take_ge, drop_ge by lia. cbn.
  destruct (row_cells (tm_format self) (Z.of_nat (length acc)) row
              (tm_widget self) Hrow)
    as (cells & w2 & Hcells & Hset & Hs2 & Ht2).
  rewrite Hcells. cbn. rewrite Hset. cbn.
  pose proof Hs2 as (_ & Hro & Hcro & _).
  destruct (readOnly w2) eqn:Hro2; cbn.
  - eexists. split; [reflexivity|]. cbn.
    split; [reflexivity|]. split; [exact Hs2|]. split; [exact Ht2|].
    repeat split.
  - destruct Hflags as [flags Hfl]; [congruence|].
    rewrite Hcro, Hfl. cbn.
    destruct (protect_cells_same (Z.of_nat (length acc)) 0 flags w2)
      as [Hs3 Ht3].
    eexists. split; [reflexivity|]. cbn.
    split; [reflexivity|].
    split; [eapply same_table_trans; eassumption|].
    split; [congruence|]. repeat split.
Qed.

Lemma setData_loop_ok (rows : list PyVal) (self : TablaMEoS W)
    (acc : list PyVal) :
  tm_data self = PList acc ->
  Forall (row_ok representacion (tm_format self)) rows ->
  (readOnly (tm_widget self) = false ->
   is_Ok (py_iter (columnReadOnly (tm_widget self)))) ->
  exists self',
    setData_loop representacion (length acc) rows self = Ok self' /\
    tm_data self' = PList (acc ++ rows) /\
    same_table (tm_widget self) (tm_widget self') /\
    windowTitle (tm_widget self') = windowTitle (tm_widget self) /\
    same_attrs self self'.
Proof.
  intros Hdata Hrows. revert self acc Hdata Hrows.
  induction rows as [|row rows IH]; intros self acc Hdata Hrows Hflags.
  - exists self. cbn. rewrite app_nil_r.
    split; [reflexivity|]. split; [exact Hdata|].
    split; [apply same_table_refl|]. repeat split.
  - inversion Hrows as [|? ? Hrow Hrest]; subst.
    destruct (setRow_ok self acc row Hdata Hrow Hflags)
      as (self1 & Hrun1 & Hdata1 & Hs1 & Ht1 & Ha1).
    cbn. rewrite Hrun1. cbn.
    pose proof Hs1 as (_ & Hro & Hcro & _).
    pose proof Ha1 as (_ & _ & _ & Hfmt & _).
    destruct (IH self1 (acc ++ [row])%list Hdata1)
      as (self2 & Hrun2 & Hdata2 & Hs2 & Ht2 & Ha2).
    { rewrite Hfmt. exact Hrest. }
    { rewrite Hro, Hcro. exact Hflags. }
    rewrite length_app in Hrun2. cbn in Hrun2.
    replace (length acc + 1)%nat with (S (length acc)) in Hrun2 by lia.
    exists self2. split; [exact Hrun2|].
    split; [rewrite Hdata2, <- app_assoc; reflexivity|].
    split; [eapply same_table_trans; eassumption|].
    split; [congruence|].
    destruct Ha1 as (? & ? & ? & ? & ?), Ha2 as (? & ? & ? & ? & ?).
    repeat split; congruence.
Qed.

Lemma setData_ok (rows : list PyVal) (self : TablaMEoS W) :
  tm_data self = PList [] ->
  Forall (row_ok representacion (tm_format self)) rows ->
  (readOnly (tm_widget self) = false ->
   is_Ok (py_iter (columnReadOnly (tm_widget self)))) ->
  exists self',
    setData representacion (PList rows) self = Ok self' /\
    tm_data self' = PList rows /\
    same_table (tm_widget self) (tm_widget self') /\
    windowTitle (tm_widget self') = windowTitle (tm_widget self) /\
    same_attrs self self'.
Proof.
  intros Hdata Hrows Hflags. unfold setData.
  destruct (readOnly (tm_widget self)) eqn:Hro.
  - unfold setStr. cbn.
    destruct (setStr_loop_same (tm_format self) 0 rows (tm_widget self) Hrows)
      as (w' & Hrun & Hs & Ht).
    rewrite Hrun. cbn. eexists. split; [reflexivity|]. cbn.
    split; [reflexivity|]. split; [exact Hs|]. split; [exact Ht|].
    repeat split.
  - cbn. apply (setData_loop_ok rows self [] Hdata Hrows).
    intros _. apply Hflags. reflexivity.
Qed.

Lemma fluid_roundtrip (f : Fluid) (data : gmap string PyVal) :
  saved_fluid mEoS_all (Some f) ->
  exists data' m fl,
    writeToJSON_fluid mEoS_all (Some f) data = Ok data' /\
    (forall k, k <> "method" -> k <> "fluid" -> k <> "external_dependences" ->
       data' !! k = data !! k) /\
    data' !! "method" = Some m /\ data' !! "fluid" = Some fl /\
    forall data'' : gmap string PyVal,
      data'' !! "method" = Some m -> data'' !! "fluid" = Some fl ->
      readFromJSON_fluid mEoS_all data'' = Ok (fresh_instance f).
Proof.
  intros Hsaved. destruct f as [ids|ids|cls]; cbn in Hsaved.
  - destruct ids as [|i ids]; [contradiction|].
    eexists _, (PStr "refprop"), (PInt i). split; [reflexivity|].
    split; [intros k H1 H2 H3; rewrite !lookup_insert_ne by congruence;
            reflexivity|].
    split; [rewrite !lookup_insert_ne by discriminate; apply lookup_insert_eq|].
    split; [rewrite !lookup_insert_ne by discriminate; apply lookup_insert_eq|].
    intros data'' Hm Hf. unfold readFromJSON_fluid, dict_get.
    rewrite Hm. cbn. rewrite Hf. reflexivity.
  - destruct ids as [|i ids]; [contradiction|].
    eexists _, (PStr "coolprop"), (PInt i). split; [reflexivity|].
    split; [intros k H1 H2 H3; rewrite !lookup_insert_ne by congruence;
            reflexivity|].
    split; [rewrite !lookup_insert_ne by discriminate; apply lookup_insert_eq|].
    split; [rewrite !lookup_insert_ne by discriminate; apply lookup_insert_eq|].
    intros data'' Hm Hf. unfold readFromJSON_fluid, dict_get.
    rewrite Hm. cbn. rewrite Hf. reflexivity.
  - destruct (py_index_elem mEoS_all cls Hsaved) as [i Hi].
    eexists _, (PStr "meos"), (PInt (Z.of_nat i)).
    split; [cbn; rewrite Hi; reflexivity|].
    split; [intros k H1 H2 H3; rewrite !lookup_insert_ne by congruence;
            reflexivity|].
    split; [rewrite !lookup_insert_ne by discriminate; apply lookup_insert_eq|].
    split; [rewrite !lookup_insert_ne by discriminate; apply lookup_insert_eq|].
    intros data'' Hm Hf. unfold readFromJSON_fluid, dict_get.
    rewrite Hm. cbn. rewrite Hf. cbn.
    rewrite (py_getitem_nat _ _ _ (py_index_lookup _ _ _ Hi)). reflexivity.
Qed.

(** Loading a dict that holds a table. *)
Lemma readFromJSON_ok (data : gmap string PyVal)
    (parent : option ConfigParser) (all : list Unit) (idx : list PyVal)
    (units : list Unit) (texts : list string) (format orderUnit : PyVal)
    (ro : bool) (rows : list PyVal) (column : Z) (title : string)
    (keys cro : PyVal) (fluid : Fluid) :
  data !! "unit" = Some (PList idx) ->
  mapM (fun i => i ← py_as_index i; py_getitem (all ++ [Dimensionless]) i) idx
    = Ok units ->
  data !! "htitle" = Some (PList (map PStr texts)) ->
  data !! "format" = Some format ->
  data !! "orderUnit" = Some orderUnit ->
  data !! "readOnly" = Some (PBool ro) ->
  data !! "data" = Some (PList rows) ->
  data !! "column" = Some (PInt column) ->
  0 <= column ->
  data !! "title" = Some (PStr title) ->
  Forall (row_ok representacion format) rows ->
  (ro = false ->
   data !! "keys" = Some keys /\ data !! "columnReadOnly" = Some cro /\
   is_Ok (py_iter cro) /\ readFromJSON_fluid mEoS_all data = Ok fluid) ->
  exists t' : TablaMEoS W,
    readFromJSON mEoS_all representacion data parent all
      = Ok (t', (all ++ [Dimensionless])%list) /\
    columnCount (tm_widget t') = column /\
    windowTitle (tm_widget t') = title /\
    (forall c text, texts !! c = Some text -> Z.of_nat c < column ->
       horizontalHeaderItem (tm_widget t') (Z.of_nat c) = Some text) /\
    tm_units t' = units /\ tm_format t' = format /\
    tm_orderUnit t' = orderUnit /\
    readOnly (tm_widget t') = ro /\
    tm_data t' = PList rows /\
    (ro = false ->
     tm_keys t' = Some keys /\ columnReadOnly (tm_widget t') = cro /\
     tm_Point t' = Some fluid).
Proof.
  intros Hunit Hback Hhtitle Hformat Horder Hro Hdata Hcolumn Hpos Htitle
    Hrows Hedit.
  unfold readFromJSON, dict_get.
  rewrite Hunit. cbn [mbind result_bind py_iter]. rewrite Hback.
  cbn [mbind result_bind]. rewrite Hhtitle, Hformat, Horder, Hro.
  cbn [mbind result_bind py_truth]. rewrite Hdata, Hcolumn, Htitle.
  destruct ro.
  - cbn [mbind result_bind negb]. unfold TablaMEoS_init.
    cbn [kw_units kw_orderUnit kw_format kw_keys mbind result_bind].
    match goal with
    | |- context [setData _ _ ?t] => set (tabla := t)
    end.
    destruct (setData_ok rows tabla) as (t' & Hset & Hd & Hs & Ht & Ha).
    { reflexivity. }
    { exact Hrows. }
    { unfold tabla. cbn [tm_widget with_widget].
      destruct (title_same title (Tabla_init column
        {| kw_parent := parent; kw_keys := None; kw_units := Some units;
           kw_orderUnit := Some orderUnit; kw_format := Some format;
           kw_horizontalHeader := Some (PList (map PStr texts));
           kw_stretch := Some false; kw_readOnly := Some true;
           kw_filas := None; kw_columnReadOnly := None |}))
        as (_ & Hr & _).
      rewrite Hr, init_readOnly. discriminate. }
    rewrite Hset. cbn [mbind result_bind].
    exists t'. split; [reflexivity|].
    destruct Hs as (Hc & Hr & Hcr & Hh).
    destruct Ha as (Hk & Hu & Ho & Hf & Hp).
    unfold tabla in *. cbn [tm_widget with_widget tm_keys tm_units
                            tm_orderUnit tm_format tm_Point] in *.
    match type of Hc with
    | _ = columnCount (setWindowTitle _ ?w0) => set (w0' := w0) in *
    end.
    destruct (title_same title w0') as (Hc0 & Hr0 & Hcr0 & Hh0).
    split; [rewrite Hc, Hc0; apply init_columnCount, Hpos|].
    split; [rewrite Ht; apply title_set|].
    split.
    { intros c text Hc' Hlt. rewrite Hh, Hh0.
      apply (init_header column _ (map PStr texts)); [reflexivity| |exact Hlt].
      rewrite list_lookup_fmap, Hc'. reflexivity. }
    split; [exact Hu|]. split; [exact Hf|]. split; [exact Ho|].
    split; [rewrite Hr, Hr0; apply init_readOnly|].
    split; [exact Hd|]. discriminate.
  - destruct (Hedit eq_refl) as (Hkeys & Hcro & Hiter & Hfluid).
    cbn [mbind result_bind negb py_len]. rewrite Hkeys, Hcro.
    cbn [mbind result_bind]. unfold TablaMEoS_init.
    cbn [kw_units kw_orderUnit kw_format kw_keys mbind result_bind].
    match goal with
    | |- context [setData _ _ ?t] => set (tabla := t)
    end.
    assert (exists w0, tm_widget tabla = setWindowTitle title w0 /\
                       columnCount w0 = column /\
                       readOnly w0 = false /\
                       columnReadOnly w0 = cro /\
                       forall c text, texts !! c = Some text ->
                         Z.of_nat c < column ->
                         horizontalHeaderItem w0 (Z.of_nat c) = Some text)
      as (w0 & Hw0 & Hc0 & Hr0 & Hcr0 & Hh0).
    { eexists. split; [reflexivity|].
      split; [apply init_columnCount, Hpos|].
      split; [apply init_readOnly|].
      split; [apply init_columnReadOnly; reflexivity|].
      intros c text Hc' Hlt.
      apply (init_header column _ (map PStr texts)); [reflexivity| |exact Hlt].
      rewrite list_lookup_fmap, Hc'. reflexivity. }
    destruct (title_same title w0) as (Hc1 & Hr1 & Hcr1 & Hh1).
    destruct (setData_ok rows tabla) as (t' & Hset & Hd & Hs & Ht & Ha).
    { reflexivity. }
    { exact Hrows. }
    { intros _. rewrite Hw0, Hcr1, Hcr0. exact Hiter. }
    rewrite Hset. cbn [mbind result_bind]. rewrite Hfluid.
    cbn [mbind result_bind].
    eexists. split; [reflexivity|].
    destruct Hs as (Hc & Hr & Hcr & Hh).
    destruct Ha as (Hk & Hu & Ho & Hf & Hp).
    cbn [tm_widget with_Point tm_keys tm_units tm_orderUnit tm_format
         tm_Point tm_data].
    rewrite Hw0 in Hc, Hr, Hcr, Hh, Ht.
    split; [rewrite Hc, Hc1; exact Hc0|].
    split; [rewrite Ht; apply title_set|].
    split; [intros c text Hc' Hlt; rewrite Hh, Hh1; apply Hh0; assumption|].
    split; [exact Hu|]. split; [exact Hf|]. split; [exact Ho|].
    split; [rewrite Hr, Hr1; exact Hr0|].
    split; [exact Hd|]. intros _.
    split; [exact Hk|]. split; [rewrite Hcr, Hcr1; exact Hcr0 | reflexivity].
Qed.

(** C3: a table whose header has an item for each column, whose units are
    classes of unidades, whose rows can be written to cells and which, when
    it is editable, has keys and a fluid that can be saved, is saved by
    writeToJSON and loaded again by readFromJSON, and the table loaded has
    the same number of columns, window title, header titles, units, format,
    orderUnit, readOnly flag and data, and, when it is editable, the same
    keys and columnReadOnly flags and a new fluid instance of the same
    class for the same compound. *)
Theorem TablaMEoS_json_roundtrip (t : TablaMEoS W)
    (data0 : gmap string PyVal) (parent : option ConfigParser)
    (all : list Unit) (rows : list PyVal) :
  0 <= columnCount (tm_widget t) ->
  (forall c, 0 <= c < columnCount (tm_widget t) ->
     is_Some (horizontalHeaderItem (tm_widget t) c)) ->
  Forall (fun u => u ∈ (all ++ [Dimensionless])%list) (tm_units t) ->
  tm_data t = PList rows ->
  Forall (row_ok representacion (tm_format t)) rows ->
  (readOnly (tm_widget t) = false ->
   is_Some (tm_keys t) /\ saved_fluid mEoS_all (tm_Point t) /\
   is_Ok (py_iter (columnReadOnly (tm_widget t)))) ->
  exists data all' (t' : TablaMEoS W) all'',
    writeToJSON mEoS_all t data0 all = Ok (data, all') /\
    readFromJSON mEoS_all representacion data parent all' = Ok (t', all'') /\
    columnCount (tm_widget t') = columnCount (tm_widget t) /\
    windowTitle (tm_widget t') = windowTitle (tm_widget t) /\
    (forall c, 0 <= c < columnCount (tm_widget t) ->
       horizontalHeaderItem (tm_widget t') c
       = horizontalHeaderItem (tm_widget t) c) /\
    tm_units t' = tm_units t /\
    tm_format t' = tm_format t /\
    tm_orderUnit t' = tm_orderUnit t /\
    readOnly (tm_widget t') = readOnly (tm_widget t) /\
    tm_data t' = tm_data t /\
    (readOnly (tm_widget t) = false ->
     tm_keys t' = tm_keys t /\
     columnReadOnly (tm_widget t') = columnReadOnly (tm_widget t) /\
     tm_Point t' = fresh_instance <$> tm_Point t).
Proof.
  intros Hcol Hhead Hunits Hdata Hrows Hedit.
  set (w := tm_widget t) in *.
  destruct (htitle_ok w 0 (Z.to_nat (columnCount w)))
    as (texts & Htitles & Hlen & Htext).
  { intros c Hc. apply Hhead. lia. }
  destruct (units_roundtrip (all ++ [Dimensionless]) [Dimensionless]
              (tm_units t) Hunits) as (idx & Hidx & Hback).
  assert (forall c, 0 <= c < columnCount w ->
            exists text, texts !! Z.to_nat c = Some text /\
                         horizontalHeaderItem w c = Some text) as Hhead'.
  { intros c Hc.
    destruct (lookup_lt_is_Some_2 texts (Z.to_nat c)) as [text Htx]; [lia|].
    exists text. split; [exact Htx|].
    rewrite <- (Htext _ _ Htx). f_equal. lia. }
  set (base := <["readOnly" := PBool (readOnly w)]>
                 (<["unit" := PList idx]>
                    (<["htitle" := PList (map PStr texts)]>
                       (<["title" := PStr (windowTitle w)]>
                          (<["column" := PInt (columnCount w)]> data0))))).
  assert (forall mid : gmap string PyVal,
            (forall k, k <> "method" -> k <> "fluid" ->
                       k <> "external_dependences" -> k <> "keys" ->
                       k <> "columnReadOnly" -> mid !! k = base !! k) ->
            let data := <["data" := tm_data t]>
                          (<["format" := tm_format t]>
                             (<["orderUnit" := tm_orderUnit t]> mid)) in
            data !! "unit" = Some (PList idx) /\
            data !! "htitle" = Some (PList (map PStr texts)) /\
            data !! "format" = Some (tm_format t) /\
            data !! "orderUnit" = Some (tm_orderUnit t) /\
            data !! "readOnly" = Some (PBool (readOnly w)) /\
            data !! "data" = Some (PList rows) /\
            data !! "column" = Some (PInt (columnCount w)) /\
            data !! "title" = Some (PStr (windowTitle w))) as Hlook.
  { intros mid Hmid data. unfold data, base in *.
    repeat split;
      repeat (rewrite lookup_insert_ne by discriminate);
      rewrite ?lookup_insert_eq; rewrite ?Hdata; try reflexivity;
      rewrite Hmid by discriminate;
      repeat (rewrite lookup_insert_ne by discriminate);
      apply lookup_insert_eq. }
  destruct (readOnly w) eqn:Hro.
  - destruct (Hlook base) as (L1 & L2 & L3 & L4 & L5 & L6 & L7 & L8);
      [reflexivity|].
    destruct (readFromJSON_ok _ parent (all ++ [Dimensionless]) idx
                (tm_units t) texts (tm_format t) (tm_orderUnit t) true rows
                (columnCount w) (windowTitle w) PNone PNone (RefProp [])
                L1 Hback L2 L3 L4 L5 L6 L7 Hcol L8 Hrows)
      as (t' & Hread & R1 & R2 & R3 & R4 & R5 & R6 & R7 & R8 & _);
      [discriminate|].
    eexists _, _, t', _. split.
    { unfold writeToJSON. fold w. rewrite Htitles. cbn [mbind result_bind].
      rewrite Hidx. cbn [mbind result_bind]. rewrite Hro. reflexivity. }
    split; [exact Hread|].
    split; [exact R1|]. split; [exact R2|].
    split.
    { intros c Hc. destruct (Hhead' c Hc) as (text & Htx & ->).
      rewrite <- (Z2Nat.id c) by lia. apply R3; [exact Htx | lia]. }
    split; [exact R4|]. split; [exact R5|]. split; [exact R6|].
    split; [exact R7|]. split; [congruence | discriminate].
  - destruct (Hedit eq_refl) as ([keys Hkeys] & Hsaved & Hiter).
    destruct (tm_Point t) as [f|] eqn:Hpoint; [|contradiction].
    destruct (fluid_roundtrip f base Hsaved)
      as (dataf & m & fl & Hwf & Hother & Hm & Hfl & Hrf).
    set (mid := <["columnReadOnly" := columnReadOnly w]>
                  (<["keys" := keys]> dataf)).
    destruct (Hlook mid) as (L1 & L2 & L3 & L4 & L5 & L6 & L7 & L8).
    { intros k K1 K2 K3 K4 K5. unfold mid.
      rewrite !lookup_insert_ne by congruence. apply Hother; assumption. }
    set (data := <["data" := tm_data t]>
                   (<["format" := tm_format t]>
                      (<["orderUnit" := tm_orderUnit t]> mid))) in *.
    destruct (readFromJSON_ok data parent (all ++ [Dimensionless]) idx
                (tm_units t) texts (tm_format t) (tm_orderUnit t) false rows
                (columnCount w) (windowTitle w) keys (columnReadOnly w)
                (fresh_instance f)
                L1 Hback L2 L3 L4 L5 L6 L7 Hcol L8 Hrows)
      as (t' & Hread & R1 & R2 & R3 & R4 & R5 & R6 & R7 & R8 & R9).
    { intros _. unfold data, mid.
      split; [rewrite !lookup_insert_ne by discriminate;
              apply lookup_insert_eq|].
      split; [rewrite !lookup_insert_ne by discriminate;
              apply lookup_insert_eq|].
      split; [exact Hiter|].
      apply Hrf; rewrite !lookup_insert_ne by discriminate; assumption. }
    destruct (R9 eq_refl) as (R10 & R11 & R12).
    exists data, (all ++ [Dimensionless])%list, t',
      ((all ++ [Dimensionless]) ++ [Dimensionless])%list. split.
    { unfold writeToJSON. fold w. rewrite Htitles. cbn [mbind result_bind].
      rewrite Hidx. cbn [mbind result_bind]. rewrite Hro. cbn [negb].
      rewrite Hpoint. fold base. rewrite Hwf. cbn [mbind result_bind].
      rewrite Hkeys. reflexivity. }
    split; [exact Hread|].
    split; [exact R1|]. split; [exact R2|].
    split.
    { intros c Hc. destruct (Hhead' c Hc) as (text & Htx & ->).
      rewrite <- (Z2Nat.id c) by lia. apply R3; [exact Htx | lia]. }
    split; [exact R4|]. split; [exact R5|]. split; [exact R6|].
    split; [exact R7|]. split; [congruence|].
    intros _. split; [congruence|]. split; [exact R11 | exact R12].
Qed.

End TablaFacts.

#[global] Instance QTable_laws : TablaBaseLaws QTable.
Proof.
  split.
  - intros n kw Hn. cbn. lia.
  - reflexivity.
  - intros n kw v Hv. cbn. rewrite Hv. reflexivity.
  - intros n kw titles c text Hh Ht Hlt. cbn. unfold QTable_header. cbn.
    rewrite Hh.
    replace (0 <=? Z.of_nat c) with true by (symmetry; apply Z.leb_le; lia).
    replace (Z.of_nat c <? Z.max 0 n) with true
      by (symmetry; apply Z.ltb_lt; lia).
    cbn. rewrite Nat2Z.id, Ht. reflexivity.
  - reflexivity.
  - intros s w. repeat split.
  - intros w. repeat split.
  - intros r c s w. repeat split.
  - intros r c w. repeat split.
Qed.

Lemma TablaMEoS_json_roundtrip_witness :
  exists data all' t' all'',
    writeToJSON [water; argon] sample_table ∅ sample_all = Ok (data, all') /\
    readFromJSON [water; argon] sample_representacion data None all'
      = Ok (t', all'') /\
    windowTitle (tm_widget t') = "Table: H2O" /\
    tm_units t' = [UnitClass "Temperature"; UnitClass "Pressure"] /\
    tm_data t' = PList [PList [PFloat 300; PStr "101325"]] /\
    tm_Point t' = Some (MEoS water).
Proof.
  destruct (TablaMEoS_json_roundtrip [water; argon] sample_representacion
              sample_table ∅ None sample_all
              [PList [PFloat 300; PStr "101325"]])
    as (data & all' & t' & all'' & Hw & Hr & _ & Ht & _ & Hu & _ & _ & _
        & Hd & He).
  - cbn. lia.
  - intros c Hc. assert (c = 0 \/ c = 1) as [-> | ->] by (cbn in Hc; lia);
      eexists; reflexivity.
  - repeat constructor; set_solver.
  - reflexivity.
  - constructor; [|constructor].
    exists [PFloat 300; PStr "101325"]. split; [reflexivity|].
    intros [|[|c]] cell Hcell; inversion Hcell; eexists; reflexivity.
  - intros _. split; [eexists; reflexivity|].
    split; [set_solver | eexists; reflexivity].
  - exists data, all', t', all''.
    destruct (He eq_refl) as (_ & _ & Hp).
    repeat split; assumption.
Defined.

(** ** Further examples *)

Example py_getitem_negative : py_getitem [water; argon] (-1) = Ok argon.
Proof. reflexivity. Qed.

Example py_getitem_out_of_range :
  py_getitem [water; argon] 2 = Raise IndexError.
Proof. reflexivity. Qed.

Example get_propiedades_out_of_range :
  get_propiedades sample_properties sample_eval
    (fun s o =>
       if String.eqb o "properties" then Ok (PList [PBool true])
       else Ok (PList [PInt 3]))
  = Raise IndexError.
Proof. reflexivity. Qed.

Example linspace_five :
  map Qred (linspace 250 400 5)
  = [250; 575 # 2; 325; 725 # 2; 400]%Q.
Proof. reflexivity. Qed.

(** The configuration of a plot, as [plugin.plot] stores it with the data. *)
Example calcPoint_dict_config :
  calcPoint pref_meos sample_fluid
    (ConfDict (<["method" := PStr "MEOS"]>
                 (<["fluid" := PInt 0]>
                    (<["eq" := PInt 0]>
                       (<["visco" := PInt 0]>
                          (<["thermal" := PInt 0]> ∅))))))
    (<["P" := PFloat 101325]> (<["T" := PFloat 600]> ∅))
  = Ok None.
Proof. reflexivity. Qed.

Example sample_table_saved :
  (r ← writeToJSON [water; argon] sample_table ∅ sample_all;
   Ok (r.1 !! "unit", r.1 !! "method", r.1 !! "fluid", r.1 !! "column", r.2))
  = Ok (Some (PList [PInt 0; PInt 1]), Some (PStr "meos"), Some (PInt 0),
        Some (PInt 2), (sample_all ++ [Dimensionless])%list).
Proof. reflexivity. Qed.

Example sample_table_not_saved_without_fluid :
  writeToJSON [water; argon]
    {| tm_widget := tm_widget sample_table; tm_keys := tm_keys sample_table;
       tm_units := tm_units sample_table;
       tm_orderUnit := tm_orderUnit sample_table;
       tm_format := tm_format sample_table; tm_data := tm_data sample_table;
       tm_Point := None |} ∅ sample_all
  = Raise AttributeError.
Proof. reflexivity. Qed.

(** * Further properties of the code *)

(** ** The choice of the axes *)

Lemma skip_index_pos (i j : nat) :
  skip_index (Z.of_nat i) (Z.of_nat j) = Z.of_nat (skip_pos i j).
Proof.
  unfold skip_index, skip_pos.
  destruct (Nat.leb_spec i j), (Z.leb_spec (Z.of_nat i) (Z.of_nat j)); lia.
Qed.

Lemma py_del_nat {A} (l l' : list A) (i : nat) :
  py_del l (Z.of_nat i) = Ok l' <-> (i < length l)%nat /\ l' = delete i l.
Proof.
  unfold py_del.
  replace (0 <=? Z.of_nat i) with true by (symmetry; apply Z.leb_le; lia).
  replace (Z.of_nat i <? 0) with false by (symmetry; apply Z.ltb_ge; lia).
  rewrite andb_false_r. cbn [andb].
  destruct (Z.ltb_spec (Z.of_nat i) (Z.of_nat (length l))).
  - rewrite Nat2Z.id. split; [intros [= <-]; split; [lia | reflexivity]|].
    intros [_ ->]. reflexivity.
  - split; [discriminate | lia].
Qed.

Lemma lookup_delete_skip {A} (l : list A) (i n : nat) :
  delete i l !! n = l !! skip_pos i n.
Proof.
  unfold skip_pos. destruct (Nat.leb_spec i n).
  - apply list_lookup_delete_ge. lia.
  - apply list_lookup_delete_lt. lia.
Qed.

(** X1: the Y axis of a 2D plot is the property shown in the combo of the
    Y axis, which ejeXChanged filled with all the properties but the one of
    the X axis: plot2D takes for y the key at the position of the name
    shown, and that position is never the one of x. *)
Theorem plot2D_axes (names prop : list string) (i j : nat)
    (items : list string) (shown : string) :
  length names = length prop ->
  ejeXChanged names (Z.of_nat i) = Ok items ->
  items !! j = Some shown ->
  exists (j' : nat) (x y : string),
    plot2D prop (Z.of_nat i) (Z.of_nat j) = Ok (x, y) /\
    prop !! i = Some x /\ prop !! j' = Some y /\
    names !! j' = Some shown /\ j' <> i /\
    (NoDup prop -> x <> y).
Proof.
  intros Hlen Hitems Hshown.
  apply py_del_nat in Hitems as [Hi ->].
  rewrite lookup_delete_skip in Hshown.
  destruct (lookup_lt_is_Some_2 prop i) as [x Hx]; [lia|].
  destruct (lookup_lt_is_Some_2 prop (skip_pos i j)) as [y Hy].
  { rewrite <- Hlen. eapply lookup_lt_Some, Hshown. }
  assert (skip_pos i j <> i) as Hne.
  { unfold skip_pos. destruct (Nat.leb_spec i j); lia. }
  exists (skip_pos i j), x, y.
  split.
  { unfold plot2D, plot2D_index. rewrite skip_index_pos.
    rewrite (py_getitem_nat _ _ _ Hx). cbn.
    rewrite (py_getitem_nat _ _ _ Hy). reflexivity. }
  repeat apply conj; try assumption.
  intros Hnd ->. apply Hne. symmetry.
  eapply NoDup_lookup; eassumption.
Qed.

Lemma plot2D_axes_witness :
  plot2D ["T"; "P"; "rho"] 1 1 = Ok ("P", "rho").
Proof.
  destruct (plot2D_axes ["Temperature"; "Pressure"; "Density"]
              ["T"; "P"; "rho"] 1 1 ["Temperature"; "Density"] "Density"
              eq_refl eq_refl eq_refl)
    as (j' & x & y & Hrun & Hx & Hy & Hname & _).
  destruct j' as [|[|[|j']]]; try discriminate.
  injection Hx as <-. injection Hy as <-. exact Hrun.
Defined.

(** X2: in a 3D plot x and y are as in a 2D plot, and the property shown in
    the combo of the Z axis, which ejeYChanged filled, is neither the one of
    x nor the one of y.  plot3D takes for z the key at the position of that
    property, except when the index of the Z combo is one less than the
    index of the X combo and the index of the Y combo is smaller than that
    of the X combo, where it takes x again, and when the index of the Z
    combo is one less than the index of the Y combo and not smaller than
    the index of the X combo, where it takes y again. *)
Theorem plot3D_axes (names prop : list string) (i j k : nat)
    (itemsY itemsZ : list string) (showny shownz : string) :
  length names = length prop ->
  ejeXChanged names (Z.of_nat i) = Ok itemsY ->
  itemsY !! j = Some showny ->
  ejeYChanged names (Z.of_nat i) (Z.of_nat j) = Ok itemsZ ->
  itemsZ !! k = Some shownz ->
  exists (j' kd kc : nat) (x y z : string),
    plot3D prop (Z.of_nat i) (Z.of_nat j) (Z.of_nat k) = Ok (x, y, z) /\
    prop !! i = Some x /\ prop !! j' = Some y /\ prop !! kc = Some z /\
    names !! j' = Some showny /\ names !! kd = Some shownz /\
    j' <> i /\ kd <> i /\ kd <> j' /\
    (S k = i /\ (j < i)%nat -> kc = i) /\
    (S k = j /\ (i <= k)%nat -> kc = j') /\
    (~ (S k = i /\ (j < i)%nat) -> ~ (S k = j /\ (i <= k)%nat) -> kc = kd).
Proof.
  intros Hlen HitemsY Hshowny HitemsZ Hshownz.
  apply py_del_nat in HitemsY as [Hi ->].
  unfold ejeYChanged in HitemsZ.
  apply bind_Ok_inv in HitemsZ as (prop2 & Hprop2 & HitemsZ).
  apply py_del_nat in Hprop2 as [_ ->].
  apply py_del_nat in HitemsZ as [Hj ->].
  rewrite lookup_delete_skip in Hshowny.
  rewrite !lookup_delete_skip in Hshownz.
  pose proof (lookup_lt_Some _ _ _ Hshowny) as Hj'.
  pose proof (lookup_lt_Some _ _ _ Hshownz) as Hkd.
  rewrite length_delete in Hj by (apply lookup_lt_is_Some_2; lia).
  set (j' := skip_pos i j) in *.
  set (kd := skip_pos i (skip_pos j k)) in *.
  set (kc := skip_pos j (skip_pos i k)).
  assert (kc < length prop)%nat as Hkc.
  { pose proof (lookup_lt_Some _ _ _ Hshownz) as H.
    unfold kc, kd, skip_pos in *.
    destruct (Nat.leb_spec i k), (Nat.leb_spec j k);
      repeat match goal with
             | |- context [(?a <=? ?b)%nat] => destruct (Nat.leb_spec a b)
             | H : context [(?a <=? ?b)%nat] |- _ =>
                 destruct (Nat.leb_spec a b)
             end; lia. }
  destruct (lookup_lt_is_Some_2 prop i) as [x Hx]; [lia|].
  destruct (lookup_lt_is_Some_2 prop j') as [y Hy]; [lia|].
  destruct (lookup_lt_is_Some_2 prop kc) as [z Hz]; [lia|].
  exists j', kd, kc, x, y, z. split.
  { unfold plot3D, plot3D_index. rewrite !skip_index_pos. fold j' kc.
    rewrite (py_getitem_nat _ _ _ Hx). cbn.
    rewrite (py_getitem_nat _ _ _ Hy). cbn.
    rewrite (py_getitem_nat _ _ _ Hz). reflexivity. }
  repeat apply conj; try assumption;
    unfold j', kd, kc, skip_pos;
    repeat match goal with
           | |- context [(?a <=? ?b)%nat] => destruct (Nat.leb_spec a b)
           end; lia.
Qed.

Lemma plot3D_axes_witness :
  plot3D ["T"; "P"; "rho"; "v"] 2 0 1 = Ok ("rho", "T", "rho") /\
  ejeYChanged ["Temperature"; "Pressure"; "Density"; "Volume"] 2 0
  = Ok ["Pressure"; "Volume"].
Proof.
  split; [|reflexivity].
  destruct (plot3D_axes ["Temperature"; "Pressure"; "Density"; "Volume"]
              ["T"; "P"; "rho"; "v"] 2 0 1
              ["Temperature"; "Pressure"; "Volume"] ["Pressure"; "Volume"]
              "Temperature" "Volume" eq_refl eq_refl eq_refl eq_refl eq_refl)
    as (j' & kd & kc & x & y & z & Hrun & _).
  change (plot3D ["T"; "P"; "rho"; "v"] 2 0 1)
    with (plot3D ["T"; "P"; "rho"; "v"]
            (Z.of_nat 2) (Z.of_nat 0) (Z.of_nat 1)).
  rewrite Hrun. vm_compute in Hrun. symmetry. exact Hrun.
Defined.

(** X3: in an isoproperty table the property varied is the one shown in the
    combo that actualizarUI filled: showIsoproperty takes for Y the key at
    the position of the name shown in the list of the seven properties and
    the quality, for X the key of the property held constant, the two keys
    differ, and the quality is varied only when the temperature or the
    pressure is held constant. *)
Theorem showIsoproperty_varied (i j : nat) (items : list string)
    (name : string) :
  actualizarUI (Z.of_nat i) = Ok items ->
  items !! j = Some name ->
  exists (j' : nat) (X Y : string),
    showIsoproperty_keys (Z.of_nat i) (Z.of_nat j) = Ok (X, Y) /\
    Ui_Isoproperty_keys !! i = Some X /\
    Ui_Isoproperty_keys !! j' = Some Y /\
    (Ui_Isoproperty_propiedades ++ ["Quality"])%list !! j' = Some name /\
    X <> Y /\
    (Y = "x" -> (i <= 1)%nat).
Proof.
  intros Hitems Hname. unfold actualizarUI in Hitems.
  assert (i < 8)%nat as Hi.
  { destruct (Z.of_nat i <=? 1); apply py_del_nat in Hitems as [Hi _];
      cbn in Hi; lia. }
  destruct i as [|[|[|[|[|[|[|[|i]]]]]]]]; try lia;
    vm_compute in Hitems; try discriminate; injection Hitems as <-;
    destruct j as [|[|[|[|[|[|[|[|j]]]]]]]]; try discriminate;
    injection Hname as <-;
    match goal with
    | |- context [showIsoproperty_keys ?a ?b] =>
        let r := eval vm_compute in (showIsoproperty_keys a b) in
        match r with
        | Ok (?X, ?Y) =>
            let p := eval vm_compute in
              (List.find (fun n =>
                           String.eqb (nth n Ui_Isoproperty_keys EmptyString)
                                      Y)
                         (seq 0 8)) in
            match p with
            | Some ?n => exists n, X, Y
            end
        end
    end;
    (split; [vm_compute; reflexivity|]);
    repeat split; try discriminate; try reflexivity; try lia.
Qed.

Lemma showIsoproperty_varied_witness :
  showIsoproperty_keys 1 6 = Ok ("P", "x").
Proof.
  destruct (showIsoproperty_varied 1 6
              ["Temperature"; "Density"; "Volume"; "Enthalpy"; "Entropy";
               "Internal Energy"; "Quality"] "Quality" eq_refl eq_refl)
    as (j' & X & Y & Hrun & _).
  change (showIsoproperty_keys 1 6)
    with (showIsoproperty_keys (Z.of_nat 1) (Z.of_nat 6)).
  rewrite Hrun. vm_compute in Hrun. symmetry. exact Hrun.
Defined.

(** ** The joints of the segments of a line *)

(** Deleting the first item of every segment but the first, from the last
    segment to the second, leaves the other items in place. *)
Lemma del_joints_concat {A} (p : nat) (seg0 : list A)
    (rest : list (list A)) (suffix : list A) :
  (0 < p)%nat -> length seg0 = p ->
  Forall (fun s => length s = p) rest ->
  del_joints (Z.of_nat p) (length rest) (seg0 ++ concat rest ++ suffix)
  = Ok (seg0 ++ concat (map (drop 1) rest) ++ suffix)%list.
Proof.
  intros Hp Hseg0 Hrest. revert suffix.
  induction rest as [|last init IH] using rev_ind; intros suffix.
  - reflexivity.
  - apply Forall_app in Hrest as [Hinit Hlast].
    apply Forall_inv in Hlast.
    rewrite length_app. cbn [length]. rewrite Nat.add_1_r.
    cbn [del_joints].
    destruct last as [|x last]; [cbn in Hlast; lia|].
    assert (length (seg0 ++ concat init) = (p * S (length init))%nat) as Hl.
    { rewrite length_app, Hseg0. clear IH.
      induction Hinit as [|s init Hs _ IHi]; cbn; [lia|].
      rewrite length_app, Hs. lia. }
    assert (py_del (seg0 ++ concat (init ++ [x :: last]) ++ suffix)
                   (Z.of_nat p * Z.of_nat (S (length init)))
            = Ok (seg0 ++ concat init ++ last ++ suffix)%list) as ->.
    { rewrite <- Nat2Z.inj_mul. apply py_del_nat.
      rewrite concat_app. cbn [concat]. rewrite app_nil_r.
      rewrite <- !app_assoc. rewrite (app_assoc seg0).
      split.
      - rewrite length_app, Hl. cbn. lia.
      - rewrite <- Hl. cbn. rewrite delete_middle, <- !app_assoc.
        reflexivity. }
    cbn. rewrite (IH Hinit). rewrite map_app, concat_app. cbn.
    rewrite app_nil_r, <- !app_assoc. reflexivity.
Qed.

Lemma saturation_T_value (Tt Tc : Q) (points : Z) :
  2 <= points ->
  let T := (linspace Tt ((9 # 10) * Tc) points
            ++ drop 1 (linspace ((9 # 10) * Tc) ((99 # 100) * Tc) points)
            ++ drop 1 (linspace ((99 # 100) * Tc) Tc points))%list in
  saturation_T Tt Tc points = Ok T /\
  length T = Z.to_nat (3 * points - 2).
Proof.
  intros Hpoints T. split.
  - unfold saturation_T.
    pose proof (del_joints_concat (Z.to_nat points)
                  (linspace Tt ((9 # 10) * Tc) points)
                  [linspace ((9 # 10) * Tc) ((99 # 100) * Tc) points;
                   linspace ((99 # 100) * Tc) Tc points] []) as H.
    cbn [length concat map] in H. rewrite !app_nil_r in H.
    rewrite Z2Nat.id in H by lia.
    apply H; [lia | apply linspace_length |].
    repeat constructor; apply linspace_length.
  - unfold T. rewrite !length_app, !length_drop, !linspace_length. lia.
Qed.

(** X4: the temperatures of the saturation line are the [points] samples
    from the triple point to 0.9 Tc, followed by the samples from 0.9 Tc to
    0.99 Tc and from 0.99 Tc to Tc without their first one: 3 points - 2
    temperatures, the first being Tt and the last Tc, and each sample
    deleted is equal to the last sample of the segment before it. *)
Theorem saturation_T_joints (Tt Tc : Q) (points : Z) :
  2 <= points ->
  let seg1 := linspace Tt ((9 # 10) * Tc) points in
  let seg2 := linspace ((9 # 10) * Tc) ((99 # 100) * Tc) points in
  let seg3 := linspace ((99 # 100) * Tc) Tc points in
  exists T,
    saturation_T Tt Tc points = Ok T /\
    T = (seg1 ++ drop 1 seg2 ++ drop 1 seg3)%list /\
    length T = Z.to_nat (3 * points - 2) /\
    (forall q, T !! 0%nat = Some q -> (q == Tt)%Q) /\
    (forall q, last T = Some q -> (q == Tc)%Q) /\
    (forall a b, last seg1 = Some a -> head seg2 = Some b -> (a == b)%Q) /\
    (forall a b, last seg2 = Some a -> head seg3 = Some b -> (a == b)%Q).
Proof.
  intros Hpoints seg1 seg2 seg3.
  assert (length seg1 = Z.to_nat points /\ length seg2 = Z.to_nat points
          /\ length seg3 = Z.to_nat points) as (L1 & L2 & L3)
    by (repeat split; apply linspace_length).
  assert (forall start stop a, last (linspace start stop points) = Some a ->
            (a == stop)%Q) as Hlast.
  { intros start stop a Ha. rewrite last_lookup, linspace_length in Ha.
    replace (pred (Z.to_nat points)) with (Z.to_nat points - 1)%nat in Ha
      by lia.
    apply (linspace_last start stop points a Hpoints Ha). }
  assert (forall start stop b, head (linspace start stop points) = Some b ->
            (b == start)%Q) as Hhead.
  { intros start stop b Hb. rewrite head_lookup in Hb.
    apply (linspace_first start stop points b Hpoints Hb). }
  eexists. split.
  { unfold saturation_T. fold seg1 seg2 seg3.
    pose proof (del_joints_concat (Z.to_nat points) seg1 [seg2; seg3] []) as H.
    cbn [length concat map] in H. rewrite !app_nil_r in H.
    rewrite Z2Nat.id in H by lia. apply H; [lia | exact L1 |].
    repeat constructor; assumption. }
  split; [reflexivity|].
  split; [rewrite !length_app, !length_drop, L1, L2, L3; lia|].
  split.
  { intros q Hq. rewrite lookup_app_l in Hq by lia.
    apply (linspace_first _ _ points q Hpoints Hq). }
  split.
  { intros q Hq. rewrite !app_assoc in Hq.
    assert (drop 1 seg3 <> []) as Hne.
    { intros H0. apply (f_equal length) in H0.
      rewrite length_drop, L3 in H0. cbn in H0. lia. }
    rewrite last_app in Hq.
    destruct (last (drop 1 seg3)) as [q'|] eqn:Hq';
      [|apply last_None in Hq'; contradiction].
    injection Hq as <-.
    apply (Hlast ((99 # 100) * Tc)%Q Tc). fold seg3.
    rewrite <- (take_drop 1 seg3), last_app, Hq'. reflexivity. }
  split.
  - intros a b Ha Hb. rewrite (Hlast _ _ _ Ha), (Hhead _ _ _ Hb). reflexivity.
  - intros a b Ha Hb. rewrite (Hlast _ _ _ Ha), (Hhead _ _ _ Hb). reflexivity.
Qed.

Lemma saturation_T_joints_witness :
  exists T, saturation_T 250 600 5 = Ok T /\ length T = 13%nat.
Proof.
  destruct (saturation_T_joints 250 600 5 ltac:(lia))
    as (T & Hrun & _ & Hlen & _).
  exists T. split; [exact Hrun | exact Hlen].
Defined.

(** X5: the temperatures of an isoline are the six segments from Tmin to
    Tmax joined in the same way, 6 points - 5 temperatures; the temperatures
    EditPlot.add keeps for a line of constant quality, the first
    3 points - 2 of them, are the temperatures up to the critical one: the
    list calculatePlot builds for the saturation line, from Tmin. *)
Theorem isoquality_T_saturation (Tmin Tmax Tc : Q) (points : Z) :
  2 <= points ->
  exists T Tx,
    isoline_T Tmin Tmax Tc points = Ok T /\
    length T = Z.to_nat (6 * points - 5) /\
    isoquality_T Tmin Tmax Tc points = Ok Tx /\
    saturation_T Tmin Tc points = Ok Tx /\
    T = (Tx ++ drop 1 (linspace Tc ((101 # 100) * Tc) points)
            ++ drop 1 (linspace ((101 # 100) * Tc) ((11 # 10) * Tc) points)
            ++ drop 1 (linspace ((11 # 10) * Tc) Tmax points))%list.
Proof.
  intros Hpoints.
  destruct (saturation_T_value Tmin Tc points Hpoints) as (Hsat & Hlen).
  match type of Hsat with _ = Ok ?l => set (Tx := l) in * end.
  assert (Tx = (linspace Tmin ((9 # 10) * Tc) points
                ++ drop 1 (linspace ((9 # 10) * Tc) ((99 # 100) * Tc) points)
                ++ drop 1 (linspace ((99 # 100) * Tc) Tc points))%list)
    as HTx by reflexivity.
  clearbody Tx.
  set (s1 := linspace Tmin ((9 # 10) * Tc) points) in *.
  set (s2 := linspace ((9 # 10) * Tc) ((99 # 100) * Tc) points) in *.
  set (s3 := linspace ((99 # 100) * Tc) Tc points) in *.
  set (s4 := linspace Tc ((101 # 100) * Tc) points).
  set (s5 := linspace ((101 # 100) * Tc) ((11 # 10) * Tc) points).
  set (s6 := linspace ((11 # 10) * Tc) Tmax points).
  assert (isoline_T Tmin Tmax Tc points
          = Ok (Tx ++ drop 1 s4 ++ drop 1 s5 ++ drop 1 s6)%list) as HT.
  { unfold isoline_T, isoline_T_segments. fold s1 s2 s3 s4 s5 s6.
    pose proof (del_joints_concat (Z.to_nat points) s1 [s2; s3; s4; s5; s6] [])
      as H.
    cbn [length concat map] in H. rewrite !app_nil_r in H.
    rewrite Z2Nat.id in H by lia. cbn [concat]. rewrite app_nil_r.
    rewrite H; [rewrite HTx, <- !app_assoc; reflexivity | lia | |].
    - apply linspace_length.
    - repeat constructor; apply linspace_length. }
  exists (Tx ++ drop 1 s4 ++ drop 1 s5 ++ drop 1 s6)%list, Tx.
  split; [exact HT|].
  split.
  { rewrite !length_app, !length_drop, Hlen.
    unfold s4, s5, s6. rewrite !linspace_length. lia. }
  split; [|split; [exact Hsat | reflexivity]].
  unfold isoquality_T. rewrite HT. cbn. f_equal.
  unfold py_slice_to.
  replace (0 <=? 3 * points - 2) with true by (symmetry; apply Z.leb_le; lia).
  rewrite <- Hlen. apply take_app_length.
Qed.

Lemma isoquality_T_saturation_witness :
  isoquality_T 200 700 600 5 = saturation_T 200 600 5.
Proof.
  destruct (isoquality_T_saturation 200 700 600 5 ltac:(lia))
    as (T & Tx & _ & _ & Hx & Hs & _).
  rewrite Hx, Hs. reflexivity.
Defined.

(** ** calcPoint: the state returned *)




(** ** calcIsoline *)

Lemma processed_app (l1 l2 : list BarEvent) :
  processed (l1 ++ l2) = (processed l1 + processed l2)%nat.
Proof.
  induction l1 as [|[v|] l1 IH]; cbn; [reflexivity | exact IH |].
  rewrite IH. reflexivity.
Qed.

Lemma bar_value_Some (ini step end_ total : Z) (fluidos vvar : nat) :
  total <> 0 -> vvar <> 0%nat ->
  exists v, bar_value ini step end_ total fluidos vvar = Some v.
Proof.
  intros Ht Hv. unfold bar_value.
  destruct (Z.eqb_spec total 0); [contradiction|].
  destruct (Nat.eqb_spec vvar 0); [contradiction|]. eauto.
Qed.

Section CalcIsolineFacts.

Variable pref : ConfigParser.
Variables (f : FluidObj) (config : Config) (var fix_ : string) (vfix : Q).
Variables (ini step end_ total : Z).

Lemma calcIsoline_loop_T_P (n : nat) (vvar : list Q)
    (rs : list (option State)) (fluidos : list State)
    (log : list BarEvent) :
  not_T_P var || not_T_P fix_ = false ->
  total <> 0 -> n <> 0%nat ->
  Forall2 (fun Ti r =>
             calcPoint pref f config
               (isoline_point var fix_ Ti vfix (PInt 0) (PInt 0)) = Ok r)
          vvar rs ->
  exists log',
    calcIsoline_loop pref f config var fix_ vfix ini step end_ total n vvar
      fluidos (PInt 0) (PInt 0) log
    = Returns ((fluidos ++ omap kept_from_zero rs)%list, (log ++ log')%list) /\
    processed log' = length vvar /\
    length log' = (2 * length vvar)%nat.
Proof.
  intros HTP Htotal Hn Hrs. revert fluidos log.
  induction Hrs as [|Ti r vvar rs Hr _ IH]; intros fluidos log.
  - exists []. cbn. rewrite !app_nil_r. auto.
  - cbn [calcIsoline_loop]. rewrite Hr, HTP.
    set (next := match r with
                 | Some fl =>
                     if negb (status fl =? 0)
                        && (py_ne (st_rho fl) (PInt 0)
                            || py_ne (st_T fl) (PInt 0))
                     then ((fluidos ++ [fl])%list, PInt 0, PInt 0)
                     else (fluidos, PInt 0, PInt 0)
                 | None => (fluidos, PInt 0, PInt 0)
                 end).
    assert (next = ((fluidos ++ match kept_from_zero r with
                                | Some fl => [fl] | None => [] end)%list,
                    PInt 0, PInt 0)) as ->.
    { unfold next, kept_from_zero. destruct r as [fl|];
        [|rewrite app_nil_r; reflexivity].
      change (py_ne (st_rho fl) (PInt 0)) with (negb (Qeq_bool (st_rho fl) 0)).
      change (py_ne (st_T fl) (PInt 0)) with (negb (Qeq_bool (st_T fl) 0)).
      destruct (negb (status fl =? 0)
                && (negb (Qeq_bool (st_rho fl) 0)
                    || negb (Qeq_bool (st_T fl) 0)));
        [reflexivity | rewrite app_nil_r; reflexivity]. }
    destruct (bar_value_Some ini step end_ total
                (length (fluidos ++ match kept_from_zero r with
                                    | Some fl => [fl] | None => [] end)%list)
                n Htotal Hn) as [v ->].
    destruct (IH (fluidos ++ match kept_from_zero r with
                             | Some fl => [fl] | None => [] end)%list
                 (log ++ [BarSetValue v; BarProcessEvents])%list)
      as (log' & Hrun & Hproc & Hlen).
    exists ([BarSetValue v; BarProcessEvents] ++ log')%list.
    split.
    { rewrite Hrun. f_equal. f_equal.
      - change (omap kept_from_zero (r :: rs))
          with (match kept_from_zero r with
                | Some y => y :: omap kept_from_zero rs
                | None => omap kept_from_zero rs
                end).
        destruct (kept_from_zero r); rewrite <- app_assoc; reflexivity.
      - rewrite <- app_assoc. reflexivity. }
    split; [rewrite processed_app, Hproc; reflexivity|].
    rewrite length_app, Hlen. cbn. lia.
Qed.

(** X7: for a line where the property varied and the property held constant
    are the temperature and the pressure, calcIsoline gives every point the
    initial values rho0 = 0 and T0 = 0, and returns, in order, the states
    calcPoint returned whose status is not 0 and whose density or temperature
    is not 0; it sets the progress bar and calls processEvents once for
    each value of the property varied. *)
Theorem calcIsoline_T_P (vvar : list Q) (rs : list (option State)) :
  not_T_P var || not_T_P fix_ = false ->
  total <> 0 ->
  Forall2 (fun Ti r =>
             calcPoint pref f config
               (isoline_point var fix_ Ti vfix (PInt 0) (PInt 0)) = Ok r)
          vvar rs ->
  exists log,
    calcIsoline pref f config var fix_ vfix ini step end_ total vvar
    = Returns (omap kept_from_zero rs, log) /\
    processed log = length vvar /\
    length log = (2 * length vvar)%nat.
Proof.
  intros HTP Htotal Hrs. unfold calcIsoline.
  destruct vvar as [|Ti vvar].
  - inversion Hrs. exists []. auto.
  - apply (calcIsoline_loop_T_P (length (Ti :: vvar)) (Ti :: vvar) rs [] []
             HTP Htotal); [discriminate | exact Hrs].
Qed.

Lemma calcPoint_status (kwargs : gmap string PyVal) (st : State) :
  calcPoint pref f config kwargs = Ok (Some st) ->
  status st = 1 \/ status st = 3.
Proof.
  unfold calcPoint. intros Hrun.
  apply bind_Ok_inv in Hrun as (method & _ & Hrun).
  apply bind_Ok_inv in Hrun as ([kw lim] & _ & Hrun).
  apply bind_Ok_inv in Hrun as (inT & _ & Hrun).
  destruct inT; cbn [negb] in Hrun; [|discriminate].
  apply bind_Ok_inv in Hrun as (inP & _ & Hrun).
  destruct inP; cbn [negb] in Hrun; [|discriminate].
  destruct ((status (f_new f kw) =? 1) || (status (f_new f kw) =? 3))
    eqn:Hstatus; cbn [negb] in Hrun; [|discriminate].
  apply bind_Ok_inv in Hrun as (lim' & _ & Hrun).
  apply bind_Ok_inv in Hrun as (pmin & _ & Hrun).
  destruct (Qltb (st_P (f_new f kw)) (pmin - 1)); [discriminate|].
  apply bind_Ok_inv in Hrun as (pmax & _ & Hrun).
  destruct (Qltb (pmax + 1) (st_P (f_new f kw))); [discriminate|].
  apply bind_Ok_inv in Hrun as (tmin & _ & Hrun).
  destruct (Qltb (st_T (f_new f kw)) tmin); [discriminate|].
  apply bind_Ok_inv in Hrun as (tmax & _ & Hrun).
  destruct (Qltb tmax (st_T (f_new f kw))); [discriminate|].
  injection Hrun as <-.
  apply orb_true_iff in Hstatus as [H|H]; apply Z.eqb_eq in H; auto.
Qed.

Lemma no_repeat_snoc (l : list State) (b : State) :
  no_repeat (l ++ [b]) <->
  no_repeat l /\
  (forall a, last l = Some a ->
     Qeq_bool (st_rho b) (st_rho a) && Qeq_bool (st_T b) (st_T a) = false).
Proof.
  induction l as [|a [|a' l] IH].
  - cbn. split; [intros _; split; [exact I | discriminate] | intros _; exact I].
  - cbn. split.
    + intros [H _]. split; [exact I|]. intros ? [= <-]. exact H.
    + intros [_ H]. split; [apply H; reflexivity | exact I].
  - change (no_repeat ((a :: a' :: l) ++ [b]))
      with ((Qeq_bool (st_rho a') (st_rho a)
             && Qeq_bool (st_T a') (st_T a) = false)
            /\ no_repeat ((a' :: l) ++ [b])).
    change (no_repeat (a :: a' :: l))
      with ((Qeq_bool (st_rho a') (st_rho a)
             && Qeq_bool (st_T a') (st_T a) = false)
            /\ no_repeat (a' :: l)).
    change (last (a :: a' :: l)) with (last (a' :: l)).
    rewrite IH. tauto.
Qed.

Lemma calcIsoline_loop_kept (n : nat) (vvar : list Q)
    (acc fluidos : list State) (rhoo To : PyVal) (log log' : list BarEvent) :
  calcIsoline_loop pref f config var fix_ vfix ini step end_ total n vvar
    acc rhoo To log = Returns (fluidos, log') ->
  exists new,
    fluidos = (acc ++ new)%list /\
    (length new <= length vvar)%nat /\
    Forall (fun st => status st = 1 \/ status st = 3) new /\
    processed log' = (processed log + length vvar)%nat /\
    (not_T_P var || not_T_P fix_ = true ->
     (forall a, last acc = Some a ->
        rhoo = PFloat (st_rho a) /\ To = PFloat (st_T a)) ->
     no_repeat acc -> no_repeat fluidos).
Proof.
  revert acc rhoo To log.
  induction vvar as [|Ti vvar IH]; intros acc rhoo To log Hrun.
  - injection Hrun as <- <-. exists []. rewrite app_nil_r.
    split; [reflexivity|]. split; [cbn; lia|]. split; [constructor|].
    split; [cbn; lia | auto].
  - cbn [calcIsoline_loop] in Hrun.
    destruct (calcPoint pref f config
                (isoline_point var fix_ Ti vfix rhoo To)) as [r|e] eqn:Hr;
      [|discriminate].
    assert (exists acc1 rhoo1 To1 new1,
              match r with
              | Some fl =>
                  if negb (status fl =? 0)
                     && (py_ne (st_rho fl) rhoo || py_ne (st_T fl) To)
                  then
                    if not_T_P var || not_T_P fix_
                    then ((acc ++ [fl])%list,
                          PFloat (st_rho fl), PFloat (st_T fl))
                    else ((acc ++ [fl])%list, rhoo, To)
                  else (acc, rhoo, To)
              | None => (acc, rhoo, To)
              end = (acc1, rhoo1, To1) /\
              acc1 = (acc ++ new1)%list /\ (length new1 <= 1)%nat /\
              Forall (fun st => status st = 1 \/ status st = 3) new1 /\
              (not_T_P var || not_T_P fix_ = true ->
               (forall a, last acc = Some a ->
                  rhoo = PFloat (st_rho a) /\ To = PFloat (st_T a)) ->
               (forall a, last acc1 = Some a ->
                  rhoo1 = PFloat (st_rho a) /\ To1 = PFloat (st_T a)) /\
               (no_repeat acc -> no_repeat acc1)))
      as (acc1 & rhoo1 & To1 & new1 & Hnext & Hacc1 & Hlen1 & Hst1 & Hinv1).
    { destruct r as [fl|].
      2:{ exists acc, rhoo, To, []. rewrite app_nil_r.
          split; [reflexivity|]. split; [reflexivity|].
          split; [cbn; lia|]. split; [constructor | tauto]. }
      destruct (negb (status fl =? 0)
                && (py_ne (st_rho fl) rhoo || py_ne (st_T fl) To)) eqn:Hkeep.
      2:{ exists acc, rhoo, To, []. rewrite app_nil_r.
          split; [reflexivity|]. split; [reflexivity|].
          split; [cbn; lia|]. split; [constructor | tauto]. }
      pose proof (calcPoint_status _ _ Hr) as Hst.
      destruct (not_T_P var || not_T_P fix_) eqn:HTP.
      - exists (acc ++ [fl])%list, (PFloat (st_rho fl)), (PFloat (st_T fl)),
          [fl].
        split; [reflexivity|]. split; [reflexivity|].
        split; [cbn; lia|]. split; [constructor; [exact Hst | constructor]|].
        intros _ Hlast. split.
        + intros a Ha. rewrite last_snoc in Ha. injection Ha as <-. auto.
        + intros Hnr. apply no_repeat_snoc. split; [exact Hnr|].
          intros a Ha. destruct (Hlast a Ha) as [-> ->].
          apply andb_prop in Hkeep as [_ Hkeep].
          unfold py_ne in Hkeep. cbn in Hkeep.
          rewrite <- negb_andb in Hkeep. apply negb_true_iff, Hkeep.
      - exists (acc ++ [fl])%list, rhoo, To, [fl].
        split; [reflexivity|]. split; [reflexivity|].
        split; [cbn; lia|]. split; [constructor; [exact Hst | constructor]|].
        discriminate. }
    rewrite Hnext in Hrun.
    destruct (bar_value ini step end_ total (length acc1) n) as [v|];
      [|discriminate].
    apply IH in Hrun as (new & -> & Hlen & Hst & Hproc & Hinv).
    exists (new1 ++ new)%list.
    split; [rewrite Hacc1, <- app_assoc; reflexivity|].
    split; [rewrite length_app; cbn; lia|].
    split; [apply Forall_app; split; assumption|].
    split; [rewrite Hproc, processed_app; cbn; lia|].
    intros HTP Hlast Hnr. destruct (Hinv1 HTP Hlast) as [Hlast1 Hnr1].
    apply Hinv; auto.
Qed.

(** X8: the states calcIsoline returns are at most as many as the values of
    the property varied and have the status 1 or 3, and processEvents was
    called once for each value; when the property varied or the property
    held constant is not the temperature or the pressure, two states that
    follow each other in the line differ in density or in temperature. *)
Theorem calcIsoline_kept (vvar : list Q) (fluidos : list State)
    (log : list BarEvent) :
  calcIsoline pref f config var fix_ vfix ini step end_ total vvar
  = Returns (fluidos, log) ->
  (length fluidos <= length vvar)%nat /\
  Forall (fun st => status st = 1 \/ status st = 3) fluidos /\
  processed log = length vvar /\
  (not_T_P var || not_T_P fix_ = true -> no_repeat fluidos).
Proof.
  unfold calcIsoline. intros Hrun.
  apply calcIsoline_loop_kept in Hrun as (new & -> & Hlen & Hst & Hproc & Hnr).
  repeat split; try assumption.
  intros HTP. apply Hnr; [exact HTP | discriminate | exact I].
Qed.

Lemma isoline_point_given (k : string) (Ti : Q) (rhoo To : PyVal) :
  (var = k \/ fix_ = k) -> (k = "T" \/ k = "P") ->
  is_Some (isoline_point var fix_ Ti vfix rhoo To !! k).
Proof.
  intros Hk HTP. unfold isoline_point.
  rewrite !lookup_insert_ne by (destruct HTP as [-> | ->]; discriminate).
  destruct (decide (fix_ = k)) as [->|Hne].
  - rewrite lookup_insert_eq. eauto.
  - rewrite lookup_insert_ne by exact Hne.
    destruct Hk as [->|]; [|contradiction].
    rewrite lookup_insert_eq. eauto.
Qed.

Lemma calcIsoline_total_0 (Ti : Q) (vvar : list Q) :
  total = 0 ->
  is_Ok (calcPoint pref f config
           (isoline_point var fix_ Ti vfix (PInt 0) (PInt 0))) ->
  calcIsoline pref f config var fix_ vfix ini step end_ total (Ti :: vvar)
  = Raises ZeroDivisionError.
Proof.
  intros -> [r Hr]. unfold calcIsoline. cbn [calcIsoline_loop].
  rewrite Hr.
  destruct (match r with
            | Some fl =>
                if negb (status fl =? 0)
                   && (py_ne (st_rho fl) (PInt 0)
                       || py_ne (st_T fl) (PInt 0))
                then
                  if not_T_P var || not_T_P fix_
                  then (([] ++ [fl])%list,
                        PFloat (st_rho fl), PFloat (st_T fl))
                  else (([] ++ [fl])%list, PInt 0, PInt 0)
                else ([], PInt 0, PInt 0)
            | None => ([], PInt 0, PInt 0)
            end) as [[acc1 rhoo1] To1].
  reflexivity.
Qed.

(** X9: calcIsoline raises when there is a value of the property varied
    and the method is REFPROP, for a line where the temperature or the
    pressure is varied or held constant: calcPoint raises NameError at the
    first point.  It raises ZeroDivisionError when the number of lines
    [total] is 0 and calcPoint returns for the first point. *)
Theorem calcIsoline_raises (Ti : Q) (vvar : list Q) :
  (getMethod pref = Ok "REFPROP" ->
   (var = "T" \/ var = "P" \/ fix_ = "T" \/ fix_ = "P") ->
   calcIsoline pref f config var fix_ vfix ini step end_ total (Ti :: vvar)
   = Raises (Raised NameError)) /\
  (total = 0 ->
   is_Ok (calcPoint pref f config
            (isoline_point var fix_ Ti vfix (PInt 0) (PInt 0))) ->
   calcIsoline pref f config var fix_ vfix ini step end_ total (Ti :: vvar)
   = Raises ZeroDivisionError).
Proof.
  split.
  - intros Hmethod Hgiven. unfold calcIsoline. cbn [calcIsoline_loop].
    destruct (calcPoint_refprop pref f config
                (isoline_point var fix_ Ti vfix (PInt 0) (PInt 0)) Hmethod)
      as [-> | (_ & HT & HP & _)]; [reflexivity|].
    exfalso.
    destruct Hgiven as [H | [H | [H | H]]].
    + destruct (isoline_point_given "T" Ti (PInt 0) (PInt 0)) as [? Hs];
        auto. congruence.
    + destruct (isoline_point_given "P" Ti (PInt 0) (PInt 0)) as [? Hs];
        auto. congruence.
    + destruct (isoline_point_given "T" Ti (PInt 0) (PInt 0)) as [? Hs];
        auto. congruence.
    + destruct (isoline_point_given "P" Ti (PInt 0) (PInt 0)) as [? Hs];
        auto. congruence.
  - apply calcIsoline_total_0.
Qed.

End CalcIsolineFacts.

Lemma calcIsoline_T_P_witness :
  let st := sample_state
              (<["thermal" := PInt 0]> (<["visco" := PInt 0]>
                 (<["eq" := PInt 0]> ∅))
               ∪ isoline_point "T" "P" 300 300000 (PInt 0) (PInt 0)) in
  exists log,
    calcIsoline pref_meos sample_fluid sample_conf "T" "P" 300000 0 0 100 1
      [300%Q; 300%Q]
    = Returns ([st; st], log) /\
    processed log = 2%nat /\ length log = 4%nat.
Proof.
  intros st.
  apply (calcIsoline_T_P pref_meos sample_fluid sample_conf "T" "P" 300000
           0 0 100 1 [300%Q; 300%Q] [Some st; Some st]);
    [reflexivity | lia |].
  constructor; [reflexivity|]. constructor; [reflexivity | constructor].
Defined.

Lemma calcIsoline_kept_witness :
  let run :=
    calcIsoline pref_meos sample_fluid sample_conf "T" "rho" 1000 0 0 100 1
      [300%Q; 300%Q; 310%Q] in
  let fluidos := match run with Returns (fl, _) => fl | Raises _ => [] end in
  let log := match run with Returns (_, log) => log | Raises _ => [] end in
  run = Returns (fluidos, log) /\
  map st_T fluidos = [300%Q; 310%Q] /\
  no_repeat fluidos.
Proof.
  intros run fluidos log.
  split; [reflexivity|]. split; [reflexivity|].
  pose proof (calcIsoline_kept pref_meos sample_fluid sample_conf "T" "rho"
                1000 0 0 100 1 [300%Q; 300%Q; 310%Q] fluidos log eq_refl)
    as (_ & _ & _ & Hnr).
  apply Hnr. reflexivity.
Defined.

Lemma calcIsoline_raises_witness :
  getMethod pref_refprop = Ok "REFPROP" /\
  calcIsoline pref_refprop sample_fluid sample_conf "T" "rho" 1000 0 0 100 1
    [300%Q; 310%Q]
  = Raises (Raised NameError) /\
  is_Ok (calcPoint pref_meos sample_fluid sample_conf
           (isoline_point "T" "rho" 300 1000 (PInt 0) (PInt 0))) /\
  calcIsoline pref_meos sample_fluid sample_conf "T" "rho" 1000 0 0 100 0
    [300%Q; 310%Q]
  = Raises ZeroDivisionError.
Proof.
  split; [reflexivity|]. split.
  - pose proof (calcIsoline_raises pref_refprop sample_fluid sample_conf
                  "T" "rho" 1000 0 0 100 1 300 [310%Q]) as [H _].
    apply H; [reflexivity | left; reflexivity].
  - assert (Hok : is_Ok (calcPoint pref_meos sample_fluid sample_conf
                     (isoline_point "T" "rho" 300 1000 (PInt 0) (PInt 0))))
      by (eexists; reflexivity).
    split; [exact Hok|].
    pose proof (calcIsoline_raises pref_meos sample_fluid sample_conf
                  "T" "rho" 1000 0 0 100 0 300 [310%Q]) as [_ H].
    apply H; [reflexivity | exact Hok].
Defined.

(** ** createTabla and the function _getData of the module *)

Section TablesFacts.

Variable propertiesPhase : list string.

Lemma length_columns_of {A} (phase : bool) (key : string) (x y z : A)
    (x' y' z' : string) :
  length (columns_of propertiesPhase phase key x y z)
  = length (columns_of propertiesPhase phase key x' y' z').
Proof.
  unfold columns_of.
  destruct (phase && bool_decide (key ∈ propertiesPhase)); reflexivity.
Qed.

Lemma column_keys_cons (phase : bool) (key : string) (keys : list string) :
  column_keys propertiesPhase phase (key :: keys)
  = (columns_of propertiesPhase phase key key EmptyString EmptyString
     ++ column_keys propertiesPhase phase keys)%list.
Proof. reflexivity. Qed.

Lemma _getData_loop_length (fluid : PhaseFluid) (phase : bool)
    (unit : option (list string)) (i : Z) (keys : list string)
    (fila : list PyVal) :
  _getData_loop propertiesPhase fluid phase unit i keys = Ok fila ->
  length fila
  = length (column_keys propertiesPhase phase
              (filter (fun key => key <> EmptyString) keys)).
Proof.
  revert i fila. induction keys as [|key keys IH]; intros i fila Hrun.
  - injection Hrun as <-. reflexivity.
  - cbn [_getData_loop] in Hrun.
    destruct (String.eqb_spec key EmptyString) as [->|Hne].
    + rewrite filter_cons_False by (intros Hk; apply Hk; reflexivity).
      eapply IH, Hrun.
    + rewrite filter_cons_True by exact Hne.
      apply bind_Ok_inv in Hrun as (p & _ & Hrun).
      apply bind_Ok_inv in Hrun as (txt & _ & Hrun).
      apply bind_Ok_inv in Hrun as (phases & Hphases & Hrun).
      apply bind_Ok_inv in Hrun as (rest & Hrest & Hrun).
      injection Hrun as <-. apply IH in Hrest.
      rewrite column_keys_cons. cbn [length].
      rewrite !length_app, Hrest. unfold columns_of.
      destruct (phase && bool_decide (key ∈ propertiesPhase)).
      * apply bind_Ok_inv in Hphases as (pl & _ & Hphases).
        apply bind_Ok_inv in Hphases as (liquid & _ & Hphases).
        apply bind_Ok_inv in Hphases as (pg & _ & Hphases).
        apply bind_Ok_inv in Hphases as (gas & _ & Hphases).
        injection Hphases as <-. reflexivity.
      * injection Hphases as <-. reflexivity.
Qed.

Lemma filter_column_keys (phase : bool) (keys : list string) :
  filter (fun key => key <> EmptyString)
    (column_keys propertiesPhase phase keys)
  = filter (fun key => key <> EmptyString) keys.
Proof.
  induction keys as [|key keys IH]; [reflexivity|].
  rewrite column_keys_cons, filter_app, IH. unfold columns_of.
  destruct (phase && bool_decide (key ∈ propertiesPhase)).
  - destruct (decide (key <> EmptyString)) as [Hne|He].
    + rewrite !(filter_cons_True _ key) by exact Hne.
      rewrite !filter_cons_False by (intros Hk; apply Hk; reflexivity).
      reflexivity.
    + rewrite !(filter_cons_False _ key) by exact He.
      rewrite !filter_cons_False by (intros Hk; apply Hk; reflexivity).
      reflexivity.
  - destruct (decide (key <> EmptyString)) as [Hne|He].
    + rewrite !(filter_cons_True _ key) by exact Hne. reflexivity.
    + rewrite !(filter_cons_False _ key) by exact He. reflexivity.
Qed.

Lemma filter_nonempty (keys : list string) :
  Forall (fun key => key <> EmptyString) keys ->
  filter (fun key => key <> EmptyString) keys = keys.
Proof.
  induction 1 as [|key keys Hkey _ IH]; [reflexivity|].
  rewrite filter_cons_True by exact Hkey. rewrite IH. reflexivity.
Qed.

(** X10: a row of the function _getData has one value for each key that is
    not empty, and two more for each such key that has values for the
    phases when [phase] is true.  So for keys none of which is empty the
    row has as many values as the table of createTabla has columns, be it
    computed from these keys or from the keys of the columns, where the
    columns of the phases have the empty key. *)
Theorem _getData_fila_length (fluid : PhaseFluid) (phase : bool)
    (unit : option (list string)) (keys : list string) (fila : list PyVal) :
  Forall (fun key => key <> EmptyString) keys ->
  (_getData_fila propertiesPhase fluid keys phase unit = Ok fila ->
   length fila = length (column_keys propertiesPhase phase keys)) /\
  (_getData_fila propertiesPhase fluid
     (column_keys propertiesPhase phase keys) phase unit = Ok fila ->
   length fila = length (column_keys propertiesPhase phase keys)).
Proof.
  intros Hkeys. unfold _getData_fila. split; intros Hrun.
  - apply _getData_loop_length in Hrun.
    rewrite filter_nonempty in Hrun by exact Hkeys. exact Hrun.
  - apply _getData_loop_length in Hrun.
    rewrite filter_column_keys, filter_nonempty in Hrun by exact Hkeys.
    exact Hrun.
Qed.

Context {W : Type} `{TablaBaseLaws W}.
Variable properties : list Property.
Variable eval : string -> result PyVal.
Variable config_get : string -> string -> result PyVal.
Variable config : ConfigParser.
Variable unit_text : Unit -> string.
Variable linesep : string.
Variable translate : string -> string.
Variable representacion : PyVal -> list (string * PyVal) -> string.

Lemma add_suffix_spec (pre : list string) (units : list Unit)
    (ps : list string) :
  (length units <= length ps)%nat ->
  add_suffix unit_text linesep (length pre) units (pre ++ ps)
  = Ok (pre ++ zip_with (with_suffix unit_text linesep) ps units
        ++ drop (length units) ps)%list.
Proof.
  revert pre ps. induction units as [|unit units IH]; intros pre ps Hlen.
  - cbn. rewrite zip_with_nil_r. reflexivity.
  - destruct ps as [|p ps]; [cbn in Hlen; lia|].
    cbn [add_suffix].
    rewrite lookup_app_r, Nat.sub_diag by lia. cbn [lookup list_lookup].
    rewrite insert_app_r_alt, Nat.sub_diag by lia.
    cbn [insert list_insert].
    replace (pre ++ with_suffix unit_text linesep p unit :: ps)%list
      with ((pre ++ [with_suffix unit_text linesep p unit]) ++ ps)%list
      by (rewrite <- app_assoc; reflexivity).
    replace (S (length pre))
      with (length (pre ++ [with_suffix unit_text linesep p unit]))
      by (rewrite length_app; cbn; lia).
    rewrite IH by (cbn in Hlen; lia).
    rewrite <- app_assoc. reflexivity.
Qed.

Lemma snoc_of_length {A} (n : nat) (l : list A) :
  length l = S n -> exists l' a, l = (l' ++ [a])%list /\ length l' = n.
Proof.
  intros Hlen. destruct (decide (l = [])) as [->|Hne]; [discriminate|].
  destruct (exists_last Hne) as (l' & a & ->).
  exists l', a. split; [reflexivity|].
  rewrite length_app in Hlen. cbn in Hlen. lia.
Qed.

Lemma take_drop_middle_app {A} (n : nat) (l : list A) (a : A)
    (mid tl : list A) :
  length l = n ->
  (take n ((l ++ [a]) ++ tl) ++ mid ++ drop (S n) ((l ++ [a]) ++ tl))%list
  = (l ++ mid ++ tl)%list.
Proof.
  intros <-. rewrite <- (app_assoc l [a] tl).
  rewrite take_app_length.
  replace (S (length l)) with (length l + 1)%nat by lia.
  rewrite <- drop_drop, drop_app_length. reflexivity.
Qed.

Lemma phase_columns_spec (ks : list string) :
  forall (ps : list string) (us : list Unit) (kt pt : list string)
         (ut : list Unit),
  length ps = length ks -> length us = length ks ->
  phase_columns propertiesPhase linesep translate (length ks)
    (ks ++ kt) (ps ++ pt) (us ++ ut)
  = Ok ((mjoin (zip_with (fun key p =>
                   columns_of propertiesPhase true key p
                     (translate "Liquid" ++ linesep ++ p)%string
                     (translate "Vapour" ++ linesep ++ p)%string) ks ps)
         ++ pt)%list,
        (column_units propertiesPhase true ks us ++ ut)%list).
Proof.
  induction ks as [|k ks IH] using rev_ind; intros ps us kt pt ut Hps Hus.
  - destruct ps; [|discriminate]. destruct us; [|discriminate]. reflexivity.
  - rewrite length_app in Hps, Hus. cbn in Hps, Hus.
    rewrite Nat.add_1_r in Hps, Hus.
    destruct (snoc_of_length _ _ Hps) as (ps' & p & -> & Hps').
    destruct (snoc_of_length _ _ Hus) as (us' & u & -> & Hus').
    rewrite length_app. cbn [length]. rewrite Nat.add_1_r.
    assert (py_getitem ((ks ++ [k]) ++ kt) (Z.of_nat (length ks)) = Ok k)
      as Hgetk
      by (apply py_getitem_nat; rewrite <- app_assoc;
          apply list_lookup_middle; reflexivity).
    assert (py_getitem ((ps' ++ [p]) ++ pt) (Z.of_nat (length ks)) = Ok p)
      as Hgetp
      by (apply py_getitem_nat; rewrite <- app_assoc;
          apply list_lookup_middle; congruence).
    assert (py_getitem ((us' ++ [u]) ++ ut) (Z.of_nat (length ks)) = Ok u)
      as Hgetu
      by (apply py_getitem_nat; rewrite <- app_assoc;
          apply list_lookup_middle; congruence).
    cbn [phase_columns]. rewrite (bind_Ok _ _ _ Hgetk).
    unfold column_units.
    rewrite !zip_with_app by congruence.
    rewrite !join_app.
    change (mjoin (zip_with ?f [k] [?x])) with (f k x ++ [])%list.
    rewrite !app_nil_r.
    unfold columns_of. cbn [andb].
    destruct (bool_decide (k ∈ propertiesPhase)) eqn:Hk.
    + rewrite (bind_Ok _ _ _ Hgetp), (bind_Ok _ _ _ Hgetu).
      rewrite (take_drop_middle_app (length ks) ps' p _ pt Hps').
      rewrite (take_drop_middle_app (length ks) us' u _ ut Hus').
      rewrite <- !(app_assoc ks [k] kt).
      rewrite IH by assumption.
      unfold column_units, columns_of. cbn [andb].
      rewrite <- !app_assoc. reflexivity.
    + rewrite <- !(app_assoc ks [k] kt), <- !(app_assoc ps' [p] pt),
        <- !(app_assoc us' [u] ut).
      rewrite IH by assumption.
      unfold column_units, columns_of. cbn [andb].
      rewrite <- !app_assoc. reflexivity.
Qed.

Lemma column_keys_snoc (phase : bool) (keys : list string) (key : string) :
  column_keys propertiesPhase phase (keys ++ [key])
  = (column_keys propertiesPhase phase keys
     ++ columns_of propertiesPhase phase key key EmptyString EmptyString)%list.
Proof.
  unfold column_keys. rewrite map_app, join_app. cbn [map mjoin list_join].
  rewrite app_nil_r. reflexivity.
Qed.

Lemma expand_keys_spec (ks : list string) :
  forall kt : list string,
  expand_keys propertiesPhase (length ks) (ks ++ kt)
  = Ok (column_keys propertiesPhase true ks ++ kt)%list.
Proof.
  induction ks as [|k ks IH] using rev_ind; intros kt; [reflexivity|].
  assert (py_getitem ((ks ++ [k]) ++ kt) (Z.of_nat (length ks)) = Ok k)
    as Hgetk
    by (apply py_getitem_nat; rewrite <- app_assoc;
        apply list_lookup_middle; reflexivity).
  rewrite length_app. cbn [length]. rewrite Nat.add_1_r.
  cbn [expand_keys]. rewrite (bind_Ok _ _ _ Hgetk).
  rewrite column_keys_snoc. unfold columns_of. cbn [andb].
  destruct (bool_decide (k ∈ propertiesPhase)).
  - rewrite (take_drop_middle_app (length ks) ks k _ kt eq_refl).
    rewrite IH, <- !app_assoc. reflexivity.
  - rewrite <- !app_assoc. apply IH.
Qed.

Lemma column_input_spec (phase : bool) (keys : list string) :
  getboolean config "MEoS" "phase" = Ok phase ->
  column_input propertiesPhase config keys
  = Ok (map (fun key => negb (bool_decide (key ∈ input_keys)))
          (column_keys propertiesPhase phase keys)).
Proof.
  intros Hphase. induction keys as [|key keys IH]; [reflexivity|].
  cbn [column_input]. rewrite (bind_Ok _ _ _ Hphase), (bind_Ok _ _ _ IH).
  rewrite column_keys_cons, map_app. unfold columns_of.
  destruct (phase && bool_decide (key ∈ propertiesPhase)); reflexivity.
Qed.

Lemma columns_false {A B} (f : string -> A -> B) (keys : list string)
    (xs : list A) (g : string -> A -> list B) :
  (forall key x, g key x = [f key x]) ->
  mjoin (zip_with g keys xs) = zip_with f keys xs.
Proof.
  intros Hg. revert xs. induction keys as [|key keys IH]; intros [|x xs];
    try reflexivity.
  cbn [zip_with]. change (mjoin (?l :: ?ls)) with (l ++ mjoin ls)%list.
  rewrite IH, Hg. reflexivity.
Qed.

Lemma zip_with_snd {A B} (keys : list A) (xs : list B) :
  length xs = length keys -> zip_with (fun _ x => x) keys xs = xs.
Proof.
  revert xs. induction keys as [|key keys IH]; intros [|x xs] Hlen;
    try discriminate; [reflexivity|].
  cbn. rewrite IH by (cbn in Hlen; lia). reflexivity.
Qed.

Lemma length_columns {A} (phase : bool) (keys : list string) (xs : list A)
    (f g h : string -> A -> A) :
  length xs = length keys ->
  length (mjoin (zip_with (fun key x =>
            columns_of propertiesPhase phase key (f key x) (g key x)
              (h key x)) keys xs))
  = length (column_keys propertiesPhase phase keys).
Proof.
  revert xs. induction keys as [|key keys IH]; intros [|x xs] Hlen;
    try discriminate; [reflexivity|].
  cbn [zip_with]. change (mjoin (?l :: ?ls)) with (l ++ mjoin ls)%list.
  rewrite column_keys_cons, !length_app, IH by (cbn in Hlen; lia).
  f_equal. unfold columns_of.
  destruct (phase && bool_decide (key ∈ propertiesPhase)); reflexivity.
Qed.

Lemma createTabla_columns_ok (phase : bool) (ps ks : list string)
    (us : list Unit) :
  length ps = length ks -> length us = length ks ->
  getboolean config "MEoS" "phase" = Ok phase ->
  createTabla_columns propertiesPhase config unit_text linesep translate
    ps ks us
  = Ok (column_titles propertiesPhase unit_text linesep translate phase
          ks ps us,
        column_units propertiesPhase phase ks us).
Proof.
  intros Hps Hus Hphase. unfold createTabla_columns.
  pose proof (add_suffix_spec [] us ps) as Hsuffix.
  cbn [length app] in Hsuffix. rewrite Hsuffix by lia. clear Hsuffix.
  rewrite drop_ge, app_nil_r by lia.
  cbn [mbind result_bind]. rewrite (bind_Ok _ _ _ Hphase).
  set (ps' := zip_with (with_suffix unit_text linesep) ps us).
  assert (length ps' = length ks) as Hps'.
  { unfold ps'. rewrite length_zip_with. lia. }
  unfold column_titles. fold ps'.
  destruct phase.
  - rewrite Hps'.
    pose proof (phase_columns_spec ks ps' us [] [] [] Hps' Hus) as Hrun.
    rewrite !app_nil_r in Hrun. exact Hrun.
  - unfold column_units.
    rewrite (columns_false (fun _ p => p)) by reflexivity.
    rewrite (columns_false (fun _ u => u)) by reflexivity.
    rewrite !zip_with_snd by assumption. reflexivity.
Qed.

Lemma get_propiedades_loop_lengths (pairs : list (PyVal * PyVal))
    (ps ks : list string) (us : list Unit) :
  get_propiedades_loop properties pairs = Ok (ps, ks, us) ->
  length ps = length ks /\ length us = length ks.
Proof.
  intros Hrun. apply get_propiedades_loop_spec in Hrun
    as (ts & _ & -> & -> & ->).
  rewrite !length_map. auto.
Qed.

Lemma get_propiedades_lengths (ps ks : list string) (us : list Unit) :
  get_propiedades properties eval config_get = Ok (ps, ks, us) ->
  length ps = length ks /\ length us = length ks.
Proof.
  unfold get_propiedades. intros Hrun.
  apply bind_Ok_inv in Hrun as (? & _ & Hrun).
  apply bind_Ok_inv in Hrun as (? & _ & Hrun).
  apply bind_Ok_inv in Hrun as (? & _ & Hrun).
  apply bind_Ok_inv in Hrun as (? & _ & Hrun).
  apply bind_Ok_inv in Hrun as (? & _ & Hrun).
  apply bind_Ok_inv in Hrun as (? & _ & Hrun).
  eapply get_propiedades_loop_lengths, Hrun.
Qed.

Lemma column_units_elem (phase : bool) (ks : list string) (us : list Unit)
    (u : Unit) :
  u ∈ column_units propertiesPhase phase ks us -> u ∈ us.
Proof.
  unfold column_units. revert us.
  induction ks as [|k ks IH]; intros [|u' us] Hin;
    try (cbn in Hin; apply elem_of_nil in Hin; contradiction).
  cbn [zip_with] in Hin.
  change (mjoin (?l :: ?ls)) with (l ++ mjoin ls)%list in Hin.
  apply elem_of_app in Hin as [Hin | Hin].
  - unfold columns_of in Hin.
    destruct (phase && bool_decide (k ∈ propertiesPhase)).
    + repeat (apply elem_of_cons in Hin as [-> | Hin]; [left|]).
      apply elem_of_nil in Hin. contradiction.
    + apply elem_of_cons in Hin as [-> | Hin]; [left|].
      apply elem_of_nil in Hin. contradiction.
  - right. apply IH, Hin.
Qed.

(** The constructor of [TablaMEoS] returns when the configuration of the
    main window has the unit of each magnitude. *)
Lemma TablaMEoS_init_ok (columnas : Z) (kw : Kwargs) (units : list Unit) :
  kw_units kw = Some units -> kw_orderUnit kw = None ->
  kw_format kw = None ->
  Forall (fun unit =>
            unit = Dimensionless \/
            exists conf i, kw_parent kw = Some conf /\
              getint conf "Units" (unit_name unit) = Ok i) units ->
  exists orderUnit,
    TablaMEoS_init columnas kw
    = Ok {| tm_widget := Tabla_init columnas kw;
            tm_keys := kw_keys kw;
            tm_units := units;
            tm_orderUnit := PList orderUnit;
            tm_format :=
              PList (replicate (Z.to_nat columnas)
                       (PDict [("format", PInt 1); ("decimales", PInt 6);
                               ("signo", PBool false)]));
            tm_data := PList [];
            tm_Point := None |} /\
    length orderUnit = length units.
Proof.
  intros Hunits Horder Hformat Hknown. unfold TablaMEoS_init.
  rewrite Hunits, Horder, Hformat. cbn [mbind result_bind].
  destruct (mapM_is_Ok
              (fun unit =>
                 if decide (unit = Dimensionless) then Ok (PInt 0)
                 else match kw_parent kw with
                      | Some conf =>
                          i ← getint conf "Units" (unit_name unit);
                          Ok (PInt i)
                      | None => Raise AttributeError
                      end) units) as (l & Hl & Hlen).
  { eapply Forall_impl; [exact Hknown|]. intros unit Hunit. cbn beta.
    destruct (decide (unit = Dimensionless)); [eexists; reflexivity|].
    destruct Hunit as [? | (conf & i & -> & ->)]; [contradiction|].
    eexists; reflexivity. }
  exists l. rewrite Hl. split; [reflexivity | exact Hlen].
Qed.

Lemma column_keys_false (keys : list string) :
  column_keys propertiesPhase false keys = keys.
Proof.
  induction keys as [|key keys IH]; [reflexivity|].
  rewrite column_keys_cons, IH. reflexivity.
Qed.

Lemma header_of_init (n : Z) (kw : Kwargs) (titles : list string)
    (s : string) (c : nat) (text : string) :
  kw_horizontalHeader kw = Some (PList (map PStr titles)) ->
  n = Z.of_nat (length titles) ->
  titles !! c = Some text ->
  horizontalHeaderItem (setWindowTitle s (Tabla_init n kw)) (Z.of_nat c)
  = Some text.
Proof.
  intros Hkw -> Hc.
  destruct (title_same s (Tabla_init (Z.of_nat (length titles)) kw))
    as (_ & _ & _ & ->).
  apply (init_header _ kw (map PStr titles)); [exact Hkw | |].
  - rewrite list_lookup_fmap, Hc. reflexivity.
  - apply lookup_lt_Some in Hc. lia.
Qed.

(** X11: createTabla without fluids returns an editable table with a
    column for each property selected, and two more, with an empty key,
    for a property with values for the phases when the phases are shown.
    Titles, units, keys and read-only flags are one for each column, and a
    column can be edited exactly when its key is one of P, T, x, rho, v, h
    and s. *)
Theorem createTabla_empty (title : string)
    (fluidos : option (list PhaseFluid)) (parent : option ConfigParser)
    (ps ks : list string) (us : list Unit) (phase : bool) :
  get_propiedades properties eval config_get = Ok (ps, ks, us) ->
  getboolean config "MEoS" "phase" = Ok phase ->
  fluidos = None \/ fluidos = Some [] ->
  Forall (fun unit =>
            unit = Dimensionless \/
            exists conf i, parent = Some conf /\
              getint conf "Units" (unit_name unit) = Ok i) us ->
  exists tabla : TablaMEoS W,
    createTabla propertiesPhase properties eval config_get config unit_text
      linesep translate representacion title fluidos parent = Ok tabla /\
    let keys := column_keys propertiesPhase phase ks in
    let titles := column_titles propertiesPhase unit_text linesep translate
                    phase ks ps us in
    tm_keys tabla = Some (PList (map PStr keys)) /\
    tm_units tabla = column_units propertiesPhase phase ks us /\
    tm_data tabla = PList [] /\
    length titles = length keys /\
    length (tm_units tabla) = length keys /\
    columnCount (tm_widget tabla) = Z.of_nat (length keys) /\
    readOnly (tm_widget tabla) = false /\
    columnReadOnly (tm_widget tabla)
    = PList (map (fun key => PBool (negb (bool_decide (key ∈ input_keys))))
               keys) /\
    (forall c text, titles !! c = Some text ->
       horizontalHeaderItem (tm_widget tabla) (Z.of_nat c) = Some text) /\
    windowTitle (tm_widget tabla) = translate "Table" ++ ": " ++ title.
Proof.
  intros Hprops Hphase Hfluidos Hknown.
  destruct (get_propiedades_lengths ps ks us Hprops) as [Hps Hus].
  assert (length (column_titles propertiesPhase unit_text linesep translate
                    phase ks ps us)
          = length (column_keys propertiesPhase phase ks)) as Htitles.
  { apply (length_columns phase ks
             (zip_with (with_suffix unit_text linesep) ps us)
             (fun _ p => p)
             (fun _ p => translate "Liquid" ++ linesep ++ p)
             (fun _ p => translate "Vapour" ++ linesep ++ p)).
    rewrite length_zip_with. lia. }
  assert (length (column_units propertiesPhase phase ks us)
          = length (column_keys propertiesPhase phase ks)) as Hunits.
  { apply (length_columns phase ks us (fun _ u => u) (fun _ u => u)
             (fun _ u => u) Hus). }
  set (keys := column_keys propertiesPhase phase ks).
  set (kw :=
    {| kw_parent := parent; kw_keys := Some (PList (map PStr keys));
       kw_units := Some (column_units propertiesPhase phase ks us);
       kw_orderUnit := None; kw_format := None;
       kw_horizontalHeader :=
         Some (PList (map PStr (column_titles propertiesPhase unit_text
                                  linesep translate phase ks ps us)));
       kw_stretch := Some false; kw_readOnly := None;
       kw_filas := Some 1;
       kw_columnReadOnly :=
         Some (PList (map PBool
                 (map (fun key => negb (bool_decide (key ∈ input_keys)))
                    keys))) |}).
  destruct (TablaMEoS_init_ok
              (Z.of_nat (length (column_titles propertiesPhase unit_text
                                   linesep translate phase ks ps us)))
              kw (column_units propertiesPhase phase ks us) eq_refl eq_refl
              eq_refl) as (orderUnit & Hinit & _).
  { apply Forall_forall. intros u Hu. apply column_units_elem in Hu.
    rewrite Forall_forall in Hknown. apply Hknown, Hu. }
  eexists. split.
  - unfold createTabla. rewrite (bind_Ok _ _ _ Hprops). cbv beta iota.
    rewrite (bind_Ok _ _ _ (createTabla_columns_ok phase ps ks us Hps Hus
                              Hphase)).
    cbv beta iota zeta.
    destruct Hfluidos as [-> | ->].
    + rewrite (bind_Ok _ _ _ (column_input_spec phase ks Hphase)).
      rewrite (bind_Ok _ _ _ Hphase).
      assert ((if phase
               then expand_keys propertiesPhase (length ks) ks
               else Ok ks) = Ok keys) as Hkeys.
      { unfold keys. destruct phase.
        - pose proof (expand_keys_spec ks []) as Hrun.
          rewrite !app_nil_r in Hrun. exact Hrun.
        - rewrite column_keys_false. reflexivity. }
      rewrite (bind_Ok _ _ _ Hkeys). fold keys. fold kw.
      rewrite (bind_Ok _ _ _ Hinit). reflexivity.
    + rewrite (bind_Ok _ _ _ (column_input_spec phase ks Hphase)).
      rewrite (bind_Ok _ _ _ Hphase).
      assert ((if phase
               then expand_keys propertiesPhase (length ks) ks
               else Ok ks) = Ok keys) as Hkeys.
      { unfold keys. destruct phase.
        - pose proof (expand_keys_spec ks []) as Hrun.
          rewrite !app_nil_r in Hrun. exact Hrun.
        - rewrite column_keys_false. reflexivity. }
      rewrite (bind_Ok _ _ _ Hkeys). fold keys. fold kw.
      rewrite (bind_Ok _ _ _ Hinit). reflexivity.
  - cbn zeta. cbn [with_widget tm_keys tm_units tm_data tm_widget].
    split; [reflexivity|]. split; [reflexivity|]. split; [reflexivity|].
    split; [exact Htitles|]. split; [exact Hunits|].
    pose proof (title_same (translate "Table" ++ ": " ++ title)
                  (Tabla_init
                     (Z.of_nat (length (column_titles propertiesPhase
                        unit_text linesep translate phase ks ps us))) kw))
      as (Hcount & Hro & Hcro & _).
    split; [rewrite Hcount; rewrite init_columnCount by lia;
            rewrite Htitles; reflexivity|].
    split; [rewrite Hro, init_readOnly; reflexivity|].
    split.
    { rewrite Hcro. rewrite (init_columnReadOnly _ kw _ eq_refl).
      rewrite map_map. reflexivity. }
    split; [|apply title_set].
    intros c text Hc. eapply header_of_init; [reflexivity | | exact Hc].
    reflexivity.
Qed.

Lemma default_format_ok (n : nat) (cells : list PyVal) :
  (length cells <= n)%nat ->
  row_ok representacion
    (PList (replicate n (PDict [("format", PInt 1); ("decimales", PInt 6);
                                ("signo", PBool false)])))
    (PList cells).
Proof.
  intros Hlen. exists cells. split; [reflexivity|].
  intros c cell Hc. pose proof (lookup_lt_Some _ _ _ Hc) as Hlt.
  unfold cell_text. destruct cell; try (eexists; reflexivity).
  all: cbn [py_subscript];
    rewrite (py_getitem_nat _ c
               (PDict [("format", PInt 1); ("decimales", PInt 6);
                       ("signo", PBool false)]))
      by (apply lookup_replicate; split; [reflexivity | lia]);
    eexists; reflexivity.
Qed.

(** X12: createTabla with fluids returns a read-only table whose data are
    the rows of the function _getData for the fluids, in their order, when
    _getData returns for each fluid; with keys none of which is empty, each
    row has one value for each column of the table. *)
Theorem createTabla_filled (title : string) (fluido : PhaseFluid)
    (fluidos : list PhaseFluid) (parent : option ConfigParser)
    (ps ks : list string) (us : list Unit) (phase : bool)
    (filas : list (list PyVal)) :
  get_propiedades properties eval config_get = Ok (ps, ks, us) ->
  getboolean config "MEoS" "phase" = Ok phase ->
  Forall (fun unit =>
            unit = Dimensionless \/
            exists conf i, parent = Some conf /\
              getint conf "Units" (unit_name unit) = Ok i) us ->
  Forall (fun key => key <> EmptyString) ks ->
  Forall2 (fun fluido fila =>
             _getData_fila propertiesPhase fluido ks phase None = Ok fila)
    (fluido :: fluidos) filas ->
  exists tabla : TablaMEoS W,
    createTabla propertiesPhase properties eval config_get config unit_text
      linesep translate representacion title (Some (fluido :: fluidos))
      parent = Ok tabla /\
    tm_data tabla = PList (map PList filas) /\
    tm_keys tabla = None /\
    readOnly (tm_widget tabla) = true /\
    Forall (fun fila => Z.of_nat (length fila)
                        = columnCount (tm_widget tabla)) filas /\
    (forall c text,
       column_titles propertiesPhase unit_text linesep translate phase
         ks ps us !! c = Some text ->
       horizontalHeaderItem (tm_widget tabla) (Z.of_nat c) = Some text) /\
    windowTitle (tm_widget tabla) = translate "Table" ++ ": " ++ title.
Proof.
  intros Hprops Hphase Hknown Hkeys Hfilas.
  destruct (get_propiedades_lengths ps ks us Hprops) as [Hps Hus].
  set (titles := column_titles propertiesPhase unit_text linesep translate
                   phase ks ps us).
  assert (length titles = length (column_keys propertiesPhase phase ks))
    as Htitles.
  { apply (length_columns phase ks
             (zip_with (with_suffix unit_text linesep) ps us)
             (fun _ p => p)
             (fun _ p => translate "Liquid" ++ linesep ++ p)
             (fun _ p => translate "Vapour" ++ linesep ++ p)).
    rewrite length_zip_with. lia. }
  assert (Forall (fun fila => length fila = length titles) filas) as Hlens.
  { apply Forall2_Forall_r with (1 := Hfilas).
    apply Forall_forall. intros fl _ fila Hrun. rewrite Htitles.
    apply _getData_loop_length in Hrun.
    rewrite filter_nonempty in Hrun by exact Hkeys. exact Hrun. }
  set (kw :=
    {| kw_parent := parent; kw_keys := None;
       kw_units := Some (column_units propertiesPhase phase ks us);
       kw_orderUnit := None; kw_format := None;
       kw_horizontalHeader := Some (PList (map PStr titles));
       kw_stretch := Some false; kw_readOnly := Some true;
       kw_filas := None; kw_columnReadOnly := None |}).
  destruct (TablaMEoS_init_ok (Z.of_nat (length titles)) kw
              (column_units propertiesPhase phase ks us) eq_refl eq_refl
              eq_refl) as (orderUnit & Hinit & _).
  { apply Forall_forall. intros u Hu. apply column_units_elem in Hu.
    rewrite Forall_forall in Hknown. apply Hknown, Hu. }
  assert (mapM (fun fluido =>
                  phase ← getboolean config "MEoS" "phase";
                  fila ← _getData_fila propertiesPhase fluido ks phase None;
                  Ok (PList fila)) (fluido :: fluidos)
          = Ok (map PList filas)) as Hdata.
  { induction Hfilas as [|fl fila fls filas' Hrun _ IH]; [reflexivity|].
    cbn [map]. apply mapM_Ok_cons.
    - rewrite (bind_Ok _ _ _ Hphase), (bind_Ok _ _ _ Hrun). reflexivity.
    - apply IH. inversion Hlens; assumption. }
  match type of Hinit with _ = Ok ?t => set (tabla0 := t) in * end.
  destruct (setData_ok representacion (map PList filas) tabla0 eq_refl)
    as (tabla & Hset & Hrows & Hsame & Htitle & Hkeys' & _).
  { apply Forall_fmap. eapply Forall_impl; [exact Hlens|].
    intros fila Hlen. cbn beta. unfold tabla0. cbn [tm_format].
    rewrite Nat2Z.id. apply default_format_ok. cbv beta in Hlen. lia. }
  { unfold tabla0. cbn [tm_widget]. rewrite init_readOnly. discriminate. }
  destruct Hsame as (Hcount & Hro & _ & Hheader).
  eexists. split.
  - unfold createTabla. rewrite (bind_Ok _ _ _ Hprops). cbv beta iota.
    rewrite (bind_Ok _ _ _ (createTabla_columns_ok phase ps ks us Hps Hus
                              Hphase)).
    cbv beta iota zeta. fold titles. fold kw.
    rewrite (bind_Ok _ _ _ Hinit). cbv beta.
    rewrite (bind_Ok _ _ _ Hdata). cbv beta.
    rewrite (bind_Ok _ _ _ Hset). reflexivity.
  - cbn [with_widget tm_keys tm_units tm_data tm_widget].
    split; [exact Hrows|]. split; [exact Hkeys'|].
    pose proof (title_same (translate "Table" ++ ": " ++ title)
                  (tm_widget tabla)) as (Hcount' & Hro' & _ & Hheader').
    split; [rewrite Hro', Hro; unfold tabla0; cbn [tm_widget];
            rewrite init_readOnly; reflexivity|].
    split.
    { eapply Forall_impl; [exact Hlens|]. intros fila Hlen.
      cbv beta in Hlen |- *.
      rewrite Hcount', Hcount. unfold tabla0. cbn [tm_widget].
      rewrite init_columnCount by lia. lia. }
    split; [|apply title_set].
    intros c text Hc. rewrite Hheader', Hheader. unfold tabla0.
    cbn [tm_widget].
    apply (init_header _ kw (map PStr titles)); [reflexivity | |].
    + rewrite list_lookup_fmap, Hc. reflexivity.
    + apply lookup_lt_Some in Hc. lia.
Qed.

End TablesFacts.

Lemma _getData_fila_length_witness :
  let fila := [PFloat 1; PFloat 300; PFloat 290; PFloat 310] in
  _getData_fila ["T"] sample_phase_fluid ["x"; "T"] true None = Ok fila /\
  _getData_fila ["T"] sample_phase_fluid
    ["x"; "T"; EmptyString; EmptyString] true None = Ok fila /\
  length fila = 4%nat.
Proof.
  intros fila. split; [reflexivity|]. split; [reflexivity|].
  assert (Forall (fun key => key <> EmptyString) ["x"; "T"]) as Hkeys
    by (repeat constructor; discriminate).
  pose proof (_getData_fila_length ["T"] sample_phase_fluid true None
                ["x"; "T"] fila Hkeys) as [Hlen _].
  apply Hlen. reflexivity.
Defined.

Lemma createTabla_empty_witness :
  exists tabla : TablaMEoS QTable,
    createTabla ["T"] sample_properties sample_eval sample_config_get
      sample_phase_config sample_unit_text sample_linesep (fun s => s)
      sample_representacion "H2O" None (Some sample_phase_config)
    = Ok tabla /\
    tm_keys tabla
    = Some (PList [PStr "x"; PStr "T"; PStr EmptyString; PStr EmptyString]) /\
    columnReadOnly (tm_widget tabla)
    = PList [PBool false; PBool false; PBool true; PBool true].
Proof.
  destruct (createTabla_empty (W := QTable) ["T"] sample_properties
              sample_eval sample_config_get sample_phase_config
              sample_unit_text sample_linesep (fun s => s)
              sample_representacion "H2O" None (Some sample_phase_config)
              ["Quality"; "Temperature"] ["x"; "T"]
              [Dimensionless; UnitClass "Temperature"] true
              eq_refl eq_refl (or_introl eq_refl))
    as (tabla & Hrun & Hkeys & _ & _ & _ & _ & _ & _ & Hro & _).
  - constructor; [left; reflexivity|].
    constructor; [|constructor].
    right. exists sample_phase_config, 0. split; reflexivity.
  - exists tabla. split; [exact Hrun|]. split; [exact Hkeys | exact Hro].
Defined.

Lemma createTabla_filled_witness :
  exists tabla : TablaMEoS QTable,
    createTabla ["T"] sample_properties sample_eval sample_config_get
      sample_phase_config sample_unit_text sample_linesep (fun s => s)
      sample_representacion "H2O" (Some [sample_phase_fluid])
      (Some sample_phase_config)
    = Ok tabla /\
    tm_data tabla
    = PList [PList [PFloat 1; PFloat 300; PFloat 290; PFloat 310]] /\
    columnCount (tm_widget tabla) = 4.
Proof.
  destruct (createTabla_filled (W := QTable) ["T"] sample_properties
              sample_eval sample_config_get sample_phase_config
              sample_unit_text sample_linesep (fun s => s)
              sample_representacion "H2O" sample_phase_fluid []
              (Some sample_phase_config)
              ["Quality"; "Temperature"] ["x"; "T"]
              [Dimensionless; UnitClass "Temperature"] true
              [[PFloat 1; PFloat 300; PFloat 290; PFloat 310]]
              eq_refl eq_refl)
    as (tabla & Hrun & Hdata & _ & _ & Hlen & _).
  - constructor; [left; reflexivity|].
    constructor; [|constructor].
    right. exists sample_phase_config, 0. split; reflexivity.
  - repeat constructor; discriminate.
  - constructor; [reflexivity | constructor].
  - exists tabla. split; [exact Hrun|]. split; [exact Hdata|].
    apply Forall_inv in Hlen. cbn in Hlen. symmetry. exact Hlen.
Defined.

(** ** Ui_Properties: Down and Up *)

Lemma alter_middle {A} (f : A -> A) (l1 : list A) (a : A) (l2 : list A) :
  alter f (length l1) (l1 ++ a :: l2)%list = (l1 ++ f a :: l2)%list.
Proof. induction l1 as [|x l1 IH]; cbn; [reflexivity | f_equal; exact IH]. Qed.

Lemma alter_middle_S {A} (f : A -> A) (l1 : list A) (a b : A)
    (l2 : list A) :
  alter f (S (length l1)) (l1 ++ a :: b :: l2)%list
  = (l1 ++ a :: f b :: l2)%list.
Proof. induction l1 as [|x l1 IH]; cbn; [reflexivity | f_equal; exact IH]. Qed.

Lemma lookup_middle_S {A} (l1 : list A) (a b : A) (l2 : list A) :
  (l1 ++ a :: b :: l2)%list !! S (length l1) = Some b.
Proof. induction l1 as [|x l1 IH]; cbn; [reflexivity | exact IH]. Qed.

Lemma insert_middle_S {A} (l1 : list A) (a b c : A) (l2 : list A) :
  <[S (length l1) := c]> (l1 ++ a :: b :: l2)%list = (l1 ++ a :: c :: l2)%list.
Proof. induction l1 as [|x l1 IH]; cbn; [reflexivity | f_equal; exact IH]. Qed.

Lemma prop_item_nat (rows : list (option string * option string))
    (n : nat) (column : Z) :
  prop_item rows (Z.of_nat n) column
  = match rows !! n with
    | Some r => if column =? 0 then r.1 else if column =? 1 then r.2 else None
    | None => None
    end.
Proof.
  unfold prop_item. rewrite Nat2Z.id.
  destruct (Z.leb_spec 0 (Z.of_nat n)); [reflexivity | lia].
Qed.

Lemma prop_setItem_nat (rows : list (option string * option string))
    (n : nat) (column : Z) (item : option string) :
  prop_setItem rows (Z.of_nat n) column item
  = alter (fun r => if column =? 0 then (item, r.2)
                    else if column =? 1 then (r.1, item) else r) n rows.
Proof.
  unfold prop_setItem. rewrite Nat2Z.id.
  destruct (Z.leb_spec 0 (Z.of_nat n)); [reflexivity | lia].
Qed.

Lemma py_setitem_nat {A} (l : list A) (i : nat) (x : A) :
  (i < length l)%nat -> py_setitem l (Z.of_nat i) x = Ok (<[i := x]> l).
Proof.
  intros Hlt. unfold py_setitem.
  replace (0 <=? Z.of_nat i) with true by (symmetry; apply Z.leb_le; lia).
  replace (Z.of_nat i <? Z.of_nat (length l)) with true
    by (symmetry; apply Z.ltb_lt; lia).
  cbn [andb]. rewrite Nat2Z.id. reflexivity.
Qed.

Lemma order_exchange {A} (o1 : list A) (oa ob : A) (o2 : list A) (n : nat) :
  length o1 = n ->
  let order := (o1 ++ oa :: ob :: o2)%list in
  py_getitem order (Z.of_nat n) = Ok oa /\
  py_getitem order (Z.of_nat (S n)) = Ok ob /\
  py_setitem order (Z.of_nat n) ob = Ok (o1 ++ ob :: ob :: o2)%list /\
  py_setitem (o1 ++ ob :: ob :: o2)%list (Z.of_nat (S n)) oa
  = Ok (o1 ++ ob :: oa :: o2)%list /\
  py_setitem order (Z.of_nat (S n)) oa = Ok (o1 ++ oa :: oa :: o2)%list /\
  py_setitem (o1 ++ oa :: oa :: o2)%list (Z.of_nat n) ob
  = Ok (o1 ++ ob :: oa :: o2)%list.
Proof.
  intros <-. cbv zeta.
  split; [apply py_getitem_nat, list_lookup_middle; reflexivity|].
  split; [apply py_getitem_nat, lookup_middle_S|].
  split.
  { rewrite py_setitem_nat by (rewrite length_app; cbn; lia).
    rewrite insert_app_r_alt, Nat.sub_diag by lia. reflexivity. }
  split.
  { rewrite py_setitem_nat by (rewrite length_app; cbn; lia).
    rewrite insert_middle_S. reflexivity. }
  split.
  { rewrite py_setitem_nat by (rewrite length_app; cbn; lia).
    rewrite insert_middle_S. reflexivity. }
  rewrite py_setitem_nat by (rewrite length_app; cbn; lia).
  rewrite insert_app_r_alt, Nat.sub_diag by lia. reflexivity.
Qed.

(** Two rows that follow each other, both with the item of the mark, change
    places, whichever of the two is the current one. *)
Lemma exchange_rows_at (l1 l2 : list (option string * option string))
    (ta tb : string) (na nb : option string) (o1 o2 : list PyVal)
    (oa ob : PyVal) (i j : nat) (cur : Z) :
  length o1 = length l1 ->
  (i = length l1 /\ j = S (length l1)) \/
  (i = S (length l1) /\ j = length l1) ->
  exchange_rows
    {| up_prop := (l1 ++ (Some ta, na) :: (Some tb, nb) :: l2)%list;
       up_currentRow := cur;
       up_order := (o1 ++ oa :: ob :: o2)%list |} (Z.of_nat i) (Z.of_nat j)
  = ({| up_prop := (l1 ++ (Some tb, nb) :: (Some ta, na) :: l2)%list;
        up_currentRow := Z.of_nat j;
        up_order := (o1 ++ ob :: oa :: o2)%list |}, None).
Proof.
  intros Ho Hij.
  destruct (order_exchange o1 oa ob o2 (length l1) Ho)
    as (Ga & Gb & Sa & Sab & Sb & Sba).
  destruct Hij as [[-> ->] | [-> ->]]; unfold exchange_rows;
    cbn [up_prop up_order];
    repeat first
      [ rewrite prop_item_nat | rewrite prop_setItem_nat
      | rewrite list_lookup_middle by reflexivity
      | rewrite lookup_middle_S
      | rewrite alter_middle | rewrite alter_middle_S
      | progress cbn [Z.eqb Pos.eqb fst snd] ].
  - rewrite Gb, Ga, Sa, Sab. reflexivity.
  - rewrite Ga, Gb, Sb, Sba. reflexivity.
Qed.

Lemma prop_item_inv (rows : list (option string * option string))
    (row : Z) (txt : string) :
  prop_item rows row 0 = Some txt ->
  exists (n : nat) (name : option string),
    row = Z.of_nat n /\ rows !! n = Some (Some txt, name).
Proof.
  unfold prop_item. destruct (Z.leb_spec 0 row) as [Hrow|]; [|discriminate].
  destruct (rows !! Z.to_nat row) as [[mark name]|] eqn:Hr; [|discriminate].
  cbn. intros ->. exists (Z.to_nat row), name. split; [lia | exact Hr].
Qed.

Lemma py_getitem_nat_inv {A} (l : list A) (n : nat) (a : A) :
  py_getitem l (Z.of_nat n) = Ok a -> l !! n = Some a.
Proof.
  unfold py_getitem.
  replace (0 <=? Z.of_nat n) with true by (symmetry; apply Z.leb_le; lia).
  replace (Z.of_nat n <? 0) with false by (symmetry; apply Z.ltb_ge; lia).
  rewrite andb_false_r. cbn [andb].
  destruct (Z.of_nat n <? Z.of_nat (length l)); [|discriminate].
  rewrite Nat2Z.id. destruct (l !! n); [|discriminate].
  intros [= ->]. reflexivity.
Qed.

Lemma split_two {A} (l : list A) (n : nat) (a b : A) :
  l !! n = Some a -> l !! S n = Some b ->
  l = (take n l ++ a :: b :: drop (S (S n)) l)%list /\
  length (take n l) = n.
Proof.
  intros Ha Hb. split.
  - rewrite <- (take_drop_middle l n a Ha) at 1. f_equal. f_equal.
    rewrite <- (take_drop_middle l (S n) b Hb) at 1.
    rewrite drop_app_length'; [reflexivity|].
    rewrite length_take. apply lookup_lt_Some in Hb. lia.
  - rewrite length_take. apply lookup_lt_Some in Ha. lia.
Qed.

Lemma exchange_rows_None (self self' : Ui_Properties) (i j : Z) :
  exchange_rows self i j = (self', None) ->
  is_Some (prop_item (up_prop self) i 0) /\
  is_Some (prop_item (up_prop self) j 0) /\
  is_Ok (py_getitem (up_order self) i) /\
  is_Ok (py_getitem (up_order self) j).
Proof.
  unfold exchange_rows.
  destruct (prop_item (up_prop self) i 0); [|discriminate].
  destruct (prop_item (up_prop self) j 0); [|discriminate].
  destruct (prop_item _ j 0); [|discriminate].
  destruct (py_getitem (up_order self) j); [|discriminate].
  destruct (py_getitem (up_order self) i); [|discriminate].
  intros _. repeat split; eexists; reflexivity.
Qed.

(** The shape of a dialog where the rows [n] and [n + 1] have the item of
    the mark and [order] has the two entries. *)
Lemma two_rows (self : Ui_Properties) (n : nat) :
  is_Some (prop_item (up_prop self) (Z.of_nat n) 0) ->
  is_Some (prop_item (up_prop self) (Z.of_nat (S n)) 0) ->
  is_Ok (py_getitem (up_order self) (Z.of_nat n)) ->
  is_Ok (py_getitem (up_order self) (Z.of_nat (S n))) ->
  exists l1 l2 ta tb na nb o1 o2 oa ob,
    up_prop self = (l1 ++ (Some ta, na) :: (Some tb, nb) :: l2)%list /\
    up_order self = (o1 ++ oa :: ob :: o2)%list /\
    length l1 = n /\ length o1 = n.
Proof.
  intros [ta Ha] [tb Hb] [oa Hoa] [ob Hob].
  apply prop_item_inv in Ha as (n1 & na & Hn1 & Ha).
  apply prop_item_inv in Hb as (n2 & nb & Hn2 & Hb).
  apply Nat2Z.inj in Hn1, Hn2. subst n1 n2.
  apply py_getitem_nat_inv in Hoa, Hob.
  destruct (split_two _ _ _ _ Ha Hb) as [Hrows Hl1].
  destruct (split_two _ _ _ _ Hoa Hob) as [Horder Ho1].
  eexists _, _, ta, tb, na, nb, _, _, oa, ob.
  split; [exact Hrows|]. split; [exact Horder|]. split; assumption.
Qed.

Lemma insert_two {A} (l1 : list A) (a b x y : A) (l2 : list A) :
  <[S (length l1) := y]> (<[length l1 := x]> (l1 ++ a :: b :: l2)%list)
  = (l1 ++ x :: y :: l2)%list.
Proof.
  rewrite insert_app_r_alt, Nat.sub_diag by lia. cbn [insert list_insert].
  apply insert_middle_S.
Qed.

(** X13: when Down raises nothing, the current row is a row [i] of the
    table with a row after it: the two rows have changed places, with
    their marks and their names, the two entries of [order] at the same
    positions too, and the current row is [i + 1]; Up then gives the dialog
    back as it was. *)
Theorem Down_moves (self self' : Ui_Properties) :
  Down self = (self', None) ->
  exists (i : nat) a b oa ob,
    up_currentRow self = Z.of_nat i /\
    up_prop self !! i = Some a /\ up_prop self !! S i = Some b /\
    up_order self !! i = Some oa /\ up_order self !! S i = Some ob /\
    self' = {| up_prop := <[S i := a]> (<[i := b]> (up_prop self));
               up_currentRow := Z.of_nat (S i);
               up_order := <[S i := oa]> (<[i := ob]> (up_order self)) |} /\
    Up self' = (self, None).
Proof.
  unfold Down. intros Hrun.
  pose proof (exchange_rows_None _ _ _ _ Hrun) as (Ha & Hb & Hoa & Hob).
  destruct Ha as [ta Ha']. pose proof Ha' as Ha.
  apply prop_item_inv in Ha' as (i & na & Hi & _).
  destruct self as [rows cur order]. cbn [up_currentRow up_prop up_order] in *.
  subst cur. replace (Z.of_nat i + 1) with (Z.of_nat (S i)) in * by lia.
  destruct (two_rows {| up_prop := rows; up_currentRow := Z.of_nat i;
                        up_order := order |} i)
    as (l1 & l2 & ta' & tb & na' & nb & o1 & o2 & oa & ob & Hrows & Horder
        & Hl1 & Ho1); [eexists; exact Ha | exact Hb | exact Hoa | exact Hob |].
  cbn [up_prop up_order] in Hrows, Horder. subst rows order i.
  rewrite exchange_rows_at in Hrun by (try left; auto).
  injection Hrun as <-.
  exists (length l1), (Some ta', na'), (Some tb, nb), oa, ob.
  split; [reflexivity|].
  split; [apply list_lookup_middle; reflexivity|].
  split; [apply lookup_middle_S|].
  split; [apply list_lookup_middle; congruence|].
  split; [rewrite <- Ho1; apply lookup_middle_S|].
  split.
  - rewrite insert_two. rewrite <- Ho1. rewrite insert_two.
    reflexivity.
  - unfold Up. cbn [up_currentRow].
    replace (Z.of_nat (S (length l1)) - 1) with (Z.of_nat (length l1))
      by lia.
    apply exchange_rows_at; [exact Ho1 | right; auto].
Qed.

(** X14: when Up raises nothing, the current row is a row [i + 1] of the
    table: it has changed places with the row [i] before it, in the table
    and in [order], and the current row is [i]; Down then gives the dialog
    back as it was. *)
Theorem Up_moves (self self' : Ui_Properties) :
  Up self = (self', None) ->
  exists (i : nat) a b oa ob,
    up_currentRow self = Z.of_nat (S i) /\
    up_prop self !! i = Some a /\ up_prop self !! S i = Some b /\
    up_order self !! i = Some oa /\ up_order self !! S i = Some ob /\
    self' = {| up_prop := <[S i := a]> (<[i := b]> (up_prop self));
               up_currentRow := Z.of_nat i;
               up_order := <[S i := oa]> (<[i := ob]> (up_order self)) |} /\
    Down self' = (self, None).
Proof.
  unfold Up. intros Hrun.
  pose proof (exchange_rows_None _ _ _ _ Hrun) as (Hb & Ha & Hob & Hoa).
  destruct Ha as [ta Ha']. pose proof Ha' as Ha.
  apply prop_item_inv in Ha' as (i & na & Hi & _).
  destruct self as [rows cur order]. cbn [up_currentRow up_prop up_order] in *.
  assert (cur = Z.of_nat (S i)) as -> by lia.
  replace (Z.of_nat (S i) - 1) with (Z.of_nat i) in * by lia. clear Hi.
  destruct (two_rows {| up_prop := rows; up_currentRow := Z.of_nat (S i);
                        up_order := order |} i)
    as (l1 & l2 & ta' & tb & na' & nb & o1 & o2 & oa & ob & Hrows & Horder
        & Hl1 & Ho1); [eexists; exact Ha | exact Hb | exact Hoa | exact Hob |].
  cbn [up_prop up_order] in Hrows, Horder. subst rows order i.
  rewrite exchange_rows_at in Hrun by (try right; auto).
  injection Hrun as <-.
  exists (length l1), (Some ta', na'), (Some tb, nb), oa, ob.
  split; [reflexivity|].
  split; [apply list_lookup_middle; reflexivity|].
  split; [apply lookup_middle_S|].
  split; [apply list_lookup_middle; congruence|].
  split; [rewrite <- Ho1; apply lookup_middle_S|].
  split.
  - rewrite insert_two. rewrite <- Ho1. rewrite insert_two.
    reflexivity.
  - unfold Down. cbn [up_currentRow].
    replace (Z.of_nat (length l1) + 1) with (Z.of_nat (S (length l1)))
      by lia.
    apply exchange_rows_at; [exact Ho1 | left; auto].
Qed.

(** X15: in a dialog where every row has the item of its mark and [order]
    has an entry for every row, Down on a current row raises nothing when
    comprobarBotones enables its button for that row, and Up likewise; for
    a row where comprobarBotones disables the button the method raises
    AttributeError and leaves the dialog as it was. *)
Theorem comprobarBotones_moves (self : Ui_Properties) :
  Forall (fun row => is_Some row.1) (up_prop self) ->
  (length (up_prop self) <= length (up_order self))%nat ->
  0 <= up_currentRow self < Z.of_nat (length (up_prop self)) ->
  let '(arriba, abajo) := comprobarBotones self (up_currentRow self) in
  (if abajo then (Down self).2 = None
   else Down self = (self, Some AttributeError)) /\
  (if arriba then (Up self).2 = None
   else Up self = (self, Some AttributeError)).
Proof.
  intros Hmarks Horder Hcur. unfold comprobarBotones.
  destruct self as [rows cur order]. cbn [up_currentRow up_prop up_order] in *.
  assert (forall n : nat,
            (S n < length rows)%nat ->
            exists l1 l2 ta tb na nb o1 o2 oa ob,
              rows = (l1 ++ (Some ta, na) :: (Some tb, nb) :: l2)%list /\
              order = (o1 ++ oa :: ob :: o2)%list /\
              length l1 = n /\ length o1 = n) as Hshape.
  { intros n Hn.
    destruct (lookup_lt_is_Some_2 rows n) as [[ma na] Ha]; [lia|].
    destruct (lookup_lt_is_Some_2 rows (S n)) as [[mb nb] Hb]; [lia|].
    destruct (lookup_lt_is_Some_2 order n) as [oa Hoa]; [lia|].
    destruct (lookup_lt_is_Some_2 order (S n)) as [ob Hob]; [lia|].
    rewrite Forall_lookup in Hmarks.
    destruct (Hmarks _ _ Ha) as [ta Hta]. destruct (Hmarks _ _ Hb) as [tb Htb].
    cbn in Hta, Htb. subst ma mb.
    destruct (split_two _ _ _ _ Ha Hb) as [Hrows Hl1].
    destruct (split_two _ _ _ _ Hoa Hob) as [Hord Ho1].
    eexists _, _, ta, tb, na, nb, _, _, oa, ob.
    split; [exact Hrows|]. split; [exact Hord|]. split; assumption. }
  assert (exists ta, prop_item rows cur 0 = Some ta) as [ta Hta].
  { replace cur with (Z.of_nat (Z.to_nat cur)) by lia.
    rewrite prop_item_nat.
    destruct (lookup_lt_is_Some_2 rows (Z.to_nat cur)) as [[ma na] Ha];
      [lia|].
    rewrite Ha. rewrite Forall_lookup in Hmarks.
    destruct (Hmarks _ _ Ha) as [ta Hta]. cbn in Hta. subst ma.
    exists ta. reflexivity. }
  split.
  - destruct (Z.ltb_spec cur (Z.of_nat (length rows) - 1)) as [Hlt|Hge].
    + destruct (Hshape (Z.to_nat cur))
        as (l1 & l2 & ta' & tb & na & nb & o1 & o2 & oa & ob & -> & ->
            & Hl1 & Ho1); [lia|].
      unfold Down. cbn [up_currentRow].
      replace cur with (Z.of_nat (length l1)) by lia.
      replace (Z.of_nat (length l1) + 1) with (Z.of_nat (S (length l1)))
        by lia.
      rewrite exchange_rows_at by (try left; auto; congruence).
      reflexivity.
    + unfold Down, exchange_rows. cbn [up_currentRow up_prop]. rewrite Hta.
      replace (cur + 1) with (Z.of_nat (length rows)) by lia.
      rewrite prop_item_nat, lookup_ge_None_2 by lia. reflexivity.
  - destruct (Z.leb_spec 1 cur) as [Hle|Hlt].
    + destruct (Hshape (Z.to_nat (cur - 1)))
        as (l1 & l2 & ta' & tb & na & nb & o1 & o2 & oa & ob & -> & ->
            & Hl1 & Ho1); [lia|].
      unfold Up. cbn [up_currentRow].
      replace cur with (Z.of_nat (S (length l1))) by lia.
      replace (Z.of_nat (S (length l1)) - 1) with (Z.of_nat (length l1))
        by lia.
      rewrite exchange_rows_at by (try right; auto; congruence).
      reflexivity.
    + unfold Up, exchange_rows. cbn [up_currentRow up_prop]. rewrite Hta.
      assert (cur = 0) as -> by lia. reflexivity.
Qed.

Lemma Down_moves_witness :
  Down sample_properties_dialog = (sample_properties_moved, None) /\
  Up sample_properties_moved = (sample_properties_dialog, None).
Proof.
  destruct (Down_moves sample_properties_dialog sample_properties_moved
              eq_refl) as (i & a & b & oa & ob & _ & _ & _ & _ & _ & _ & Hup).
  split; [reflexivity | exact Hup].
Defined.

Lemma Up_moves_witness :
  Up sample_properties_moved = (sample_properties_dialog, None) /\
  Down sample_properties_dialog = (sample_properties_moved, None).
Proof.
  destruct (Up_moves sample_properties_moved sample_properties_dialog
              eq_refl) as (i & a & b & oa & ob & _ & _ & _ & _ & _ & _ & Hdown).
  split; [reflexivity | exact Hdown].
Defined.

Lemma comprobarBotones_moves_witness :
  comprobarBotones sample_properties_dialog 0 = (false, true) /\
  (Down sample_properties_dialog).2 = None /\
  Up sample_properties_dialog
  = (sample_properties_dialog, Some AttributeError).
Proof.
  split; [reflexivity|].
  assert (Forall (fun row : option string * option string => is_Some row.1)
            (up_prop sample_properties_dialog)) as Hmarks
    by (repeat constructor; eexists; reflexivity).
  assert (length (up_prop sample_properties_dialog)
          <= length (up_order sample_properties_dialog))%nat as Horder
    by (cbn; lia).
  assert (0 <= up_currentRow sample_properties_dialog
          < Z.of_nat (length (up_prop sample_properties_dialog))) as Hcur
    by (cbn; lia).
  pose proof (comprobarBotones_moves sample_properties_dialog Hmarks Horder
                Hcur) as Hmoves.
  exact Hmoves.
Defined.

(** ** plugin.calculatePlot: the isolines *)

Lemma outcome_bind_inv {A B} (f : A -> outcome B) (m : outcome A) (b : B) :
  (m ≫= f) = Returns b -> exists a, m = Returns a /\ f a = Returns b.
Proof. destruct m as [a|e]; [eauto | discriminate]. Qed.

Lemma raised_of_inv {A} (r : result A) (a : A) :
  raised_of r = Returns a -> r = Ok a.
Proof. destruct r; [intros [= ->]; reflexivity | discriminate]. Qed.

Lemma isoline_data_lookup (read : string -> string) (keys : list string)
    (fluidos : list State) (d0 d : IsolineData) :
  isoline_data read keys fluidos d0 = Ok d ->
  (forall x, x ∈ keys ->
     exists col, isoline_column (read x) fluidos = Ok col /\
                 d !! x = Some col) /\
  (forall x, x ∉ keys -> d !! x = d0 !! x).
Proof.
  revert d0. induction keys as [|k keys IH]; intros d0 Hrun.
  - injection Hrun as <-. split; [|reflexivity].
    intros x Hx. apply elem_of_nil in Hx. contradiction.
  - cbn [isoline_data] in Hrun.
    apply bind_Ok_inv in Hrun as (col & Hcol & Hrun).
    apply IH in Hrun as [Hin Hout]. split.
    + intros x Hx. destruct (decide (x ∈ keys)) as [Hk|Hk];
        [apply Hin, Hk|].
      apply elem_of_cons in Hx as [->|Hx]; [|contradiction].
      exists col. split; [exact Hcol|].
      rewrite (Hout _ Hk). apply lookup_insert_eq.
    + intros x Hx. apply not_elem_of_cons in Hx as [Hne Hx].
      rewrite (Hout _ Hx). apply lookup_insert_ne. congruence.
Qed.

Lemma Qeq_bool_trans_false (a b c : Q) :
  Qeq_bool a b = true -> Qeq_bool b c = false -> Qeq_bool a c = false.
Proof.
  intros Hab Hbc. apply Qeq_bool_iff in Hab.
  destruct (Qeq_bool a c) eqn:Hac; [|reflexivity].
  apply Qeq_bool_iff in Hac.
  assert (Qeq_bool b c = true) as Hbc'
    by (apply Qeq_bool_iff; rewrite <- Hab; exact Hac).
  congruence.
Qed.

Lemma dict_item_set (lines : Isolines) (value : Q) (d : IsolineData)
    (v : Q) :
  dict_item (dict_set lines value d) v
  = if Qeq_bool value v then Some d else dict_item lines v.
Proof.
  induction lines as [|[k d'] lines IH]; [reflexivity|].
  cbn [dict_set]. destruct (Qeq_bool k value) eqn:Hk; cbn [dict_item].
  - destruct (Qeq_bool value v) eqn:Hv.
    + assert (Qeq_bool k v = true) as ->; [|reflexivity].
      apply Qeq_bool_iff in Hk, Hv. apply Qeq_bool_iff.
      rewrite Hk. exact Hv.
    + rewrite (Qeq_bool_trans_false k value v Hk Hv). reflexivity.
  - rewrite IH. destruct (Qeq_bool k v) eqn:Hkv; [|reflexivity].
    destruct (Qeq_bool value v) eqn:Hv; [|reflexivity].
    apply Qeq_bool_iff in Hkv, Hv.
    assert (Qeq_bool k value = true) as Hk'
      by (apply Qeq_bool_iff; rewrite Hkv, Hv; reflexivity).
    congruence.
Qed.

Lemma dict_set_keys (lines : Isolines) (value : Q) (d : IsolineData)
    (line : Q * IsolineData) :
  line ∈ dict_set lines value d ->
  (exists line0, line0 ∈ lines /\ line.1 = line0.1) \/ line.1 = value.
Proof.
  induction lines as [|[k d'] lines IH]; cbn [dict_set]; intros Hin.
  - apply list_elem_of_singleton in Hin. subst line. right. reflexivity.
  - destruct (Qeq_bool k value).
    + apply elem_of_cons in Hin as [-> | Hin]; left.
      * exists (k, d'). split; [left | reflexivity].
      * exists line. split; [right; exact Hin | reflexivity].
    + apply elem_of_cons in Hin as [-> | Hin].
      * left. exists (k, d'). split; [left | reflexivity].
      * destruct (IH Hin) as [(line0 & Hin0 & Hkey) | Hkey];
          [left | right; exact Hkey].
        exists line0. split; [right; exact Hin0 | exact Hkey].
Qed.

Lemma isoline_column_aligned (key : string) (fluidos : list State)
    (col : list (option PropVal)) :
  Forall (fun st => status st = 1 \/ status st = 3) fluidos ->
  isoline_column key fluidos = Ok col ->
  Forall2 (fun fluido v => isoline_value key fluido = Ok v) fluidos col.
Proof.
  intros Hst Hcol. unfold isoline_column in Hcol.
  apply mapM_Ok_Forall2 in Hcol.
  induction Hcol as [|fl v fls vs Hv _ IH]; constructor.
  - apply Forall_inv in Hst.
    destruct (status fl =? 0) eqn:E; [apply Z.eqb_eq in E; lia|].
    exact Hv.
  - apply IH. eapply Forall_inv_tail, Hst.
Qed.

Lemma isoline_value_inv (key : string) (fluido : State)
    (v : option PropVal) :
  isoline_value key fluido = Ok v ->
  if String.eqb key "fi" || String.eqb key "f"
  then exists p q, getattribute fluido key = Some (Vector p) /\
                   p !! 0%nat = Some q /\ v = Some (Scalar q)
  else v = getattribute fluido key.
Proof.
  unfold isoline_value.
  destruct (String.eqb key "fi" || String.eqb key "f").
  - destruct (getattribute fluido key) as [[q|l]|]; try discriminate.
    intros Hrun. apply bind_Ok_inv in Hrun as (q & Hq & Hrun).
    injection Hrun as <-. exists l, q. split; [reflexivity|].
    split; [|reflexivity].
    destruct l as [|q' l]; [discriminate|]. injection Hq as ->. reflexivity.
  - intros [= <-]. reflexivity.
Qed.

Lemma isoline_column_values (key : string) (fluidos : list State)
    (col : list (option PropVal)) :
  Forall (fun st => status st = 1 \/ status st = 3) fluidos ->
  isoline_column key fluidos = Ok col ->
  Forall2 (fun fluido v =>
             if String.eqb key "fi" || String.eqb key "f"
             then exists p q,
                    getattribute fluido key = Some (Vector p) /\
                    p !! 0%nat = Some q /\ v = Some (Scalar q)
             else v = getattribute fluido key)
    fluidos col.
Proof.
  intros Hst Hcol.
  eapply Forall2_impl; [apply isoline_column_aligned; eassumption|].
  intros fluido v Hv. apply isoline_value_inv, Hv.
Qed.

Section IsolinesFacts.

Variable propertiesKey : list string.
Variables (pref : ConfigParser) (fluid : FluidObj) (self_config : Config).

(** A family of lines: the entry of a value of the list is the dict built
    from the states calcIsoline returned for it, called with the position
    of the value for step; for a value that is in the list more than once,
    the last of its positions. *)
Lemma isoline_family_items (read : string -> string) (var fix_ : string)
    (vvar : list Q) (ini end_ total : Z) (values : list Q) :
  forall (i : Z) (lines lines' : Isolines) (log log' : list BarEvent),
  isoline_family propertiesKey pref fluid self_config read var fix_ vvar
    ini end_ total i values lines log = Returns (lines', log') ->
  (forall (k : nat) value,
     values !! k = Some value ->
     (forall k' value', (k < k')%nat -> values !! k' = Some value' ->
        Qeq_bool value' value = false) ->
     exists fluidos events d,
       calcIsoline pref fluid self_config var fix_ value ini
         (i + Z.of_nat k) end_ total vvar = Returns (fluidos, events) /\
       isoline_data read propertiesKey fluidos ∅ = Ok d /\
       dict_item lines' value = Some d) /\
  (forall v, (forall value, value ∈ values -> Qeq_bool value v = false) ->
     dict_item lines' v = dict_item lines v) /\
  (forall line, line ∈ lines' ->
     (exists line0, line0 ∈ lines /\ line.1 = line0.1) \/ line.1 ∈ values).
Proof.
  induction values as [|value0 values IH];
    intros i lines lines' log log' Hrun.
  - injection Hrun as <- _. split; [|split].
    + intros k value Hk. inversion Hk.
    + reflexivity.
    + intros line Hin. left. exists line. auto.
  - cbn [isoline_family] in Hrun.
    apply outcome_bind_inv in Hrun as ([fluidos events] & Hline & Hrun).
    apply outcome_bind_inv in Hrun as (d & Hd & Hrun).
    apply raised_of_inv in Hd.
    apply IH in Hrun as (Hitems & Hother & Hkeys).
    split; [|split].
    + intros [|k] value Hk Hlast.
      * injection Hk as <-. exists fluidos, events, d.
        rewrite Z.add_0_r. split; [exact Hline|]. split; [exact Hd|].
        rewrite Hother.
        -- rewrite dict_item_set.
           replace (Qeq_bool value0 value0) with true; [reflexivity|].
           symmetry. apply Qeq_bool_iff. reflexivity.
        -- intros value' Hin. apply list_elem_of_lookup in Hin as [k' Hk'].
           apply (Hlast (S k') value'); [lia | exact Hk'].
      * destruct (Hitems k value Hk) as (fl & ev & d' & Hcall & Hd' & Hitem).
        { intros k' value' Hlt Hk'.
          apply (Hlast (S k') value'); [lia | exact Hk']. }
        exists fl, ev, d'.
        replace (i + Z.of_nat (S k)) with (i + 1 + Z.of_nat k) by lia.
        auto.
    + intros v Hv. rewrite Hother.
      * rewrite dict_item_set. rewrite (Hv value0); [reflexivity | left].
      * intros value Hin. apply Hv. right. exact Hin.
    + intros line Hin. destruct (Hkeys line Hin) as [(l0 & Hl0 & Hkey)|Hval].
      * apply dict_set_keys in Hl0 as [(l1 & Hl1 & Hkey1) | Hkey0].
        -- left. exists l1. split; [exact Hl1 | congruence].
        -- right. rewrite Hkey, Hkey0. left.
      * right. right. exact Hval.
Qed.


Lemma last_elem_of (key : string) :
  last propertiesKey = Some key -> key ∈ propertiesKey.
Proof.
  intros Hkey. induction propertiesKey as [|k [|k' ks] IH].
  - discriminate.
  - injection Hkey as <-. left.
  - right. apply IH, Hkey.
Qed.

(** X16: in the data calculatePlot computes for the isoquality lines, the
    keys of the lines are values of the list of isoquality lines, and the
    line of a value of the list holds, for all the property keys, one and
    the same array: the values, along the states calcIsoline returned for
    that value, called with the position of the value in the list, of the
    last key of ThermoAdvanced.propertiesKey(), the one the variable [key]
    was left with by the loops before.  For a value that is in the list
    more than once, the position is the last one. *)
Theorem calculatePlot_isoquality (Tsat T P : list Q) (l : LineLists)
    (data : PlotLines) (log : list BarEvent) (key : string) :
  calculatePlot_isolines propertiesKey pref fluid self_config Tsat T P l
  = Returns (data, log) ->
  last propertiesKey = Some key ->
  exists lines,
    data !! "x" = Some lines /\
    (forall line, line ∈ lines -> line.1 ∈ Isoquality l) /\
    forall (step : nat) (value : Q),
      Isoquality l !! step = Some value ->
      (forall (step' : nat) (value' : Q),
         (step < step')%nat -> Isoquality l !! step' = Some value' ->
         Qeq_bool value' value = false) ->
      exists fluidos events d col,
        calcIsoline pref fluid self_config "T" "x" value 20 (Z.of_nat step)
          20 (Z.of_nat (length (Isoquality l))) Tsat
        = Returns (fluidos, events) /\
        dict_item lines value = Some d /\
        Forall2 (fun fluido v =>
                   if String.eqb key "fi" || String.eqb key "f"
                   then exists p q,
                          getattribute fluido key = Some (Vector p) /\
                          p !! 0%nat = Some q /\ v = Some (Scalar q)
                   else v = getattribute fluido key)
          fluidos col /\
        (forall x, x ∈ propertiesKey -> d !! x = Some col) /\
        (forall x, x ∉ propertiesKey -> d !! x = None).
Proof.
  unfold calculatePlot_isolines. intros Hrun Hkey.
  apply outcome_bind_inv in Hrun as ([data0 log0] & Hfirst & Hrun).
  apply outcome_bind_inv in Hrun as ([lh logh] & _ & Hrun).
  apply outcome_bind_inv in Hrun as ([ls logs] & _ & Hrun).
  injection Hrun as <- _.
  unfold isolines_x_T_P_v in Hfirst.
  apply outcome_bind_inv in Hfirst as ([lx logx] & Hx & Hfirst).
  apply outcome_bind_inv in Hfirst as ([lT logT] & _ & Hfirst).
  apply outcome_bind_inv in Hfirst as ([lP logP] & _ & Hfirst).
  apply outcome_bind_inv in Hfirst as ([lv logv] & _ & Hfirst).
  injection Hfirst as <- _. cbn [fst snd].
  apply isoline_family_items in Hx as (Hitems & _ & Hkeys).
  exists lx. split; [reflexivity|]. split.
  - intros line Hin. destruct (Hkeys line Hin) as [(l0 & Hl0 & _)|Hval];
      [|exact Hval].
    apply elem_of_nil in Hl0. contradiction.
  - intros step value Hstep Hlast.
    destruct (Hitems step value Hstep Hlast)
      as (fluidos & events & d & Hline & Hd & Hitem).
    rewrite Z.add_0_l in Hline.
    destruct (isoline_data_lookup _ _ _ _ _ Hd) as [Hcols Hout].
    destruct (Hcols key (last_elem_of key Hkey)) as (col & Hcol & _).
    unfold key_left in Hcol. rewrite Hkey in Hcol. cbn [default] in Hcol.
    exists fluidos, events, d, col.
    split; [exact Hline|]. split; [exact Hitem|]. split; [|split].
    + destruct (calcIsoline_loop_kept _ _ _ _ _ _ _ _ _ _ _ _ _ _ _ _ _ _
                  Hline) as (new & -> & _ & Hst & _).
      apply isoline_column_values; assumption.
    + intros x Hin. destruct (Hcols x Hin) as (col' & Hcol' & Hlook).
      unfold key_left in Hcol'. rewrite Hkey in Hcol'. cbn [default] in Hcol'.
      congruence.
    + intros x Hx. rewrite (Hout x Hx). apply lookup_empty.
Qed.

Lemma isoline_family_arrays (var fix_ : string) (vvar : list Q)
    (ini end_ total : Z) (values : list Q) (lines : Isolines)
    (log log' : list BarEvent) :
  isoline_family propertiesKey pref fluid self_config (fun key => key)
    var fix_ vvar ini end_ total 0 values [] log = Returns (lines, log') ->
  (forall line, line ∈ lines -> line.1 ∈ values) /\
  forall (step : nat) (value : Q),
    values !! step = Some value ->
    (forall (step' : nat) (value' : Q),
       (step < step')%nat -> values !! step' = Some value' ->
       Qeq_bool value' value = false) ->
    exists fluidos events d,
      calcIsoline pref fluid self_config var fix_ value ini (Z.of_nat step)
        end_ total vvar = Returns (fluidos, events) /\
      dict_item lines value = Some d /\
      (forall x, x ∈ propertiesKey ->
         exists col,
           d !! x = Some col /\
           Forall2 (fun fluido v =>
                      if String.eqb x "fi" || String.eqb x "f"
                      then exists p q,
                             getattribute fluido x = Some (Vector p) /\
                             p !! 0%nat = Some q /\ v = Some (Scalar q)
                      else v = getattribute fluido x)
             fluidos col) /\
      (forall x, x ∉ propertiesKey -> d !! x = None).
Proof.
  intros Hrun. apply isoline_family_items in Hrun as (Hitems & _ & Hkeys).
  split.
  - intros line Hin. destruct (Hkeys line Hin) as [(l0 & Hl0 & _)|Hval];
      [|exact Hval].
    apply elem_of_nil in Hl0. contradiction.
  - intros step value Hstep Hlast.
    destruct (Hitems step value Hstep Hlast)
      as (fluidos & events & d & Hline & Hd & Hitem).
    rewrite Z.add_0_l in Hline.
    destruct (isoline_data_lookup _ _ _ _ _ Hd) as [Hcols Hout].
    exists fluidos, events, d.
    split; [exact Hline|]. split; [exact Hitem|]. split.
    + intros x Hx. destruct (Hcols x Hx) as (col & Hcol & Hlook).
      exists col. split; [exact Hlook|].
      destruct (calcIsoline_loop_kept _ _ _ _ _ _ _ _ _ _ _ _ _ _ _ _ _ _
                  Hline) as (new & -> & _ & Hst & _).
      apply isoline_column_values; assumption.
    + intros x Hx. rewrite (Hout x Hx). apply lookup_empty.
Qed.

(** X17: in the data calculatePlot computes for the isotherm, isobar,
    isochor, isoenthalpic and isoentropic lines, the keys of the lines of a
    family are values of the list of the family, and the line of a value of
    the list holds, for each property key, an array with one value for each
    state calcIsoline returned for that value, the value of that property
    of that state: no state is replaced by None.  The call is the one
    calculatePlot makes for the value: the isotherm and the isoenthalpic
    and isoentropic lines along the pressures, the isobar and isochor lines
    along the temperatures, with the position of the value in its list for
    step (the last position of a value that is there more than once), and
    the length of the list for total, but for the isoenthalpic lines, whose
    total is the length of the list of isochor lines. *)
Theorem calculatePlot_isoline_arrays (Tsat T P : list Q) (l : LineLists)
    (data : PlotLines) (log : list BarEvent) :
  let family (name var : string) (vvar : list Q) (ini end_ : Z)
        (values : list Q) (total : nat) :=
    exists lines,
      data !! name = Some lines /\
      (forall line, line ∈ lines -> line.1 ∈ values) /\
      forall (step : nat) (value : Q),
        values !! step = Some value ->
        (forall (step' : nat) (value' : Q),
           (step < step')%nat -> values !! step' = Some value' ->
           Qeq_bool value' value = false) ->
        exists fluidos events d,
          calcIsoline pref fluid self_config var name value ini
            (Z.of_nat step) end_ (Z.of_nat total) vvar
          = Returns (fluidos, events) /\
          dict_item lines value = Some d /\
          (forall x, x ∈ propertiesKey ->
             exists col,
               d !! x = Some col /\
               Forall2 (fun fluido v =>
                          if String.eqb x "fi" || String.eqb x "f"
                          then exists p q,
                                 getattribute fluido x = Some (Vector p) /\
                                 p !! 0%nat = Some q /\ v = Some (Scalar q)
                          else v = getattribute fluido x)
                 fluidos col) /\
          (forall x, x ∉ propertiesKey -> d !! x = None) in
  calculatePlot_isolines propertiesKey pref fluid self_config Tsat T P l
  = Returns (data, log) ->
  family "T" "P" P 40 10 (Isotherm l) (length (Isotherm l)) /\
  family "P" "T" T 50 10 (Isobar l) (length (Isobar l)) /\
  family "v" "T" T 60 10 (Isochor l) (length (Isochor l)) /\
  family "h" "P" P 70 10 (Isoenthalpic l) (length (Isochor l)) /\
  family "s" "P" P 80 20 (Isoentropic l) (length (Isoentropic l)).
Proof.
  intros family. unfold calculatePlot_isolines. intros Hrun.
  apply outcome_bind_inv in Hrun as ([data0 log0] & Hfirst & Hrun).
  apply outcome_bind_inv in Hrun as ([lh logh] & Hh & Hrun).
  apply outcome_bind_inv in Hrun as ([ls logs] & Hs & Hrun).
  injection Hrun as <- _.
  unfold isolines_x_T_P_v in Hfirst.
  apply outcome_bind_inv in Hfirst as ([lx logx] & _ & Hfirst).
  apply outcome_bind_inv in Hfirst as ([lT logT] & HT & Hfirst).
  apply outcome_bind_inv in Hfirst as ([lP logP] & HP & Hfirst).
  apply outcome_bind_inv in Hfirst as ([lv logv] & Hv & Hfirst).
  injection Hfirst as <- _. cbn [fst snd] in *.
  apply isoline_family_arrays in HT, HP, Hv, Hh, Hs.
  unfold family.
  repeat split; (eexists; split; [reflexivity | assumption]).
Qed.

(** X18: the isoenthalpic lines are computed with the number of isochor
    lines for total: when the lines before them have been computed, the
    list of the isochor lines is empty, and there are an isoenthalpic line
    and a pressure for whose first point calcPoint returns, calculatePlot
    raises ZeroDivisionError. *)
Theorem calculatePlot_isoenthalpic_total (Tsat T P : list Q) (l : LineLists)
    (data : PlotLines) (log : list BarEvent) (value Pi : Q) :
  isolines_x_T_P_v propertiesKey pref fluid self_config Tsat T P l
  = Returns (data, log) ->
  Isochor l = [] ->
  head (Isoenthalpic l) = Some value ->
  head P = Some Pi ->
  is_Ok (calcPoint pref fluid self_config
           (isoline_point "P" "h" Pi value (PInt 0) (PInt 0))) ->
  calculatePlot_isolines propertiesKey pref fluid self_config Tsat T P l
  = Raises ZeroDivisionError.
Proof.
  intros Hfirst Hv Hh HP Hpoint. unfold calculatePlot_isolines.
  rewrite Hfirst. cbn [mbind outcome_bind]. rewrite Hv. cbn [length].
  destruct (Isoenthalpic l) as [|value' vals]; [discriminate|].
  injection Hh as ->.
  destruct P as [|Pi' P']; [discriminate|]. injection HP as ->.
  cbn [isoline_family].
  rewrite (calcIsoline_total_0 pref fluid self_config "P" "h" value 70 0 10
             (Z.of_nat 0) Pi P' eq_refl Hpoint).
  reflexivity.
Qed.

End IsolinesFacts.

Lemma calculatePlot_isoquality_witness :
  let run := calculatePlot_isolines ["P"; "T"] pref_meos sample_fluid
               sample_conf [300%Q; 310%Q] [300%Q] [200000%Q; 300000%Q]
               sample_lists in
  let data := match run with Returns (d, _) => d | Raises _ => ∅ end in
  let log := match run with Returns (_, log) => log | Raises _ => [] end in
  run = Returns (data, log) /\
  exists lines fluidos events d,
    data !! "x" = Some lines /\
    calcIsoline pref_meos sample_fluid sample_conf "T" "x" (1 # 2) 20 0 20 1
      [300%Q; 310%Q] = Returns (fluidos, events) /\
    dict_item lines (1 # 2) = Some d /\
    d !! "P" = d !! "T" /\
    exists col, d !! "T" = Some col /\
      Forall2 (fun fluido v => v = getattribute fluido "T") fluidos col.
Proof.
  intros run data log. split; [reflexivity|].
  destruct (calculatePlot_isoquality ["P"; "T"] pref_meos sample_fluid
              sample_conf [300%Q; 310%Q] [300%Q] [200000%Q; 300000%Q]
              sample_lists data log "T" eq_refl eq_refl)
    as (lines & Hx & _ & Hlines).
  destruct (Hlines 0%nat (1 # 2) eq_refl)
    as (fluidos & events & d & col & Hline & Hitem & Hcol & Hcols & _).
  { intros [|step'] value' Hlt Hstep; [lia | discriminate]. }
  exists lines, fluidos, events, d.
  split; [exact Hx|]. split; [exact Hline|]. split; [exact Hitem|].
  split.
  - rewrite (Hcols "P"), (Hcols "T"); [reflexivity | |].
    + right. left.
    + left.
  - exists col. split; [|exact Hcol]. apply Hcols. right. left.
Defined.

Lemma calculatePlot_isoline_arrays_witness :
  let run := calculatePlot_isolines ["P"; "T"] pref_meos sample_fluid
               sample_conf [300%Q; 310%Q] [300%Q] [200000%Q; 300000%Q]
               sample_lists in
  let data := match run with Returns (d, _) => d | Raises _ => ∅ end in
  let log := match run with Returns (_, log) => log | Raises _ => [] end in
  run = Returns (data, log) /\
  exists lines fluidos events d col,
    data !! "T" = Some lines /\
    calcIsoline pref_meos sample_fluid sample_conf "P" "T" 300 40 0 10 1
      [200000%Q; 300000%Q] = Returns (fluidos, events) /\
    dict_item lines 300 = Some d /\
    d !! "P" = Some col /\
    Forall2 (fun fluido v => v = getattribute fluido "P") fluidos col.
Proof.
  intros run data log. split; [reflexivity|].
  destruct (calculatePlot_isoline_arrays ["P"; "T"] pref_meos sample_fluid
              sample_conf [300%Q; 310%Q] [300%Q] [200000%Q; 300000%Q]
              sample_lists data log eq_refl)
    as ((lines & HT & _ & Hlines) & _).
  destruct (Hlines 0%nat 300%Q eq_refl)
    as (fluidos & events & d & Hline & Hitem & Hcols & _).
  { intros [|step'] value' Hlt Hstep; [lia | discriminate]. }
  destruct (Hcols "P") as (col & Hcol & Hvals); [left|].
  exists lines, fluidos, events, d, col. auto.
Defined.

Lemma calculatePlot_isoenthalpic_total_witness :
  calculatePlot_isolines ["P"; "T"] pref_meos sample_fluid sample_conf
    [300%Q; 310%Q] [300%Q] [200000%Q; 300000%Q] sample_lists_h
  = Raises ZeroDivisionError.
Proof.
  eapply (calculatePlot_isoenthalpic_total ["P"; "T"] pref_meos sample_fluid
            sample_conf [300%Q; 310%Q] [300%Q] [200000%Q; 300000%Q]
            sample_lists_h _ _ 1 200000);
    [reflexivity | reflexivity | reflexivity | reflexivity |].
  eexists. reflexivity.
Defined.

(** ** plotIsoline and EditPlot.changeValue: the position of the label *)

Lemma py_getitem_out {A} (l : list A) (i : Z) :
  Z.of_nat (length l) <= i \/ i < - Z.of_nat (length l) ->
  py_getitem l i = Raise IndexError.
Proof.
  intros Hout. unfold py_getitem.
  destruct (Z.leb_spec 0 i); destruct (Z.ltb_spec i (Z.of_nat (length l)));
    destruct (Z.leb_spec (- Z.of_nat (length l)) i);
    destruct (Z.ltb_spec i 0); cbn [andb]; try reflexivity; lia.
Qed.

Lemma py_getitem_in {A} (l : list A) (i : nat) :
  (i < length l)%nat ->
  exists a, l !! i = Some a /\ py_getitem l (Z.of_nat i) = Ok a.
Proof.
  intros Hlt. destruct (lookup_lt_is_Some_2 l i Hlt) as [a Ha].
  exists a. split; [exact Ha | apply py_getitem_nat, Ha].
Qed.

Lemma label_index_bounds (xi yi : list Q) (pos : Z) :
  length yi = length xi -> (0 < length xi)%nat -> 0 <= pos <= 100 ->
  0 <= label_index xi yi pos < Z.of_nat (length xi) /\
  (50 < pos -> 51 * Z.of_nat (length xi)
               < 100 * (label_index xi yi pos + 1)) /\
  (pos <= 50 -> 2 * label_index xi yi pos <= Z.of_nat (length xi)) /\
  (pos = 50 -> Z.of_nat (length xi) <= 2 * label_index xi yi pos + 1).
Proof.
  intros Hlen Hn Hpos. unfold label_index. rewrite Hlen.
  set (n := Z.of_nat (length xi)). assert (0 < n) as Hn' by lia.
  set (m := n * pos). assert (0 <= m <= 100 * n) as Hm by nia.
  rewrite Z.quot_div_nonneg by lia.
  assert (50 < pos -> 51 * n <= m) as Hhi by nia.
  assert (pos <= 50 -> m <= 50 * n) as Hlo by nia.
  assert (pos = 50 -> m = 50 * n) as Heq by nia.
  clearbody m.
  pose proof (Z.div_mod m 100 ltac:(lia)) as Hdiv.
  pose proof (Z.mod_pos_bound m 100 ltac:(lia)) as Hmod.
  destruct (Z.leb_spec n (m / 100)); repeat split; try lia.
Qed.

(** X19: for a line of at least 21 points and a position from 0 to 100,
    plotIsoline reads two points of the line for its label, the second
    ten points before the first for a position above 50 and ten points
    after it otherwise, and changeValue moves the label to a point of the
    line.  With 20 points or fewer plotIsoline raises IndexError at the
    position 50, and with no point changeValue raises IndexError. *)
Theorem plotIsoline_label_points (xi yi : list Q) (pos : Z) :
  length yi = length xi ->
  ((21 <= length xi)%nat -> 0 <= pos <= 100 ->
   exists (i j : nat) x y xj yj,
     (if 50 <? pos then i = (j + 10)%nat else j = (i + 10)%nat) /\
     xi !! i = Some x /\ yi !! i = Some y /\
     xi !! j = Some xj /\ yi !! j = Some yj /\
     plotIsoline_label xi yi pos = Ok (x, y, (xj, yj)) /\
     changeValue_textPos xi yi pos = Ok (x, y)) /\
  ((length xi <= 20)%nat ->
   plotIsoline_label xi yi 50 = Raise IndexError) /\
  (length xi = 0%nat -> changeValue_textPos xi yi pos = Raise IndexError).
Proof.
  intros Hlen. split; [|split].
  - intros Hn Hpos.
    destruct (label_index_bounds xi yi pos Hlen ltac:(lia) Hpos)
      as (Hi & Hhi & Hlo & _).
    assert (exists j : nat,
              slope_index (label_index xi yi pos) pos = Z.of_nat j /\
              (j < length xi)%nat /\
              (if 50 <? pos
               then Z.to_nat (label_index xi yi pos) = (j + 10)%nat
               else j = (Z.to_nat (label_index xi yi pos) + 10)%nat))
      as (j & Hj & Hjn & Hij).
    { unfold slope_index. destruct (Z.ltb_spec 50 pos).
      - exists (Z.to_nat (label_index xi yi pos - 10)). lia.
      - exists (Z.to_nat (label_index xi yi pos + 10)). lia. }
    destruct (py_getitem_in xi (Z.to_nat (label_index xi yi pos)))
      as (x & Hx & Hgx); [lia|].
    destruct (py_getitem_in yi (Z.to_nat (label_index xi yi pos)))
      as (y & Hy & Hgy); [lia|].
    destruct (py_getitem_in xi j) as (xj & Hxj & Hgxj); [lia|].
    destruct (py_getitem_in yi j) as (yj & Hyj & Hgyj); [lia|].
    rewrite Z2Nat.id in Hgx, Hgy by lia.
    exists (Z.to_nat (label_index xi yi pos)), j, x, y, xj, yj.
    split; [exact Hij|].
    split; [exact Hx|]. split; [exact Hy|].
    split; [exact Hxj|]. split; [exact Hyj|].
    unfold plotIsoline_label, changeValue_textPos. cbv zeta.
    rewrite Hj, Hgx, Hgy, Hgxj, Hgyj. split; reflexivity.
  - intros Hn. unfold plotIsoline_label. cbv zeta.
    destruct (decide (length xi = 0%nat)) as [H0|H0].
    + rewrite (py_getitem_out xi); [reflexivity|].
      unfold label_index. rewrite Hlen, H0. cbn. lia.
    + destruct (label_index_bounds xi yi 50 Hlen ltac:(lia) ltac:(lia))
        as (Hi & _ & _ & Hlo).
      destruct (py_getitem_in xi (Z.to_nat (label_index xi yi 50)))
        as (x & _ & Hgx); [lia|].
      rewrite Z2Nat.id in Hgx by lia. rewrite Hgx. cbn [mbind result_bind].
      rewrite (py_getitem_out xi); [reflexivity|].
      unfold slope_index. cbn [Z.ltb Z.compare Pos.compare Pos.compare_cont].
      left. specialize (Hlo eq_refl). lia.
  - intros H0. unfold changeValue_textPos. cbv zeta.
    rewrite (py_getitem_out xi); [reflexivity|].
    unfold label_index. rewrite Hlen, H0. cbn. lia.
Qed.

Lemma plotIsoline_label_points_witness :
  plotIsoline_label sample_xi sample_xi 50 = Ok (10%Q, 10%Q, (20%Q, 20%Q)) /\
  exists p, plotIsoline_label sample_xi sample_xi 50 = Ok p /\
            changeValue_textPos sample_xi sample_xi 50 = Ok p.1.
Proof.
  split; [reflexivity|].
  destruct (plotIsoline_label_points sample_xi sample_xi 50 eq_refl)
    as (Hlabel & _ & _).
  destruct Hlabel as (i & j & x & y & xj & yj & _ & _ & _ & _ & _ & Hp & Hc).
  - cbn. lia.
  - lia.
  - exists (x, y, (xj, yj)). split; [exact Hp | exact Hc].
Defined.

(** ** plugin.plot: the data of the plot, cached or computed *)

Lemma dict_truth_insert {A} (d : gmap string A) (k : string) (a : A) :
  dict_truth (<[k := a]> d) = true.
Proof.
  unfold dict_truth. apply negb_true_iff, Nat.eqb_neq.
  intros Hsize. apply map_size_empty_inv in Hsize.
  apply (insert_non_empty d k a Hsize).
Qed.

Section PlotDataFacts.

Variable pickle_dump : gmap string PyVal -> list Byte.byte.
Variable pickle_load : list Byte.byte -> result (gmap string PyVal).
Variable gunzip : list Byte.byte -> result (list Byte.byte).
Variables (conf_dir pychemqt sep : string).

(** The data are read again from the copy in the configuration directory. *)
Lemma plot_data_soft (self_config : ConfigParser) (method filename : string)
    (calculatePlot : result (gmap string PyVal))
    (fs : gmap string (list Byte.byte)) (data : gmap string PyVal)
    (config : PyVal) :
  fs !! (conf_dir +:+ filename) = Some (pickle_dump data) ->
  pickle_load (pickle_dump data) = Ok data ->
  dict_truth data = true ->
  data !! "config" = Some config ->
  plot_data pickle_dump pickle_load gunzip conf_dir pychemqt sep self_config
    method filename calculatePlot fs = Ok (data, config, fs).
Proof.
  intros Hsoft Hload Htruth Hconfig. unfold plot_data, _getData, filenameSoft.
  rewrite Hsoft. cbn [mbind result_bind]. rewrite Hload.
  cbn [mbind result_bind]. rewrite Htruth. cbn [mbind result_bind].
  unfold dict_get. rewrite Hconfig. reflexivity.
Qed.

(** X20: when plot has got its data, from a file or from calculatePlot, a
    later plot with the same method and fluid gets the same data and the
    same configuration from the file of the configuration directory,
    whatever calculatePlot would compute then and whatever the
    configuration is then, provided the data saved can be read back; the
    files stay as they are. *)
Theorem plot_data_cached (self_config self_config' : ConfigParser)
    (method filename : string)
    (calculatePlot calculatePlot' : result (gmap string PyVal))
    (fs fs' : gmap string (list Byte.byte)) (data : gmap string PyVal)
    (config : PyVal) :
  plot_data pickle_dump pickle_load gunzip conf_dir pychemqt sep self_config
    method filename calculatePlot fs = Ok (data, config, fs') ->
  pickle_load (pickle_dump data) = Ok data ->
  plot_data pickle_dump pickle_load gunzip conf_dir pychemqt sep self_config'
    method filename calculatePlot' fs' = Ok (data, config, fs').
Proof.
  intros Hrun Hload. unfold plot_data in Hrun.
  apply bind_Ok_inv in Hrun as ([cached fs0] & Hget & Hrun).
  apply bind_Ok_inv in Hrun as ([data0 fs1] & Hdata & Hrun).
  apply bind_Ok_inv in Hrun as (config0 & Hconfig & Hrun).
  injection Hrun as -> -> ->.
  unfold dict_get in Hconfig.
  destruct (data !! "config") as [c|] eqn:Hc; [|discriminate].
  injection Hconfig as ->.
  assert (forall fsx,
            (data0 ← calculatePlot;
             conf ← plot_conf self_config method;
             Ok (<["config" := conf]> data0,
                 _saveData (gmap string PyVal) pickle_dump conf_dir filename
                   (<["config" := conf]> data0) fsx)) = Ok (data, fs') ->
            fs' !! (conf_dir +:+ filename) = Some (pickle_dump data) /\
            dict_truth data = true) as Hcomputed.
  { intros fsx Hcomp.
    apply bind_Ok_inv in Hcomp as (d1 & _ & Hcomp).
    apply bind_Ok_inv in Hcomp as (conf & _ & Hcomp).
    injection Hcomp as <- <-. split.
    - unfold _saveData. apply lookup_insert_eq.
    - apply dict_truth_insert. }
  assert (fs' !! (conf_dir +:+ filename) = Some (pickle_dump data) /\
          dict_truth data = true \/
          exists soft, fs' !! (conf_dir +:+ filename) = Some soft /\
                       pickle_load soft = Ok data /\
                       dict_truth data = true) as Hcase.
  { unfold _getData, filenameSoft in Hget.
    destruct (fs !! (conf_dir +:+ filename)) as [soft|] eqn:Hsoft.
    - apply bind_Ok_inv in Hget as (d0 & Hd0 & Hget).
      injection Hget as <- <-.
      destruct (dict_truth d0) eqn:Htruth.
      + injection Hdata as -> <-. right. exists soft. auto.
      + left. eapply Hcomputed, Hdata.
    - destruct (fs !! filenameHard pychemqt sep filename) as [gz|].
      + apply bind_Ok_inv in Hget as (archivo & _ & Hget).
        apply bind_Ok_inv in Hget as (d0 & Hd0 & Hget).
        injection Hget as <- <-.
        destruct (dict_truth d0) eqn:Htruth.
        * injection Hdata as -> <-. left. split; [|exact Htruth].
          unfold _saveData. apply lookup_insert_eq.
        * left. eapply Hcomputed, Hdata.
      + injection Hget as <- <-. left. eapply Hcomputed, Hdata. }
  destruct Hcase as [[Hsoft Htruth] | (soft & Hsoft & Hsoftload & Htruth)].
  - apply plot_data_soft; assumption.
  - unfold plot_data, _getData, filenameSoft.
    rewrite Hsoft. cbn [mbind result_bind]. rewrite Hsoftload.
    cbn [mbind result_bind]. rewrite Htruth. cbn [mbind result_bind].
    unfold dict_get. rewrite Hc. reflexivity.
Qed.

End PlotDataFacts.

Lemma plot_data_cached_witness :
  let fs' := _saveData (gmap string PyVal) sample_pickle_dump
               "/home/user/.pychemqt/" (plot_filename "MEOS" "H2O")
               sample_plot_data ∅ in
  plot_data sample_pickle_dump sample_pickle_load Ok "/home/user/.pychemqt/"
    "/opt/pychemqt/" "/" sample_plot_config "MEOS"
    (plot_filename "MEOS" "H2O") (Ok sample_plot_lines) ∅
  = Ok (sample_plot_data, sample_plot_conf, fs') /\
  plot_data sample_pickle_dump sample_pickle_load Ok "/home/user/.pychemqt/"
    "/opt/pychemqt/" "/" pref_meos "MEOS"
    (plot_filename "MEOS" "H2O") (Raise ValueError) fs'
  = Ok (sample_plot_data, sample_plot_conf, fs').
Proof.
  intros fs'. split; [reflexivity|].
  apply (plot_data_cached sample_pickle_dump sample_pickle_load Ok
           "/home/user/.pychemqt/" "/opt/pychemqt/" "/" sample_plot_config
           pref_meos "MEOS" (plot_filename "MEOS" "H2O")
           (Ok sample_plot_lines) (Raise ValueError) ∅ fs' sample_plot_data
           sample_plot_conf); reflexivity.
Defined.
